(** * Course Advisor: a shallow embedding of [mcp_service.py] and of the
      intent resolver of [course_advisor_agent.py]

    The development follows the source file by file:
    - text primitives of Python's [str] ([strip], [lower], [upper], [in],
      [startswith], comparison) and a backtracking matcher for the subset of
      [re] patterns the program uses;
    - the loosely typed raw record (a JSON object) and the record normalizer
      ([_norm], [sec_raw_id], [sec_name], [sec_title], [sec_desc], [sec_dept],
      [sec_level], [sec_time_str]);
    - the time bucketer [_time_in_bin];
    - the query tools ([find_courses] ... [find_sections_filtered]);
    - [detect_intent] and the fallback block of [main].

    Scope of the model.  Text is its UTF-8 encoding, a sequence of bytes, and
    the character classes ([\d], [\s], [\w], case mapping) are the ASCII ones,
    so the embedding is exact on ASCII data.  The two non-ASCII literals of the
    source (the ellipsis of the preview and the en dash of the date range) are
    their UTF-8 bytes, and the slice of the preview counts characters, not
    bytes ([take_chars]).  JSON numbers with a fraction, arrays and objects occur
    as field values only through their truth value and their [str()] text. *)

From Stdlib Require Import ZArith Ascii String List DecimalString Lia.
From stdpp Require Import base strings list gmap.

Abbreviation str := (list ascii).
Coercion list_ascii_of_string : string >-> list.

(** ** Characters *)

Definition code (c : ascii) : N := N_of_ascii c.

Definition in_range (lo hi c : ascii) : bool :=
  (code lo <=? code c)%N && (code c <=? code hi)%N.

Definition is_digit (c : ascii) : bool := in_range "0" "9" c.
Definition is_upper (c : ascii) : bool := in_range "A" "Z" c.
Definition is_lower (c : ascii) : bool := in_range "a" "z" c.
Definition is_alpha (c : ascii) : bool := is_upper c || is_lower c.

(** [\w] on ASCII text. *)
Definition is_word (c : ascii) : bool :=
  is_alpha c || is_digit c || bool_decide (c = "_"%char).

(** [str.isspace] and [\s] agree below 128: TAB..CR, FS..US and the space. *)
Definition is_space (c : ascii) : bool :=
  ((9 <=? code c)%N && (code c <=? 13)%N) || ((28 <=? code c)%N && (code c <=? 32)%N).

Definition lower_c (c : ascii) : ascii :=
  if is_upper c then ascii_of_N (code c + 32) else c.
Definition upper_c (c : ascii) : ascii :=
  if is_lower c then ascii_of_N (code c - 32) else c.

(** ** Python [str] methods *)

Fixpoint lstrip_by (p : ascii → bool) (s : str) : str :=
  match s with
  | c :: s' => if p c then lstrip_by p s' else s
  | [] => []
  end.
Definition rstrip_by (p : ascii → bool) (s : str) : str :=
  reverse (lstrip_by p (reverse s)).
Definition strip_by (p : ascii → bool) (s : str) : str :=
  rstrip_by p (lstrip_by p s).

(** [s.strip()] *)
Definition strip (s : str) : str := strip_by is_space s.
(** [s.strip(chars)] *)
Definition strip_chars (chars s : str) : str :=
  strip_by (λ c, bool_decide (c ∈ chars)) s.

Definition lower (s : str) : str := map lower_c s.
Definition upper (s : str) : str := map upper_c s.

(** [s.startswith(pre)] *)
Fixpoint startswith (s pre : str) {struct pre} : bool :=
  match pre, s with
  | [], _ => true
  | _ :: _, [] => false
  | x :: pre', y :: s' => bool_decide (x = y) && startswith s' pre'
  end.

(** [sub in s] *)
Fixpoint py_in (sub s : str) : bool :=
  startswith s sub ||
  match s with
  | [] => false
  | _ :: s' => py_in sub s'
  end.

(** [t[:t.find(c)] if c in t else t] for a one-character [c]. *)
Fixpoint before_first (c : ascii) (t : str) : str :=
  match t with
  | [] => []
  | x :: t' => if bool_decide (x = c) then [] else x :: before_first c t'
  end.

(** [a <= b] on strings: lexicographic on character codes. *)
Fixpoint str_le (a b : str) : bool :=
  match a, b with
  | [], _ => true
  | _ :: _, [] => false
  | x :: a', y :: b' =>
      if (code x <? code y)%N then true
      else if (code y <? code x)%N then false
      else str_le a' b'
  end.

Definition nonempty (s : str) : bool :=
  match s with [] => false | _ => true end.

(** A byte that continues a character of more than one byte. *)
Definition is_continuation (c : ascii) : bool :=
  (128 <=? code c)%N && (code c <? 192)%N.

(** [s[:n]]: the first [n] characters of [s].  A character is a byte that
    is not a continuation byte, with the continuation bytes that follow it. *)
Fixpoint take_chars (n : nat) (s : str) : str :=
  match s with
  | [] => []
  | c :: s' =>
      if is_continuation c then c :: take_chars n s'
      else
        match n with
        | 0 => []
        | S n' => c :: take_chars n' s'
        end
  end.

(** [len(s)] *)
Definition len (s : str) : nat :=
  length (filter (λ c, is_continuation c = false) s).

(** [str(n)] for an integer. *)
Definition decimal (n : Z) : str := NilZero.string_of_int (Z.to_int n).

(** [int(s)] for a string of ASCII digits. *)
Definition digit_val (c : ascii) : Z := Z.of_N (code c) - 48.
Definition int_of_digits (s : str) : Z :=
  fold_left (λ acc c, 10 * acc + digit_val c)%Z s 0%Z.

(** [f"{n:02d}"] for a non-negative integer. *)
Definition fmt_02d (n : Z) : str :=
  let d := decimal n in
  match d with
  | [_] => "0"%char :: d
  | _ => d
  end.

(** ** The [re] subset used by the program *)

Module Re.

Inductive regex :=
| Eps
| Lit (c : ascii)
| Class (p : ascii → bool)
| Rep (p : ascii → bool) (lo : nat) (hi : option nat)
| WordB
| Seq (r1 r2 : regex)
| Alt (r1 r2 : regex)
| Group (i : nat) (r : regex).

(** Concatenation and alternation of several pieces. *)
Definition cat (rs : list regex) : regex := foldr Seq Eps rs.
Fixpoint alts (rs : list regex) : regex :=
  match rs with
  | [] => Class (λ _, false)
  | [r] => r
  | r :: rs' => Alt r (alts rs')
  end.
(** A literal text, as [re.escape] yields for letters and spaces. *)
Definition lits (s : str) : regex := cat (map Lit s).

(** One way of matching at a position: the groups captured, the text
    consumed, and what is left of the subject. *)
Definition hit : Type := list (nat * str) * str * str.

Definition last_or (prev : option ascii) (m : str) : option ascii :=
  match last m with
  | Some c => Some c
  | None => prev
  end.

Definition wordish (o : option ascii) : bool :=
  match o with
  | Some c => is_word c
  | None => false
  end.

(** [\b]: exactly one side of the position is a word character. *)
Definition at_boundary (prev : option ascii) (s : str) : bool :=
  xorb (wordish prev) (wordish (head s)).

Definition lit_eq (ic : bool) (c x : ascii) : bool :=
  if ic then bool_decide (lower_c x = lower_c c) else bool_decide (x = c).

(** Length of the longest prefix within the class. *)
Fixpoint span (p : ascii → bool) (s : str) : nat :=
  match s with
  | c :: s' => if p c then S (span p s') else 0
  | [] => 0
  end.

(** Repetition counts a greedy quantifier tries, longest first. *)
Definition rep_lens (lo : nat) (hi : option nat) (n : nat) : list nat :=
  let top := match hi with Some h => h `min` n | None => n end in
  reverse (seq lo (S top - lo)).

(** All ways of matching [r] at the head of [s], in the order in which a
    backtracking matcher explores them; [prev] is the character before the
    position and [ic] is [re.IGNORECASE] (it acts on literals; the classes
    of the flagged patterns are caseless). *)
Fixpoint run (ic : bool) (r : regex) (prev : option ascii) (s : str) : list hit :=
  match r with
  | Eps => [([], [], s)]
  | Lit c =>
      match s with
      | x :: s' => if lit_eq ic c x then [([], [x], s')] else []
      | [] => []
      end
  | Class p =>
      match s with
      | x :: s' => if p x then [([], [x], s')] else []
      | [] => []
      end
  | Rep p lo hi =>
      (λ k, ([], take k s, drop k s)) <$> rep_lens lo hi (span p s)
  | WordB => if at_boundary prev s then [([], [], s)] else []
  | Seq r1 r2 =>
      '(g1, m1, s1) ← run ic r1 prev s;
      '(g2, m2, s2) ← run ic r2 (last_or prev m1) s1;
      [(g1 ++ g2, m1 ++ m2, s2)]
  | Alt r1 r2 => run ic r1 prev s ++ run ic r2 prev s
  | Group i r =>
      (λ '(g, m, s'), ((i, m) :: g, m, s')) <$> run ic r prev s
  end.

(** [re.search]: the first way of matching at the leftmost position that
    has one. *)
Fixpoint search_from (ic : bool) (r : regex) (prev : option ascii) (s : str)
  : option hit :=
  match run ic r prev s with
  | h :: _ => Some h
  | [] =>
      match s with
      | [] => None
      | c :: s' => search_from ic r (Some c) s'
      end
  end.
Definition search (ic : bool) (r : regex) (s : str) : option hit :=
  search_from ic r None s.

(** [re.fullmatch]: the first way of matching that consumes the subject. *)
Definition fullmatch (ic : bool) (r : regex) (s : str) : option hit :=
  head (filter (λ h : hit, h.2 = []) (run ic r None s)).

(** [m.group(i)]; every group of the program's patterns takes part in
    every match, so the empty default is never observed. *)
Fixpoint captured (i : nat) (g : list (nat * str)) : option str :=
  match g with
  | [] => None
  | (j, m) :: g' => if bool_decide (j = i) then Some m else captured i g'
  end.
Definition group (i : nat) (h : hit) : str :=
  match i with
  | 0 => h.1.2
  | _ => default [] (captured i h.1.1)
  end.

(** Truth value of what [search] and [fullmatch] return. *)
Definition found (o : option hit) : bool :=
  match o with
  | Some _ => true
  | None => false
  end.

(** [re.sub(cls, "", s)] for a one-character class [cls]. *)
Definition sub_class (p : ascii → bool) (s : str) : str :=
  filter (λ c, p c = false) s.

End Re.

(** ** Raw records and the values they hold *)

(** A JSON value as the normalizer sees it.  [VOther] stands for a number
    with a fraction, an array or an object: the code only tests its truth
    value and takes its [str()]. *)
Inductive value :=
| VNone
| VBool (b : bool)
| VInt (n : Z)
| VStr (s : str)
| VOther (truth : bool) (text : str).

(** A section as loaded from the dataset: a JSON object. *)
Abbreviation record := (gmap string value).

Inductive exn := AttributeError.

Inductive result (A : Type) :=
| Ok (a : A)
| Raise (e : exn).
Arguments Ok {A} a.
Arguments Raise {A} e.

#[global] Instance result_ret : MRet result := λ A a, Ok a.
#[global] Instance result_bind : MBind result :=
  λ A B f m, match m with Ok a => f a | Raise e => Raise e end.

Definition truthy (v : value) : bool :=
  match v with
  | VNone => false
  | VBool b => b
  | VInt n => negb (n =? 0)%Z
  | VStr s => nonempty s
  | VOther t _ => t
  end.

(** [a or b] *)
Definition py_or (a b : value) : value := if truthy a then a else b.

(** [str(v)] *)
Definition py_str (v : value) : str :=
  match v with
  | VNone => "None"
  | VBool true => "True"
  | VBool false => "False"
  | VInt n => decimal n
  | VStr s => s
  | VOther _ text => text
  end.

(** [v.strip()]: only [str] has the method. *)
Definition strip_method (v : value) : result str :=
  match v with
  | VStr s => Ok (strip s)
  | _ => Raise AttributeError
  end.

(** [s.get(k)] *)
Definition dict_get (s : record) (k : string) : value := default VNone (s !! k).

(** ** Normalization helpers *)

(** [def _norm(s): return (s or "").strip()] *)
Definition _norm (s : value) : result str := strip_method (py_or s (VStr "")).

(** [_norm(str(s.get(k) or ""))] *)
Definition norm_str_of (s : record) (k : string) : result str :=
  _norm (VStr (py_str (py_or (dict_get s k) (VStr "")))).

Definition sec_raw_id (s : record) : result str :=
  subj ← _norm (dict_get s "Subject");
  num ← norm_str_of s "Crs_Number";
  sec ← norm_str_of s "Sec_Number";
  name ← _norm (dict_get s "Section_Name");
  if nonempty subj && nonempty num && nonempty sec then
    Ok (subj ++ " " ++ num ++ "-" ++ sec)
  else if nonempty name then Ok name
  else
    title ← _norm (dict_get s "Section_Title");
    period ← _norm (dict_get s "Period_RefID");
    Ok (title ++ "|" ++ period).

Definition sec_id (s : record) : result str := sec_raw_id s.

Definition sec_name (s : record) : result str :=
  name ← _norm (dict_get s "Section_Name");
  if nonempty name then Ok name
  else
    subj ← _norm (dict_get s "Subject");
    num ← norm_str_of s "Crs_Number";
    sec ← norm_str_of s "Sec_Number";
    Ok (strip (subj ++ " " ++ num ++ "-" ++ sec)).

(** [_norm(s.get(k1) or s.get(k2) or s.get(k3) or "")] *)
Definition first_of (s : record) (k1 k2 k3 : string) : result str :=
  _norm (py_or (py_or (py_or (dict_get s k1) (dict_get s k2)) (dict_get s k3))
               (VStr "")).

Definition sec_title (s : record) : result str :=
  first_of s "Section_Title" "CourseTitle" "course_title".
Definition sec_desc (s : record) : result str :=
  first_of s "Desc" "CourseDescription" "description".
Definition sec_dept (s : record) : result str :=
  first_of s "Subject" "Department" "department".

(** [[1-4]00] and [(\d)] *)
Definition re_level_exact : Re.regex :=
  Re.cat [Re.Class (in_range "1" "4"); Re.Lit "0"; Re.Lit "0"].
Definition re_digit : Re.regex := Re.Group 1 (Re.Class is_digit).

Definition sec_level (s : record) : result str :=
  lvl ← norm_str_of s "AcadLevel";
  if Re.found (Re.fullmatch false re_level_exact lvl) then Ok lvl
  else
    num ← norm_str_of s "Crs_Number";
    match Re.search false re_digit num with
    | Some m => Ok (Re.group 1 m ++ "00")
    | None => Ok []
    end.

Definition sec_time_str (s : record) : result str :=
  mtg ← _norm (dict_get s "MtgPattern");
  if nonempty mtg then Ok mtg
  else
    start ← _norm (dict_get s "StartDt");
    end_ ← _norm (dict_get s "EndDt");
    Ok (strip_chars " –" (start ++ " – " ++ end_)).

(** ** Time buckets *)

Definition _DEF_BINS : list (str * (str * str)) :=
  [ ("morning" : str,   ("06:00" : str, "11:59" : str));
    ("afternoon" : str, ("12:00" : str, "17:00" : str));
    ("evening" : str,   ("17:01" : str, "22:59" : str)) ].

(** [d.get(k)] on a dictionary kept in insertion order. *)
Fixpoint assoc_get {V : Type} (k : str) (d : list (str * V)) : option V :=
  match d with
  | [] => None
  | (k', v) :: d' => if bool_decide (k' = k) then Some v else assoc_get k d'
  end.

(** [\b(\d{1,2}):(\d{2})\b], [\bPM\b] and [\bAM\b] *)
Definition re_clock : Re.regex :=
  Re.cat [Re.WordB; Re.Group 1 (Re.Rep is_digit 1 (Some 2)); Re.Lit ":";
          Re.Group 2 (Re.Rep is_digit 2 (Some 2)); Re.WordB].
Definition re_PM : Re.regex := Re.cat [Re.WordB; Re.lits "PM"; Re.WordB].
Definition re_AM : Re.regex := Re.cat [Re.WordB; Re.lits "AM"; Re.WordB].

(** The locals [hh] and [mm] of [_time_in_bin] once the AM/PM marker before
    the dash has been applied, when the text holds a clock time. *)
Definition clock_start (t : str) : option (Z * str) :=
  match Re.search false re_clock t with
  | None => None
  | Some m =>
      let hh := int_of_digits (Re.group 1 m) in
      let mm := Re.group 2 m in
      let pre := before_first "-" t in
      let hh := if Re.found (Re.search true re_PM pre) && negb (hh =? 12)%Z
                then (hh + 12)%Z else hh in
      let hh := if Re.found (Re.search true re_AM pre) && (hh =? 12)%Z
                then 0%Z else hh in
      Some (hh, mm)
  end.

Definition _time_in_bin (t label : str) : bool :=
  match assoc_get label _DEF_BINS with
  | None => false
  | Some (lo, hi) =>
      if negb (nonempty t) then false
      else
        match clock_start t with
        | None => false
        | Some (hh, mm) =>
            let start := fmt_02d hh ++ ":" ++ mm in
            str_le lo start && str_le start hi
        end
  end.

(** ** The query tools

    [load_sections()] is the argument [data].  A tool that appends one row per
    selected section is modelled by the list of (section, row) pairs in the
    order of the appends; the tool's value is the list of rows. *)

Definition _contains (a b : str) : bool := py_in (lower b) (lower a).

(** ["\n"] *)
Definition newline : str := [ascii_of_N 10].

(** [subj == d or subj.startswith(d)] *)
Definition dept_matches (subj d : str) : bool :=
  bool_decide (subj = d) || startswith subj d.

Record course_row := {
  cr_section_id : str; cr_section_name : str; cr_course_title : str;
  cr_department : str; cr_level : str; cr_time : str }.

Record section_row := {
  sr_section_id : str; sr_section_name : str; sr_course_title : str;
  sr_time : str }.

Record brief_row := {
  br_section_id : str; br_section_name : str; br_course_title : str }.

Record filtered_row := {
  fr_section_id : str; fr_section_name : str; fr_course_title : str;
  fr_department : str; fr_level : str; fr_time : str; fr_preview : str }.

Definition course_row_of (s : record) : result course_row :=
  i ← sec_id s; n ← sec_name s; t ← sec_title s;
  d ← sec_dept s; l ← sec_level s; w ← sec_time_str s;
  Ok {| cr_section_id := i; cr_section_name := n; cr_course_title := t;
        cr_department := d; cr_level := l; cr_time := w |}.

Definition section_row_of (s : record) : result section_row :=
  i ← sec_id s; n ← sec_name s; t ← sec_title s; w ← sec_time_str s;
  Ok {| sr_section_id := i; sr_section_name := n; sr_course_title := t;
        sr_time := w |}.

Definition brief_row_of (s : record) : result brief_row :=
  i ← sec_id s; n ← sec_name s; t ← sec_title s;
  Ok {| br_section_id := i; br_section_name := n; br_course_title := t |}.

(** [for s in data: if test(s): out.append(row(s))] *)
Fixpoint collect {A : Type} (test : record → result bool)
    (row : record → result A) (data : list record)
  : result (list (record * A)) :=
  match data with
  | [] => Ok []
  | s :: data' =>
      b ← test s;
      if b : bool then
        a ← row s;
        out ← collect test row data';
        Ok ((s, a) :: out)
      else collect test row data'
  end.

Definition rows {A : Type} (r : result (list (record * A))) : result (list A) :=
  out ← r; Ok (out.*2).

Definition find_courses_hits (query : str) (data : list record) :=
  q ← _norm (VStr query);
  collect (λ s, t ← sec_title s; d ← sec_desc s;
                Ok (_contains (t ++ newline ++ d) q))
          course_row_of data.
Definition find_courses (query : str) (data : list record) : result (list course_row) :=
  rows (find_courses_hits query data).

Definition find_sections_hits (course_title : str) (data : list record) :=
  q ← _norm (VStr course_title);
  collect (λ s, t ← sec_title s; Ok (_contains t q)) section_row_of data.
Definition find_sections (course_title : str) (data : list record)
  : result (list section_row) :=
  rows (find_sections_hits course_title data).

Definition find_sections_by_department_hits (department : str) (data : list record) :=
  d0 ← _norm (VStr department);
  let d := upper d0 in
  collect (λ s, subj ← sec_dept s; Ok (dept_matches (upper subj) d))
          section_row_of data.
Definition find_sections_by_department (department : str) (data : list record)
  : result (list section_row) :=
  rows (find_sections_by_department_hits department data).

(** [(\d)00] and [(\d)xx] *)
Definition re_d00 : Re.regex :=
  Re.cat [Re.Group 1 (Re.Class is_digit); Re.Lit "0"; Re.Lit "0"].
Definition re_dxx : Re.regex :=
  Re.cat [Re.Group 1 (Re.Class is_digit); Re.Lit "x"; Re.Lit "x"].

(** [a or b] on what [re.search] returns. *)
Definition or_else (a b : option Re.hit) : option Re.hit :=
  match a with
  | Some _ => a
  | None => b
  end.

(** The local [lvl] of [find_sections_by_level]. *)
Definition level_cue (level : str) : str :=
  match or_else (Re.search false re_d00 level) (Re.search true re_dxx level) with
  | Some m => Re.group 1 m ++ "00"
  | None =>
      let digits := Re.sub_class (λ c, negb (is_digit c)) level in
      if nonempty digits then take 1 digits ++ "00" else []
  end.

Definition find_sections_by_level_hits (level : str) (data : list record) :=
  let lvl := level_cue level in
  collect (λ s, l ← sec_level s; Ok (bool_decide (l = lvl))) brief_row_of data.
Definition find_sections_by_level (level : str) (data : list record)
  : result (list brief_row) :=
  rows (find_sections_by_level_hits level data).

Definition find_sections_by_time_hits (time_of_day : str) (data : list record) :=
  b0 ← _norm (VStr time_of_day);
  let b := lower b0 in
  collect (λ s, w ← sec_time_str s; Ok (_time_in_bin w b)) brief_row_of data.
Definition find_sections_by_time (time_of_day : str) (data : list record)
  : result (list brief_row) :=
  rows (find_sections_by_time_hits time_of_day data).

(** What [get_section_details] returns: the raw record, or the
    [{"error": "not found", "section_id": sid}] object. *)
Inductive details :=
| Found (raw : record)
| NotFound (section_id : str).

(** [json.loads(json.dumps(s))]: a copy equal to [s]. *)
Definition json_copy (s : record) : record := s.

Fixpoint lookup_id (sid : str) (data : list record) : result details :=
  match data with
  | [] => Ok (NotFound sid)
  | s :: data' =>
      i ← sec_id s;
      if bool_decide (i = sid) then Ok (Found (json_copy s))
      else lookup_id sid data'
  end.

Definition get_section_details (section_id : str) (data : list record)
  : result details :=
  sid ← _norm (VStr section_id);
  lookup_id sid data.

(** *** The combined filter *)

(** Truth value of an [Optional[str]]. *)
Definition given (o : option str) : bool :=
  match o with
  | Some s => nonempty s
  | None => false
  end.

(** The inner [def _n(s): return (s or "").strip()]. *)
Definition _n (s : option str) : str := strip (default [] s).

(** [(\d)\s*00], [(\d)\s*xx] and [level\s*(\d)] *)
Definition re_d_00 : Re.regex :=
  Re.cat [Re.Group 1 (Re.Class is_digit); Re.Rep is_space 0 None;
          Re.Lit "0"; Re.Lit "0"].
Definition re_d_xx : Re.regex :=
  Re.cat [Re.Group 1 (Re.Class is_digit); Re.Rep is_space 0 None;
          Re.Lit "x"; Re.Lit "x"].
Definition re_level_d : Re.regex :=
  Re.cat [Re.lits "level"; Re.Rep is_space 0 None; Re.Group 1 (Re.Class is_digit)].

(** The local [lvl] of [find_sections_filtered]. *)
Definition filter_level_cue (level : option str) : option str :=
  match level with
  | Some level =>
      if nonempty level then
        match or_else (Re.search false re_d_00 level)
                (or_else (Re.search true re_d_xx level)
                         (Re.search true re_level_d level)) with
        | Some m => Some (Re.group 1 m ++ "00")
        | None =>
            let digits := Re.sub_class (λ c, negb (is_digit c)) level in
            if nonempty digits then Some (take 1 digits ++ "00") else None
        end
      else None
  | None => None
  end.

Definition ellipsis : str := "…".

(** The four guarded [continue]s of the loop body, in order: [true] when the
    section reaches the [append]. *)
Definition passes (q dep lvl bucket : option str) (s : record) (title desc : str)
  : result bool :=
  if given q && negb (py_in (lower (default [] q))
                            (lower (title ++ newline ++ desc)))
  then Ok false
  else
    dep_ok ← (if given dep then
                subj ← sec_dept s;
                Ok (dept_matches (upper subj) (default [] dep))
              else Ok true);
    if negb dep_ok then Ok false
    else
      lvl_ok ← (if given lvl then
                  l ← sec_level s; Ok (bool_decide (l = default [] lvl))
                else Ok true);
      if negb lvl_ok then Ok false
      else
        if given bucket then
          w ← sec_time_str s; Ok (_time_in_bin w (default [] bucket))
        else Ok true.

Definition filtered_row_of (s : record) (title desc : str) : result filtered_row :=
  i ← sec_id s; n ← sec_name s; d ← sec_dept s; l ← sec_level s;
  w ← sec_time_str s;
  Ok {| fr_section_id := i; fr_section_name := n; fr_course_title := title;
        fr_department := d; fr_level := l; fr_time := w;
        fr_preview := if nonempty desc then take_chars 220 desc ++ ellipsis else [] |}.

(** The [for] loop, with [out] the rows appended so far. *)
Fixpoint filtered_loop (q dep lvl bucket : option str) (limit : Z)
    (data : list record) (out : list (record * filtered_row))
  : result (list (record * filtered_row)) :=
  match data with
  | [] => Ok out
  | s :: data' =>
      title ← sec_title s;
      desc ← sec_desc s;
      keep ← passes q dep lvl bucket s title desc;
      if keep : bool then
        row ← filtered_row_of s title desc;
        let out' := out ++ [(s, row)] in
        if (Z.max 1 limit <=? Z.of_nat (length out'))%Z then Ok out'
        else filtered_loop q dep lvl bucket limit data' out'
      else filtered_loop q dep lvl bucket limit data' out
  end.

Definition find_sections_filtered_hits
    (query department level time_of_day : option str) (limit : Z)
    (data : list record) : result (list (record * filtered_row)) :=
  let dep := if given department then Some (upper (_n department)) else None in
  let q := if given query then Some (_n query) else None in
  let lvl := filter_level_cue level in
  let bucket := if given time_of_day then Some (lower (_n time_of_day)) else None in
  filtered_loop q dep lvl bucket limit data [].

Definition find_sections_filtered
    (query department level time_of_day : option str) (limit : Z)
    (data : list record) : result (list filtered_row) :=
  rows (find_sections_filtered_hits query department level time_of_day limit data).

(** ** The intent resolver *)

Definition SUBJECT_ALIASES : list (str * str) :=
  [ ("cs" : str, "COMPUTER SCIENCE" : str); ("csci" : str, "COMPUTER SCIENCE" : str);
    ("comp sci" : str, "COMPUTER SCIENCE" : str);
    ("computer science" : str, "COMPUTER SCIENCE" : str);
    ("engl" : str, "ENGLISH" : str); ("english" : str, "ENGLISH" : str);
    ("math" : str, "MATHEMATICS" : str); ("mathematics" : str, "MATHEMATICS" : str);
    ("phys" : str, "PHYSICS" : str); ("physics" : str, "PHYSICS" : str);
    ("bio" : str, "BIOLOGY" : str); ("biology" : str, "BIOLOGY" : str);
    ("chem" : str, "CHEMISTRY" : str); ("chemistry" : str, "CHEMISTRY" : str);
    ("phil" : str, "PHILOSOPHY" : str); ("philosophy" : str, "PHILOSOPHY" : str);
    ("econ" : str, "ECONOMICS" : str); ("economics" : str, "ECONOMICS" : str);
    ("soci" : str, "SOCIOLOGY" : str); ("sociology" : str, "SOCIOLOGY" : str);
    ("psych" : str, "PSYCHOLOGY" : str); ("psychology" : str, "PSYCHOLOGY" : str);
    ("hist" : str, "HISTORY" : str); ("history" : str, "HISTORY" : str);
    ("data" : str, "DATA SCIENCE" : str); ("data science" : str, "DATA SCIENCE" : str);
    ("is" : str, "INFORMATION SYSTEMS (INFO)" : str);
    ("info" : str, "INFORMATION SYSTEMS (INFO)" : str);
    ("information systems" : str, "INFORMATION SYSTEMS (INFO)" : str);
    ("spaud" : str, "SPEECH PATHOLOGY & AUDIOLOGY" : str);
    ("nursing" : str, "NURSING" : str);
    ("comm" : str, "COMMUNICATION" : str); ("communication" : str, "COMMUNICATION" : str);
    ("pe" : str, "PHYSICAL EDUCATION & RECREATION" : str);
    ("kines" : str, "KINESIOLOGY" : str); ("kinesiology" : str, "KINESIOLOGY" : str);
    ("bus" : str, "BUSINESS" : str); ("business" : str, "BUSINESS" : str);
    ("acct" : str, "ACCOUNTING" : str); ("accounting" : str, "ACCOUNTING" : str);
    ("stats" : str, "STATISTICS" : str); ("statistics" : str, "STATISTICS" : str);
    ("religion" : str, "RELIGION" : str);
    ("music" : str, "MUSIC" : str);
    ("studio art" : str, "STUDIO ART" : str); ("art" : str, "ART" : str);
    ("art history" : str, "ART HISTORY" : str);
    ("theatre" : str, "THEATRE" : str); ("theater" : str, "THEATRE" : str);
    ("spanish" : str, "SPANISH" : str); ("german" : str, "GERMAN" : str);
    ("french" : str, "FRENCH" : str); ("dutch" : str, "DUTCH" : str);
    ("chinese" : str, "CHINESE" : str); ("korean" : str, "KOREAN" : str);
    ("geology" : str, "GEOLOGY & GEOGRAPHY" : str);
    ("geography" : str, "GEOLOGY & GEOGRAPHY" : str);
    ("env studies" : str, "ENVIRONMENTAL STUDIES" : str);
    ("environmental studies" : str, "ENVIRONMENTAL STUDIES" : str);
    ("public health" : str, "PUBLIC HEALTH" : str);
    ("politics" : str, "POLITICS" : str);
    ("finance" : str, "FINANCE" : str); ("marketing" : str, "MARKETING" : str);
    ("management" : str, "MANAGEMENT" : str);
    ("supply chain" : str, "SUPPLY CHAIN MANAGEMENT" : str);
    ("ministry leadership" : str, "MINISTRY LEADERSHIP" : str);
    ("biochem" : str, "BIOCHEMISTRY" : str); ("biochemistry" : str, "BIOCHEMISTRY" : str);
    ("astronomy" : str, "ASTRONOMY" : str);
    ("calvin core" : str, "CALVIN CORE" : str) ].

(** [sorted(keys, key=len, reverse=True)]: longest first, keys of one length
    in their original order. *)
Fixpoint insert_by_len (x : str) (l : list str) : list str :=
  match l with
  | [] => [x]
  | y :: l' => if length x <? length y then y :: insert_by_len x l' else x :: l
  end.
Definition longest_first (l : list str) : list str := foldr insert_by_len [] l.

(** [\b{re.escape(key)}\b] *)
Definition re_whole_word (key : str) : Re.regex :=
  Re.cat [Re.WordB; Re.lits key; Re.WordB].

Fixpoint first_alias (ul : str) (keys : list str) : option str :=
  match keys with
  | [] => None
  | key :: keys' =>
      if Re.found (Re.search false (re_whole_word key) ul)
      then assoc_get key SUBJECT_ALIASES
      else first_alias ul keys'
  end.

Definition _normalize_department (text : str) : option str :=
  let ul := lower text in
  first_alias ul (longest_first (SUBJECT_ALIASES.*1)).

(** What [detect_intent] returns: the tool and its arguments, [NoTool] for
    [{"tool": None, "args": {}}]. *)
Inductive intent :=
| NoTool
| GetSectionDetails (section_id : str)
| FindSectionsFiltered (department level time_of_day : option str) (limit : Z)
| FindCourses (query : str).

(** [\b([A-Z][A-Za-z&\s]+)\b] *)
Definition re_subject : Re.regex :=
  Re.cat [Re.WordB;
          Re.Group 1 (Re.cat [Re.Class is_upper;
             Re.Rep (λ c, is_alpha c || bool_decide (c = "&"%char) || is_space c) 1 None]);
          Re.WordB].
(** [\b(1|2|3|4)00\b] and [\b([1-4])\s*xx\b] *)
Definition re_lvl_00 : Re.regex :=
  Re.cat [Re.WordB;
          Re.Group 1 (Re.alts [Re.Lit "1"; Re.Lit "2"; Re.Lit "3"; Re.Lit "4"]);
          Re.Lit "0"; Re.Lit "0"; Re.WordB].
Definition re_lvl_xx : Re.regex :=
  Re.cat [Re.WordB; Re.Group 1 (Re.Class (in_range "1" "4"));
          Re.Rep is_space 0 None; Re.Lit "x"; Re.Lit "x"; Re.WordB].
(** [\b([A-Z]{2,10}\s*\d{2,3}-[A-Z0-9]{1,3})\b] and [\b(\d{5,})\b] *)
Definition re_section_code : Re.regex :=
  Re.cat [Re.WordB;
          Re.Group 1 (Re.cat [Re.Rep is_upper 2 (Some 10); Re.Rep is_space 0 None;
                              Re.Rep is_digit 2 (Some 3); Re.Lit "-";
                              Re.Rep (λ c, is_upper c || is_digit c) 1 (Some 3)]);
          Re.WordB].
Definition re_long_number : Re.regex :=
  Re.cat [Re.WordB; Re.Group 1 (Re.Rep is_digit 5 None); Re.WordB].
(** [\b(ai|data|...|chemistry)\b] *)
Definition re_keyword : Re.regex :=
  Re.cat [Re.WordB;
          Re.Group 1 (Re.alts (map Re.lits
            [ "ai" : str; "data" : str; "ethics" : str; "security" : str;
              "writing" : str; "theatre" : str; "music" : str; "history" : str;
              "global" : str; "justice" : str; "psychology" : str;
              "network" : str; "biology" : str; "chemistry" : str ]));
          Re.WordB].

(** [next((x for x in xs if x in u), None)] *)
Fixpoint first_in (xs : list str) (u : str) : option str :=
  match xs with
  | [] => None
  | x :: xs' => if py_in x u then Some x else first_in xs' u
  end.

(** The test guarding the details branch. *)
Definition asks_details (u : str) : bool :=
  py_in "details" u || py_in "tell me more" u || py_in "id " u.

(** The local [sid] of the details branch. *)
Definition section_id_cue (utterance u : str) : option Re.hit :=
  or_else (Re.search false re_section_code utterance)
          (Re.search false re_long_number u).

Definition detect_intent (utterance : str) : intent :=
  let u := lower utterance in
  let dep := _normalize_department utterance in
  let dep :=
    if given dep then dep
    else
      match Re.search false re_subject utterance with
      | Some m =>
          let candidate := upper (strip (Re.group 1 m)) in
          if bool_decide (candidate ∈ SUBJECT_ALIASES.*2) then Some candidate
          else dep
      | None => dep
      end in
  let lvl :=
    match or_else (Re.search false re_lvl_00 u) (Re.search false re_lvl_xx u) with
    | Some m =>
        Some (if bool_decide (length m.1.1 = 1) && py_in (Re.group 1 m) "1234"
              then Re.group 1 m ++ "00" else Re.group 0 m)
    | None => None
    end in
  let tod := first_in ["morning" : str; "afternoon" : str; "evening" : str] u in
  let otherwise :=
    if given dep || given lvl || given tod then FindSectionsFiltered dep lvl tod 20
    else if Re.found (Re.search false re_keyword u) then FindCourses utterance
    else NoTool in
  if asks_details u then
    match section_id_cue utterance u with
    | Some sid => GetSectionDetails (strip (Re.group 1 sid))
    | None => otherwise
    end
  else otherwise.

(** ** The fallback of [main]

    [main] sends the intent of [detect_intent] to the server.  When the
    server does not list the combined filter ([has_combined] is false) a
    combined-filter intent is first rewritten into a call of one
    single-purpose tool. *)

(** The [intent] dictionary [main] acts on: [Clarify] when its tool is
    [None] and the clarifying question is printed, else the tool that is
    called with its arguments. *)
Inductive request :=
| Clarify
| CallGetSectionDetails (section_id : str)
| CallFindSectionsFiltered (department level time_of_day : option str) (limit : Z)
| CallFindCourses (query : str)
| CallFindSectionsByDepartment (department : str)
| CallFindSectionsByLevel (level : str)
| CallFindSectionsByTime (time_of_day : str).

(** The value of [intent] in [main] after the fallback block.  The
    combined-filter intent of [detect_intent] has no "query" key, so
    [intent["args"].get("query")] is [None]. *)
Definition main_intent (has_combined : bool) (i : intent) : request :=
  match i with
  | NoTool => Clarify
  | GetSectionDetails section_id => CallGetSectionDetails section_id
  | FindCourses query => CallFindCourses query
  | FindSectionsFiltered dep lvl tod limit =>
      if negb has_combined then
        let q : option str := None in
        if given q then CallFindCourses (default [] q)
        else if given dep then CallFindSectionsByDepartment (default [] dep)
        else if given lvl then CallFindSectionsByLevel (default [] lvl)
        else if given tod then CallFindSectionsByTime (default [] tod)
        else Clarify
      else CallFindSectionsFiltered dep lvl tod limit
  end.

(** * Vocabulary of the statements

    Predicates and data the lemmas and claims are stated with: what counts as
    a well-formed record, the example sections, and the wording of the
    specification where a claim is compared with the code. *)

(** The end characters of a text that stripping would leave alone. *)
Definition clear (p : ascii → bool) (o : option ascii) : bool :=
  match o with
  | Some c => negb (p c)
  | None => true
  end.

(** Neither end of [s] is a character of the class. *)
Definition edges_clear (p : ascii → bool) (s : str) : Prop :=
  clear p (head s) = true ∧ clear p (last s) = true.

(** The call returns a value: it does not raise. *)
Definition returns {A : Type} (r : result A) : Prop := ∃ a, r = Ok a.

(** The fields the normalizer reads with [_norm] alone. *)
Definition text_keys : list string :=
  [ "Subject"; "Section_Name"; "Section_Title"; "CourseTitle"; "course_title";
    "Desc"; "CourseDescription"; "description"; "Department"; "department";
    "MtgPattern"; "StartDt"; "EndDt"; "Period_RefID" ]%string.

(** A value [_norm] accepts: a string, or anything false ([None], [""], [0],
    [False], an empty array or object). *)
Definition textual (v : value) : bool :=
  match v with
  | VStr _ => true
  | _ => negb (truthy v)
  end.

(** Every text field is missing, null, false or a string. *)
Definition well_formed (s : record) : bool :=
  forallb (λ k, textual (dict_get s k)) text_keys.

(** All seven derivations return on [s]. *)
Definition normalizer_total (s : record) : Prop :=
  returns (sec_id s) ∧ returns (sec_name s) ∧ returns (sec_title s) ∧
  returns (sec_desc s) ∧ returns (sec_dept s) ∧ returns (sec_level s) ∧
  returns (sec_time_str s).

(** Scenario A of the specification, with a numeric course number. *)
Definition section_cs262 : record :=
  {[ "Subject" := VStr "CS"; "Crs_Number" := VInt 262; "Sec_Number" := VStr "01";
     "Section_Title" := VStr "Software Eng";
     "Desc" := VStr "Testing and teamwork."; "MtgPattern" := VStr "MWF 09:30" ]}.

(** A second row of the same section, told apart only by its campus. *)
Definition section_cs262_twin : record :=
  <["Campus" := VStr "North"]> section_cs262.

(** A section identified by its name alone, with an explicit level. *)
Definition section_engl300 : record :=
  {[ "Section_Name" := VStr "ENGL 300-A"; "Section_Title" := VStr "Chaucer";
     "AcadLevel" := VStr "300"; "MtgPattern" := VStr "TTH | 1:20 PM - 3:00 PM" ]}.

(** A graduate course: its number starts with 5. *)
Definition section_grad : record :=
  {[ "Subject" := VStr "EDUC"; "Crs_Number" := VStr "562"; "Sec_Number" := VStr "A" ]}.

(** A row whose section name came out of the export as a number. *)
Definition section_numeric_name : record :=
  {[ "Section_Name" := VInt 101; "Section_Title" := VStr "Seminar" ]}.

(** The row the combined filter builds for [section_cs262]. *)
Definition row_cs262 : filtered_row :=
  {| fr_section_id := "CS 262-01"; fr_section_name := "CS 262-01";
     fr_course_title := "Software Eng"; fr_department := "CS";
     fr_level := "200"; fr_time := "MWF 09:30";
     fr_preview := "Testing and teamwork.…" |}.

(** The values the docstring of [sec_level] promises. *)
Definition canonical_levels : list str :=
  [ [] ; "100" : str; "200" : str; "300" : str; "400" : str ].

(** The record's id is defined and differs from [sid]. *)
Definition other_id (sid : str) (s : record) : bool :=
  match sec_id s with
  | Ok i => negb (bool_decide (i = sid))
  | Raise _ => false
  end.

(** The preview as the specification words it: the first 220 characters,
    with an ellipsis only when something was cut. *)
Definition preview_as_specified (desc : str) : str :=
  take_chars 220 desc ++ (if 220 <? len desc then ellipsis else []).

(** The 256 characters. *)
Definition all_ascii : list ascii := ascii_of_nat <$> seq 0 256.

(** Every match of [r] consumes a character within [p]. *)
Fixpoint needs (ic : bool) (p : ascii → bool) (r : Re.regex) : bool :=
  match r with
  | Re.Eps | Re.WordB => false
  | Re.Lit c => forallb (λ x, implb (Re.lit_eq ic c x) (p x)) all_ascii
  | Re.Class q => forallb (λ x, implb (q x) (p x)) all_ascii
  | Re.Rep q lo _ => (0 <? lo) && forallb (λ x, implb (q x) (p x)) all_ascii
  | Re.Seq a b => needs ic p a || needs ic p b
  | Re.Alt a b => needs ic p a && needs ic p b
  | Re.Group _ a => needs ic p a
  end.

(** A level argument with no level cue: the tools fall back on the first
    digit anywhere, so this is a text without a digit. *)
Definition no_level_cue (level : str) : bool :=
  forallb (λ c, negb (is_digit c)) level.

(** A time-of-day argument that, trimmed and lowercased, names no bucket. *)
Definition unknown_bucket (time_of_day : str) : bool :=
  match assoc_get (lower (strip time_of_day)) _DEF_BINS with
  | None => true
  | Some _ => false
  end.

(** The keys of [_DEF_BINS]. *)
Definition bucket_names : list str :=
  [ "morning" : str; "afternoon" : str; "evening" : str ].

(** The buckets that classify a time text true. *)
Definition buckets_of (t : str) : list str :=
  List.filter (_time_in_bin t) bucket_names.

(** The hours no bucket covers, among 0..23. *)
Definition in_gap (hh : Z) : bool := (hh <=? 5)%Z || (hh =? 23)%Z.

(** The bucket of a start time between 06:00 and 22:59. *)
Definition bucket_for (hh mi : Z) : str :=
  if (hh <=? 11)%Z then "morning"
  else if (hh <=? 16)%Z || ((hh =? 17)%Z && (mi =? 0)%Z) then "afternoon"
  else "evening".

(** The comparison [lo <= start <= hi] against the bounds of a bucket. *)
Definition in_bin (start label : str) : bool :=
  match assoc_get label _DEF_BINS with
  | Some (lo, hi) => str_le lo start && str_le start hi
  | None => false
  end.

(** The hours of a day and the minute texts "00" .. "59". *)
Definition hours : list Z := Z.of_nat <$> seq 0 24.

Definition minute_texts : list str :=
  d1 ← ("012345" : str); d2 ← ("0123456789" : str); [[d1; d2]].

(** [phrase] occurs in [u]. *)
Definition mentions (phrase u : str) : Prop := ∃ pre post, u = pre ++ phrase ++ post.

(** The utterance holds "details", "tell me more" or "id ", in any letter
    case. *)
Definition asks_for_details (utterance : str) : Prop :=
  mentions "details" (lower utterance) ∨
  mentions "tell me more" (lower utterance) ∨
  mentions "id " (lower utterance).

(** The test of a selection loop held on [s]: it returned [True]. *)
Definition passed (test : record → result bool) (s : record) : bool :=
  match test s with
  | Ok true => true
  | _ => false
  end.

(** The department of [s], in capitals, starts with [code]. *)
Definition dept_starts_with (code : str) (s : record) : bool :=
  match sec_dept s with
  | Ok subj => startswith (upper subj) code
  | Raise _ => false
  end.

(** The row the department, title and time tools build for
    [section_cs262]. *)
Definition section_row_cs262 : section_row :=
  {| sr_section_id := "CS 262-01"; sr_section_name := "CS 262-01";
     sr_course_title := "Software Eng"; sr_time := "MWF 09:30" |}.

(** The loop body of the combined filter on one section, split in two: does
    the section reach the [append], and the row appended. *)
Definition filtered_test (q dep lvl bucket : option str) (s : record) : result bool :=
  title ← sec_title s; desc ← sec_desc s; passes q dep lvl bucket s title desc.

Definition filtered_row_for (s : record) : result filtered_row :=
  title ← sec_title s; desc ← sec_desc s; filtered_row_of s title desc.

(** [max(1, int(limit))] as a count of rows. *)
Definition row_cap (limit : Z) : nat := Z.to_nat (Z.max 1 limit).

(** The row the combined filter builds for [section_engl300]. *)
Definition row_engl300 : filtered_row :=
  {| fr_section_id := "ENGL 300-A"; fr_section_name := "ENGL 300-A";
     fr_course_title := "Chaucer"; fr_department := [];
     fr_level := "300"; fr_time := "TTH | 1:20 PM - 3:00 PM";
     fr_preview := [] |}.

(** An optional argument that is absent, empty or all blanks. *)
Definition blank_arg (o : option str) : bool := forallb is_space (default [] o).

(** The values of [AcadLevel] that [sec_level] takes as they are. *)
Definition explicit_levels : list str :=
  [ "100" : str; "200" : str; "300" : str; "400" : str ].

(** The derivation returns a text with no blank at either end. *)
Definition trimmed (r : result str) : Prop := ∃ w, r = Ok w ∧ strip w = w.

(** The row the level and time tools build for [section_cs262]. *)
Definition brief_row_cs262 : brief_row :=
  {| br_section_id := "CS 262-01"; br_section_name := "CS 262-01";
     br_course_title := "Software Eng" |}.

(** The alias [key] occurs in [ul] as a whole word: the test of the loop of
    [_normalize_department]. *)
Definition alias_matches (key ul : str) : bool :=
  Re.found (Re.search false (re_whole_word key) ul).

(** Every text of the list is at least as long as those after it. *)
Fixpoint longest_to_shortest (l : list str) : Prop :=
  match l with
  | [] => True
  | x :: l' => Forall (λ y, length y ≤ length x) l' ∧ longest_to_shortest l'
  end.

(** The sections a tool selects, without the rows built for them. *)
Definition selected {A : Type} (r : result (list (record * A))) : result (list record) :=
  out ← r; Ok (out.*1).

(** The four guards of the combined filter as truth values, for a section
    whose department, level and time are defined. *)
Definition text_ok (q : option str) (title desc : str) : bool :=
  negb (given q) || py_in (lower (default [] q)) (lower (title ++ newline ++ desc)).

Definition dept_ok (dep : option str) (s : record) : bool :=
  negb (given dep) ||
  match sec_dept s with
  | Ok subj => dept_matches (upper subj) (default [] dep)
  | Raise _ => false
  end.

Definition level_ok (lvl : option str) (s : record) : bool :=
  negb (given lvl) ||
  match sec_level s with
  | Ok l => bool_decide (l = default [] lvl)
  | Raise _ => false
  end.

Definition time_ok (bucket : option str) (s : record) : bool :=
  negb (given bucket) ||
  match sec_time_str s with
  | Ok w => _time_in_bin w (default [] bucket)
  | Raise _ => false
  end.

(** [b] is the argument [a], or no argument at all. *)
Definition relaxes (a b : option str) : Prop := b = a ∨ b = None.

(** The id can be looked up: the lookup returns a record of the dataset
    with that id. *)
Definition can_be_looked_up (data : list record) (i : str) : Prop :=
  ∃ s, get_section_details i data = Ok (Found s) ∧ sec_id s = Ok i ∧ s ∈ data.

(** The row the text search builds for [section_cs262]. *)
Definition course_row_cs262 : course_row :=
  {| cr_section_id := "CS 262-01"; cr_section_name := "CS 262-01";
     cr_course_title := "Software Eng"; cr_department := "CS";
     cr_level := "200"; cr_time := "MWF 09:30" |}.

(** The character is a colon. *)
Definition is_colon (c : ascii) : bool := bool_decide (c = ":"%char).

(** The time text of [s] is defined and holds a colon. *)
Definition has_colon_in_time (s : record) : Prop :=
  ∃ w, sec_time_str s = Ok w ∧ existsb is_colon w = true.

(** A section whose description came out of the export as a number: the id,
    name, title, department and time do not read it. *)
Definition section_numeric_desc : record :=
  <["Desc" := VInt 7]> section_engl300.

(** The derivations the department filter reads are defined on [s]. *)
Definition summarizable (s : record) : Prop :=
  returns (sec_dept s) ∧ returns (sec_id s) ∧ returns (sec_name s) ∧
  returns (sec_title s) ∧ returns (sec_time_str s).

(** The row is the summary of the section: its normalized id, name, title
    and time. *)
Definition summary_of (s : record) (row : section_row) : Prop :=
  sec_id s = Ok (sr_section_id row) ∧ sec_name s = Ok (sr_section_name row) ∧
  sec_title s = Ok (sr_course_title row) ∧ sec_time_str s = Ok (sr_time row).

(** [w] stands in [u] as a word of its own, after [pre] and before [post]:
    no letter, digit or underscore comes directly before or after it. *)
Definition stands_at (u pre w post : str) : Prop :=
  u = pre ++ w ++ post ∧
  Re.wordish (last pre) = false ∧ Re.wordish (head post) = false.

(** [w] is the first text of the given shape that stands in [u] as a word
    of its own. *)
Definition first_standing (shape : str → Prop) (u w : str) : Prop :=
  ∃ pre post,
    stands_at u pre w post ∧ shape w ∧
    ∀ pre' w' post', stands_at u pre' w' post' → shape w' →
                     length pre ≤ length pre'.

(** No text of the given shape stands in [u] as a word of its own. *)
Definition none_standing (shape : str → Prop) (u : str) : Prop :=
  ∀ pre w post, stands_at u pre w post → ¬ shape w.

(** A section code: 2 to 10 capital letters, optional blanks, 2 or 3
    digits, a hyphen, and 1 to 3 capital letters or digits. *)
Definition section_code (code : str) : Prop :=
  ∃ letters gap digits tail,
    code = letters ++ gap ++ digits ++ "-" ++ tail ∧
    forallb is_upper letters = true ∧ 2 ≤ length letters ≤ 10 ∧
    forallb is_space gap = true ∧
    forallb is_digit digits = true ∧ 2 ≤ length digits ≤ 3 ∧
    forallb (λ c, is_upper c || is_digit c) tail = true ∧ 1 ≤ length tail ≤ 3.

(** A run of five or more digits. *)
Definition long_number (w : str) : Prop :=
  forallb is_digit w = true ∧ 5 ≤ length w.

(** A clock time: an hour of one or two digits, a colon and a minute of two
    digits. *)
Definition clock_text (hour minute w : str) : Prop :=
  w = hour ++ ":" ++ minute ∧
  forallb is_digit hour = true ∧ 1 ≤ length hour ≤ 2 ∧
  forallb is_digit minute = true ∧ length minute = 2.

Definition a_clock_time (w : str) : Prop := ∃ hour minute, clock_text hour minute w.

(** The number a text of decimal digits writes, read by the Standard
    Library. *)
Definition number (s : str) : option Z :=
  Z.of_uint <$> NilZero.uint_of_string (string_of_list_ascii s).

(** [before] is the text up to the first hyphen of [t], all of [t] when it
    has none. *)
Definition before_dash (t before : str) : Prop :=
  ("-"%char ∉ before) ∧ (t = before ∨ ∃ rest, t = before ++ "-" ++ rest).

(** The marker, in any letter case, stands in [s] as a word of its own. *)
Definition marker_stands (marker s : str) : Prop :=
  ∃ pre w post, stands_at s pre w post ∧ lower w = lower marker.

(** The hour on the 24-hour clock: 12 is added for PM unless the hour is
    12, and 12 AM is 0. *)
Definition resolved_hour (hour : Z) (pm am : bool) : Z :=
  let hour := if pm && negb (hour =? 12)%Z then (hour + 12)%Z else hour in
  if am && (hour =? 12)%Z then 0%Z else hour.

(** [\bab\b] for a marker of two letters [a] and [b]. *)
Definition re_marker (a b : ascii) : Re.regex :=
  Re.cat [Re.WordB; Re.Seq (Re.Lit a) (Re.Seq (Re.Lit b) Re.Eps); Re.WordB].

(** What a match of the clock pattern captures of the clock time [w]. *)
Definition clock_groups_of (h : Re.hit) (w : str) : Prop :=
  ∃ hour minute, clock_text hour minute w ∧
                 Re.group 1 h = hour ∧ Re.group 2 h = minute.

(** * Properties *)

(** ** Text *)

Section strip_facts.
Variable p : ascii → bool.

Lemma lstrip_by_fixed s : clear p (head s) = true → lstrip_by p s = s.
Proof. destruct s as [|c s]; simpl; [done|]. by destruct (p c). Qed.

Lemma lstrip_by_head s : clear p (head (lstrip_by p s)) = true.
Proof.
  induction s as [|c s IH]; simpl; [done|].
  destruct (p c) eqn:E; [done|]. simpl. by rewrite E.
Qed.

Lemma lstrip_by_snoc s c :
  p c = false → lstrip_by p (s ++ [c]) = lstrip_by p s ++ [c].
Proof.
  intros Hc. induction s as [|x s IH]; simpl.
  - by rewrite Hc.
  - by destruct (p x).
Qed.

Lemma rstrip_by_fixed s : clear p (last s) = true → rstrip_by p s = s.
Proof.
  intros H. unfold rstrip_by.
  rewrite lstrip_by_fixed; [apply reverse_involutive|].
  by rewrite head_reverse.
Qed.

Lemma rstrip_by_last s : clear p (last (rstrip_by p s)) = true.
Proof. unfold rstrip_by. rewrite last_reverse. apply lstrip_by_head. Qed.

Lemma rstrip_by_head s :
  clear p (head s) = true → clear p (head (rstrip_by p s)) = true.
Proof.
  destruct s as [|c s]; [done|]. simpl. intros Hc.
  apply negb_true_iff in Hc. unfold rstrip_by.
  rewrite reverse_cons, lstrip_by_snoc by done.
  rewrite reverse_app. simpl. by rewrite Hc.
Qed.

Lemma strip_by_edges s : edges_clear p (strip_by p s).
Proof.
  split; [|apply rstrip_by_last].
  apply rstrip_by_head, lstrip_by_head.
Qed.

Lemma strip_by_fixed s : edges_clear p s → strip_by p s = s.
Proof.
  intros [Hh Hl]. unfold strip_by.
  rewrite lstrip_by_fixed by done. by apply rstrip_by_fixed.
Qed.

Lemma strip_by_idem s : strip_by p (strip_by p s) = strip_by p s.
Proof. apply strip_by_fixed, strip_by_edges. Qed.

Lemma edges_clear_glue a x mid y b :
  edges_clear p a → edges_clear p b → a ≠ [] → b ≠ [] →
  edges_clear p (a ++ x :: mid ++ y :: b).
Proof.
  intros [Ha _] [_ Hb] Hna Hnb. split.
  - destruct a; [done|]. exact Ha.
  - replace (a ++ x :: mid ++ y :: b) with ((a ++ x :: mid ++ [y]) ++ b)
      by (by rewrite <- !app_assoc; simpl; rewrite <- app_assoc).
    rewrite last_app.
    destruct (last b) eqn:E; [done|].
    apply last_None in E. done.
Qed.

Lemma edges_clear_sep a c b :
  edges_clear p a → edges_clear p b → p c = false →
  edges_clear p (a ++ [c] ++ b).
Proof.
  intros [Ha _] [_ Hb] Hc. split.
  - destruct a; simpl; [by rewrite Hc|exact Ha].
  - rewrite app_assoc, last_app.
    destruct (last b) eqn:E; [done|].
    rewrite last_snoc. simpl. by rewrite Hc.
Qed.
End strip_facts.

Lemma strip_idem s : strip (strip s) = strip s.
Proof. apply strip_by_idem. Qed.

Lemma nonempty_true (s : str) : nonempty s = true ↔ s ≠ [].
Proof. by destruct s. Qed.

Lemma nonempty_false (s : str) : nonempty s = false ↔ s = [].
Proof. by destruct s. Qed.

Lemma startswith_spec (s pre : str) :
  startswith s pre = true ↔ ∃ post, s = pre ++ post.
Proof.
  revert s. induction pre as [|x pre IH]; intros s; simpl.
  - split; eauto.
  - destruct s as [|y s].
    + split; [done|]. by intros [? ?].
    + rewrite andb_true_iff, bool_decide_eq_true, IH. split.
      * intros [-> [post ->]]. eauto.
      * intros [post [= -> ->]]. eauto.
Qed.

Lemma startswith_nil (s : str) : startswith s [] = true.
Proof. by destruct s. Qed.

Lemma py_in_spec (sub s : str) :
  py_in sub s = true ↔ ∃ pre post, s = pre ++ sub ++ post.
Proof.
  induction s as [|c s IH]; simpl.
  - rewrite orb_false_r, startswith_spec. split.
    + intros [post E]. exists [], post. done.
    + intros (pre & post & E). symmetry in E.
      apply app_eq_nil in E as [-> E]. exists post. done.
  - rewrite orb_true_iff, startswith_spec, IH. split.
    + intros [[post E]|(pre & post & E)].
      * exists [], post. done.
      * exists (c :: pre), post. by rewrite E.
    + intros (pre & post & E). destruct pre as [|x pre].
      * left. eauto.
      * right. injection E as -> ->. eauto.
Qed.

Lemma lower_app (a b : str) : lower (a ++ b) = lower a ++ lower b.
Proof. apply map_app. Qed.

Lemma py_in_lower (sub s : str) :
  py_in sub s = true → py_in (lower sub) (lower s) = true.
Proof.
  rewrite !py_in_spec. intros (pre & post & ->).
  exists (lower pre), (lower post). by rewrite !lower_app.
Qed.

(** ** The record normalizer *)

Lemma well_formed_key s k :
  well_formed s = true → k ∈ text_keys → textual (dict_get s k) = true.
Proof.
  unfold well_formed. rewrite forallb_forall. intros H Hk.
  apply H. by apply list_elem_of_In.
Qed.

Ltac text_key :=
  match goal with
  | H : well_formed ?s = true |- textual (dict_get ?s ?k) = true =>
      apply (well_formed_key s k H); unfold text_keys;
      repeat (first [apply list_elem_of_here | apply list_elem_of_further])
  end.

Lemma _norm_textual v :
  textual v = true → ∃ x, _norm v = Ok x ∧ edges_clear is_space x.
Proof.
  intros Hv. unfold _norm, py_or.
  destruct v as [|b|n|x|t x]; simpl in *;
    try (apply negb_true_iff in Hv; rewrite Hv; simpl);
    try (eexists; split; [reflexivity|apply strip_by_edges]).
  destruct (nonempty x); simpl; eexists; (split; [reflexivity|apply strip_by_edges]).
Qed.

Lemma _norm_str v : ∃ x, _norm (VStr v) = Ok x ∧ edges_clear is_space x.
Proof. by apply _norm_textual. Qed.

Lemma norm_str_of_ok s k :
  ∃ x, norm_str_of s k = Ok x ∧ edges_clear is_space x.
Proof. apply _norm_str. Qed.

Lemma py_or_textual a b :
  textual a = true → textual b = true → textual (py_or a b) = true.
Proof. unfold py_or. by destruct (truthy a). Qed.

Lemma first_of_ok s k1 k2 k3 :
  textual (dict_get s k1) = true → textual (dict_get s k2) = true →
  textual (dict_get s k3) = true →
  ∃ x, first_of s k1 k2 k3 = Ok x ∧ edges_clear is_space x.
Proof.
  intros H1 H2 H3. apply _norm_textual. by repeat apply py_or_textual.
Qed.

Lemma sec_title_ok s : well_formed s = true → returns (sec_title s).
Proof.
  intros H. destruct (first_of_ok s "Section_Title" "CourseTitle" "course_title")
    as (x & E & _); [text_key..|]. by exists x.
Qed.

Lemma sec_desc_ok s : well_formed s = true → returns (sec_desc s).
Proof.
  intros H. destruct (first_of_ok s "Desc" "CourseDescription" "description")
    as (x & E & _); [text_key..|]. by exists x.
Qed.

Lemma sec_dept_ok s : well_formed s = true → returns (sec_dept s).
Proof.
  intros H. destruct (first_of_ok s "Subject" "Department" "department")
    as (x & E & _); [text_key..|]. by exists x.
Qed.

(** The synthesized id never raises on a well-formed record, and it carries
    no surrounding blanks. *)
Lemma sec_id_ok s :
  well_formed s = true → ∃ i, sec_id s = Ok i ∧ strip i = i.
Proof.
  intros H. unfold sec_id, sec_raw_id.
  destruct (_norm_textual (dict_get s "Subject")) as (subj & -> & Hsubj); [text_key|].
  destruct (norm_str_of_ok s "Crs_Number") as (num & -> & Hnum).
  destruct (norm_str_of_ok s "Sec_Number") as (sec & -> & Hsec).
  destruct (_norm_textual (dict_get s "Section_Name")) as (name & -> & Hname); [text_key|].
  destruct (_norm_textual (dict_get s "Section_Title")) as (title & -> & Htitle); [text_key|].
  destruct (_norm_textual (dict_get s "Period_RefID")) as (period & -> & Hperiod); [text_key|].
  simpl.
  destruct (nonempty subj && nonempty num && nonempty sec) eqn:E.
  - apply andb_true_iff in E as [E E3]. apply andb_true_iff in E as [E1 E2].
    apply nonempty_true in E1, E3.
    eexists; split; [reflexivity|].
    apply strip_by_fixed.
    by apply edges_clear_glue.
  - destruct (nonempty name).
    + eexists; split; [reflexivity|]. by apply strip_by_fixed.
    + eexists; split; [reflexivity|].
      apply strip_by_fixed. by apply edges_clear_sep.
Qed.

Lemma sec_name_ok s : well_formed s = true → returns (sec_name s).
Proof.
  intros H. unfold sec_name.
  destruct (_norm_textual (dict_get s "Section_Name")) as (name & -> & _); [text_key|].
  destruct (_norm_textual (dict_get s "Subject")) as (subj & -> & _); [text_key|].
  destruct (norm_str_of_ok s "Crs_Number") as (num & -> & _).
  destruct (norm_str_of_ok s "Sec_Number") as (sec & -> & _).
  simpl. destruct (nonempty name); by eexists.
Qed.

Lemma sec_level_ok s : returns (sec_level s).
Proof.
  unfold sec_level.
  destruct (norm_str_of_ok s "AcadLevel") as (lvl & -> & _).
  destruct (norm_str_of_ok s "Crs_Number") as (num & -> & _).
  simpl. destruct (Re.found _); [by eexists|].
  destruct (Re.search _ _ _); by eexists.
Qed.

Lemma sec_time_str_ok s : well_formed s = true → returns (sec_time_str s).
Proof.
  intros H. unfold sec_time_str.
  destruct (_norm_textual (dict_get s "MtgPattern")) as (mtg & -> & _); [text_key|].
  destruct (_norm_textual (dict_get s "StartDt")) as (start & -> & _); [text_key|].
  destruct (_norm_textual (dict_get s "EndDt")) as (end_ & -> & _); [text_key|].
  simpl. destruct (nonempty mtg); by eexists.
Qed.

Lemma _norm_VStr (x : str) : _norm (VStr x) = Ok (strip x).
Proof. unfold _norm, py_or. by destruct x. Qed.

Lemma course_row_of_ok s : well_formed s = true → returns (course_row_of s).
Proof.
  intros H. unfold course_row_of.
  destruct (sec_id_ok s H) as (i & -> & _).
  destruct (sec_name_ok s H) as (n & ->).
  destruct (sec_title_ok s H) as (t & ->).
  destruct (sec_dept_ok s H) as (d & ->).
  destruct (sec_level_ok s) as (l & ->).
  destruct (sec_time_str_ok s H) as (w & ->).
  by eexists.
Qed.

Lemma section_row_of_ok s : well_formed s = true → returns (section_row_of s).
Proof.
  intros H. unfold section_row_of.
  destruct (sec_id_ok s H) as (i & -> & _).
  destruct (sec_name_ok s H) as (n & ->).
  destruct (sec_title_ok s H) as (t & ->).
  destruct (sec_time_str_ok s H) as (w & ->).
  by eexists.
Qed.

Lemma brief_row_of_ok s : well_formed s = true → returns (brief_row_of s).
Proof.
  intros H. unfold brief_row_of.
  destruct (sec_id_ok s H) as (i & -> & _).
  destruct (sec_name_ok s H) as (n & ->).
  destruct (sec_title_ok s H) as (t & ->).
  by eexists.
Qed.

Lemma filtered_row_of_ok s title desc :
  well_formed s = true → returns (filtered_row_of s title desc).
Proof.
  intros H. unfold filtered_row_of.
  destruct (sec_id_ok s H) as (i & -> & _).
  destruct (sec_name_ok s H) as (n & ->).
  destruct (sec_dept_ok s H) as (d & ->).
  destruct (sec_level_ok s) as (l & ->).
  destruct (sec_time_str_ok s H) as (w & ->).
  by eexists.
Qed.

(** ** The selection loop *)

Section collect_facts.
Context {A : Type} (test : record → result bool) (row : record → result A).

Lemma collect_returns data :
  (∀ s, s ∈ data → returns (test s) ∧ returns (row s)) →
  returns (collect test row data).
Proof.
  induction data as [|s data IH]; intros H; simpl; [by eexists|].
  destruct (H s) as [[b ->] [a Ha]]; [apply list_elem_of_here|].
  destruct IH as [out Hout].
  { intros x Hx. apply H. by apply list_elem_of_further. }
  simpl. destruct b; [|by eexists].
  rewrite Ha. simpl. rewrite Hout. by eexists.
Qed.

(** A selected pair is a section of the data that passed the test, with
    the row built for it. *)
Lemma collect_sound data out s a :
  collect test row data = Ok out → (s, a) ∈ out →
  s ∈ data ∧ test s = Ok true ∧ row s = Ok a.
Proof.
  revert out. induction data as [|x data IH]; intros out; simpl.
  - intros [= <-] Hin. by apply elem_of_nil in Hin.
  - destruct (test x) as [b|e] eqn:Et; simpl; [|done].
    destruct b.
    + destruct (row x) as [a'|e] eqn:Er; simpl; [|done].
      destruct (collect test row data) as [out'|e]; simpl; [|done].
      intros [= <-] Hin. apply elem_of_cons in Hin as [[= -> ->]|Hin].
      * split; [apply list_elem_of_here|done].
      * destruct (IH out' eq_refl Hin) as (? & ? & ?).
        split; [by apply list_elem_of_further|done].
    + intros Hc Hin. destruct (IH out Hc Hin) as (? & ? & ?).
      split; [by apply list_elem_of_further|done].
Qed.

(** Every section of the data that passes the test is selected. *)
Lemma collect_complete data out s :
  collect test row data = Ok out → s ∈ data → test s = Ok true →
  s ∈ out.*1.
Proof.
  revert out. induction data as [|x data IH]; intros out; simpl.
  - intros _ Hin. by apply elem_of_nil in Hin.
  - destruct (test x) as [b|e] eqn:Et; simpl; [|done].
    destruct b.
    + destruct (row x) as [a'|e] eqn:Er; simpl; [|done].
      destruct (collect test row data) as [out'|e]; simpl; [|done].
      intros [= <-] Hin Hs. simpl.
      apply elem_of_cons in Hin as [->|Hin]; [apply list_elem_of_here|].
      apply list_elem_of_further. by apply IH.
    + intros Hc Hin Hs. apply elem_of_cons in Hin as [->|Hin]; [congruence|].
      by apply IH.
Qed.

(** When every section passes, every section gets its row, in order. *)
Lemma collect_all data out :
  collect test row data = Ok out →
  (∀ s, s ∈ data → test s = Ok true) →
  out.*1 = data ∧ Forall (λ '(s, a), row s = Ok a) out.
Proof.
  revert out. induction data as [|x data IH]; intros out; simpl.
  - intros [= <-] _. by split.
  - intros Hc Hall. rewrite (Hall x) in Hc by apply list_elem_of_here.
    simpl in Hc.
    destruct (row x) as [a'|e] eqn:Er; simpl in Hc; [|done].
    destruct (collect test row data) as [out'|e]; simpl in Hc; [|done].
    injection Hc as <-.
    destruct (IH out' eq_refl) as [E F].
    { intros s Hs. apply Hall. by apply list_elem_of_further. }
    split; [by rewrite fmap_cons, E|by constructor].
Qed.

(** When no section passes, nothing is selected. *)
Lemma collect_none data :
  (∀ s, s ∈ data → test s = Ok false) → collect test row data = Ok [].
Proof.
  induction data as [|x data IH]; intros Hall; simpl; [done|].
  rewrite (Hall x) by apply list_elem_of_here. simpl.
  apply IH. intros s Hs. apply Hall. by apply list_elem_of_further.
Qed.
End collect_facts.

(** ** The matcher *)

Section run_facts.
Import Re.
Variable ic : bool.

Lemma last_or_cons prev c (m : str) : last_or prev (c :: m) = last_or (Some c) m.
Proof. unfold last_or. rewrite last_cons. by destruct (last m). Qed.

Lemma last_or_app prev (a b : str) :
  last_or prev (a ++ b) = last_or (last_or prev a) b.
Proof. unfold last_or. rewrite last_app. by destruct (last b). Qed.

Lemma elem_of_run_Eps prev s h : h ∈ run ic Eps prev s ↔ h = ([], [], s).
Proof. simpl. apply list_elem_of_singleton. Qed.

Lemma elem_of_run_Lit c prev s h :
  h ∈ run ic (Lit c) prev s ↔
  ∃ x s', s = x :: s' ∧ lit_eq ic c x = true ∧ h = ([], [x], s').
Proof.
  simpl. destruct s as [|x s'].
  - split; [by intros ?%elem_of_nil|]. by intros (? & ? & ? & _).
  - destruct (lit_eq ic c x) eqn:E.
    + rewrite list_elem_of_singleton. split; [intros ->; eauto|].
      by intros (? & ? & [= <- <-] & _ & ->).
    + split; [by intros ?%elem_of_nil|].
      intros (? & ? & [= <- <-] & ? & _). congruence.
Qed.

Lemma elem_of_run_Class p prev s h :
  h ∈ run ic (Class p) prev s ↔
  ∃ x s', s = x :: s' ∧ p x = true ∧ h = ([], [x], s').
Proof.
  simpl. destruct s as [|x s'].
  - split; [by intros ?%elem_of_nil|]. by intros (? & ? & ? & _).
  - destruct (p x) eqn:E.
    + rewrite list_elem_of_singleton. split; [intros ->; eauto|].
      by intros (? & ? & [= <- <-] & _ & ->).
    + split; [by intros ?%elem_of_nil|].
      intros (? & ? & [= <- <-] & ? & _). congruence.
Qed.

Lemma elem_of_run_WordB prev s h :
  h ∈ run ic WordB prev s ↔ at_boundary prev s = true ∧ h = ([], [], s).
Proof.
  simpl. destruct (at_boundary prev s).
  - rewrite list_elem_of_singleton. split; [by intros ->|by intros [_ ->]].
  - split; [by intros ?%elem_of_nil|]. by intros [? _].
Qed.

Lemma elem_of_run_Seq r1 r2 prev s h :
  h ∈ run ic (Seq r1 r2) prev s ↔
  ∃ g1 m1 s1 g2 m2 s2,
    (g1, m1, s1) ∈ run ic r1 prev s ∧
    (g2, m2, s2) ∈ run ic r2 (last_or prev m1) s1 ∧
    h = (g1 ++ g2, m1 ++ m2, s2).
Proof.
  simpl. rewrite list_elem_of_bind. split.
  - intros ([[g1 m1] s1] & Hh & H1).
    apply list_elem_of_bind in Hh as ([[g2 m2] s2] & Hh & H2).
    apply list_elem_of_singleton in Hh. subst h.
    by exists g1, m1, s1, g2, m2, s2.
  - intros (g1 & m1 & s1 & g2 & m2 & s2 & H1 & H2 & ->).
    exists (g1, m1, s1). split; [|done].
    apply list_elem_of_bind. exists (g2, m2, s2). split; [|done].
    by apply list_elem_of_singleton.
Qed.

Lemma elem_of_run_Alt r1 r2 prev s h :
  h ∈ run ic (Alt r1 r2) prev s ↔ h ∈ run ic r1 prev s ∨ h ∈ run ic r2 prev s.
Proof. simpl. apply elem_of_app. Qed.

Lemma elem_of_run_Group i r prev s h :
  h ∈ run ic (Group i r) prev s ↔
  ∃ g m s', (g, m, s') ∈ run ic r prev s ∧ h = ((i, m) :: g, m, s').
Proof.
  simpl. rewrite list_elem_of_fmap. split.
  - intros ([[g m] s'] & -> & H). eauto.
  - intros (g & m & s' & H & ->). by exists (g, m, s').
Qed.

Lemma span_le p (s : str) : span p s ≤ length s.
Proof. induction s as [|c s IH]; simpl; [lia|]. destruct (p c); simpl; lia. Qed.

Lemma span_take p (s : str) k : k ≤ span p s → forallb p (take k s) = true.
Proof.
  revert k. induction s as [|c s IH]; intros k; simpl.
  - by destruct k.
  - destruct (p c) eqn:E; destruct k as [|k]; simpl; try done; try lia.
    intros Hk. rewrite E. apply IH. lia.
Qed.

Lemma span_prefix p (m rest : str) :
  forallb p m = true → length m ≤ span p (m ++ rest).
Proof.
  induction m as [|c m IH]; simpl; [lia|].
  intros [-> Hm]%andb_true_iff. specialize (IH Hm). lia.
Qed.

Lemma elem_of_rep_lens lo hi n k :
  k ∈ rep_lens lo hi n ↔ lo ≤ k ∧ k ≤ n ∧ ∀ b, hi = Some b → k ≤ b.
Proof.
  unfold rep_lens. rewrite elem_of_reverse, elem_of_seq.
  destruct hi as [b|]; split.
  - intros ?. split; [lia|]. split; [lia|]. intros ? [= <-]. lia.
  - intros (? & ? & Hb). specialize (Hb b eq_refl). lia.
  - intros ?. split; [lia|]. split; [lia|]. done.
  - intros (? & ? & _). lia.
Qed.

Lemma elem_of_run_Rep p lo hi prev s h :
  h ∈ run ic (Rep p lo hi) prev s ↔
  ∃ m rest, h = ([], m, rest) ∧ s = m ++ rest ∧ forallb p m = true ∧
            lo ≤ length m ∧ ∀ b, hi = Some b → length m ≤ b.
Proof.
  simpl. rewrite list_elem_of_fmap. split.
  - intros (k & -> & (Hlo & Hn & Hhi)%elem_of_rep_lens).
    pose proof (span_le p s).
    exists (take k s), (drop k s). rewrite take_drop, length_take.
    split; [done|]. split; [done|]. split; [by apply span_take|].
    split; [lia|]. intros b Hb. specialize (Hhi b Hb). lia.
  - intros (m & rest & -> & -> & Hm & Hlo & Hhi).
    exists (length m). rewrite take_app_length, drop_app_length.
    split; [done|]. apply elem_of_rep_lens.
    split; [done|]. split; [by apply span_prefix|done].
Qed.

(** What a match consumes and what it leaves make up the subject. *)
Lemma run_consumes r prev s g m rest :
  (g, m, rest) ∈ run ic r prev s → s = m ++ rest.
Proof.
  revert prev s g m rest.
  induction r as [|c|p|p lo hi| |r1 IH1 r2 IH2|r1 IH1 r2 IH2|i r IH];
    intros prev s g m rest.
  - by intros [= -> -> ->]%elem_of_run_Eps.
  - by intros (x & s' & -> & _ & [= -> -> ->])%elem_of_run_Lit.
  - by intros (x & s' & -> & _ & [= -> -> ->])%elem_of_run_Class.
  - by intros (m' & rest' & [= -> -> ->] & -> & _)%elem_of_run_Rep.
  - by intros [_ [= -> -> ->]]%elem_of_run_WordB.
  - intros (g1 & m1 & s1 & g2 & m2 & s2 & H1 & H2 & [= -> -> ->])%elem_of_run_Seq.
    rewrite (IH1 _ _ _ _ _ H1), (IH2 _ _ _ _ _ H2). by rewrite app_assoc.
  - intros [H|H]%elem_of_run_Alt; eauto.
  - intros (g' & m' & s' & H & [= -> -> ->])%elem_of_run_Group. eauto.
Qed.

(** [search] fails exactly when no position has a match. *)
Lemma search_from_None r prev s :
  search_from ic r prev s = None ↔
  ∀ pre suf, s = pre ++ suf → run ic r (last_or prev pre) suf = [].
Proof.
  revert prev. induction s as [|c s IH]; intros prev; simpl.
  - destruct (run ic r prev []) eqn:E.
    + split; [|done]. intros _ pre suf Hs. symmetry in Hs.
      apply app_eq_nil in Hs as [-> ->]. done.
    + split; [done|]. intros H. specialize (H [] [] eq_refl).
      unfold last_or in H. simpl in H. congruence.
  - destruct (run ic r prev (c :: s)) eqn:E.
    + rewrite IH. split.
      * intros H pre suf Hs. destruct pre as [|x pre].
        -- simpl in Hs. subst suf. exact E.
        -- injection Hs as <- ->. rewrite last_or_cons. by apply H.
      * intros H pre suf Hs. rewrite <- (last_or_cons prev). apply H.
        by rewrite Hs.
    + split; [done|]. intros H. specialize (H [] (c :: s) eq_refl).
      unfold last_or in H. simpl in H. congruence.
Qed.

(** What [search] returns is a match at some position. *)
Lemma search_from_Some r prev s h :
  search_from ic r prev s = Some h →
  ∃ pre suf, s = pre ++ suf ∧ h ∈ run ic r (last_or prev pre) suf.
Proof.
  revert prev. induction s as [|c s IH]; intros prev; simpl.
  - destruct (run ic r prev []) eqn:E; [done|]. intros [= ->].
    exists [], []. split; [done|]. unfold last_or. simpl. rewrite E.
    apply list_elem_of_here.
  - destruct (run ic r prev (c :: s)) eqn:E.
    + intros H. apply IH in H as (pre & suf & -> & H). exists (c :: pre), suf.
      split; [done|]. by rewrite last_or_cons.
    + intros [= ->]. exists [], (c :: s). split; [done|].
      unfold last_or. simpl. rewrite E. apply list_elem_of_here.
Qed.

(** A match anywhere makes [search] succeed. *)
Lemma search_from_finds r prev s pre suf h :
  s = pre ++ suf → h ∈ run ic r (last_or prev pre) suf →
  ∃ h', search_from ic r prev s = Some h'.
Proof.
  intros Hs Hh. destruct (search_from ic r prev s) as [h'|] eqn:E; [eauto|].
  rewrite search_from_None in E. rewrite (E pre suf Hs) in Hh.
  by apply elem_of_nil in Hh.
Qed.
End run_facts.

(** ** Words standing in a text *)

Ltac run_inv :=
  repeat match goal with
    | H : _ ∈ Re.run _ (Re.Seq _ _) _ _ |- _ =>
        apply elem_of_run_Seq in H as (? & ? & ? & ? & ? & ? & ? & ? & ?)
    | H : _ ∈ Re.run _ (Re.Group _ _) _ _ |- _ =>
        apply elem_of_run_Group in H as (? & ? & ? & ? & ?)
    | H : _ ∈ Re.run _ (Re.Rep _ _ _) _ _ |- _ =>
        apply elem_of_run_Rep in H as (? & ? & ? & ? & ? & ? & ?)
    | H : _ ∈ Re.run _ (Re.Lit _) _ _ |- _ =>
        apply elem_of_run_Lit in H as (? & ? & ? & ? & ?)
    | H : _ ∈ Re.run _ (Re.Class _) _ _ |- _ =>
        apply elem_of_run_Class in H as (? & ? & ? & ? & ?)
    | H : _ ∈ Re.run _ Re.WordB _ _ |- _ =>
        apply elem_of_run_WordB in H as [? ?]
    | H : _ ∈ Re.run _ Re.Eps _ _ |- _ =>
        apply elem_of_run_Eps in H
    | H : (_, _, _) = (_, _, _) |- _ => injection H as ? ? ?
    end.

Lemma lit_eq_exact c x : Re.lit_eq false c x = true → x = c.
Proof. unfold Re.lit_eq. by intros ?%bool_decide_eq_true. Qed.

Lemma last_or_None (m : str) : Re.last_or None m = last m.
Proof. unfold Re.last_or. by destruct (last m). Qed.

Lemma forallb_last (p : ascii → bool) (l : str) c :
  forallb p l = true → last l = Some c → p c = true.
Proof.
  rewrite forallb_forall. intros H Hl. apply H.
  apply list_elem_of_In. apply last_Some in Hl as [l' ->].
  apply elem_of_app. right. apply list_elem_of_here.
Qed.

Lemma is_word_upper c : is_upper c = true → is_word c = true.
Proof. intros H. unfold is_word, is_alpha. by rewrite H. Qed.

Lemma is_word_digit c : is_digit c = true → is_word c = true.
Proof. intros H. unfold is_word. rewrite H. by rewrite orb_true_r. Qed.

Lemma is_digit_not_space d : is_digit d = true → is_space d = false.
Proof. by destruct d as [[] [] [] [] [] [] [] []]. Qed.

Section first_hit.
Import Re.
Variable ic : bool.

(** [search] returns the first way of matching at the first position that
    has one. *)
Lemma search_from_first r prev s pre suf h :
  s = pre ++ suf →
  (∀ pre1 suf1, s = pre1 ++ suf1 → length pre1 < length pre →
                run ic r (last_or prev pre1) suf1 = []) →
  head (run ic r (last_or prev pre) suf) = Some h →
  search_from ic r prev s = Some h.
Proof.
  revert prev s. induction pre as [|c pre IH]; intros prev s -> Hnone Hh.
  - simpl. unfold last_or in Hh. simpl in Hh.
    destruct suf; simpl; by destruct (run ic r prev _).
  - cbn [app search_from].
    pose proof (Hnone [] (c :: pre ++ suf) eq_refl) as H0.
    unfold last_or in H0 at 1. simpl in H0. rewrite H0 by lia.
    apply IH; [done| |by rewrite last_or_cons in Hh].
    intros pre1 suf1 Hs Hlen. rewrite <- (last_or_cons prev).
    apply Hnone; [simpl; by f_equal|simpl; lia].
Qed.

Lemma head_run_Seq r1 r2 prev s g1 m1 s1 g2 m2 s2 :
  head (run ic r1 prev s) = Some (g1, m1, s1) →
  head (run ic r2 (last_or prev m1) s1) = Some (g2, m2, s2) →
  head (run ic (Seq r1 r2) prev s) = Some (g1 ++ g2, m1 ++ m2, s2).
Proof.
  cbn [run]. destruct (run ic r1 prev s) as [|h1 l1]; [done|].
  intros [= ->]. cbn [mbind list_bind].
  destruct (run ic r2 (last_or prev m1) s1) as [|h2 l2]; [done|].
  by intros [= ->].
Qed.

Lemma head_run_Group i r prev s g m s' :
  head (run ic r prev s) = Some (g, m, s') →
  head (run ic (Group i r) prev s) = Some ((i, m) :: g, m, s').
Proof.
  cbn [run]. destruct (run ic r prev s) as [|h l]; [done|]. by intros [= ->].
Qed.

Lemma head_run_Lit c prev x s :
  lit_eq ic c x = true → head (run ic (Lit c) prev (x :: s)) = Some ([], [x], s).
Proof. intros H. cbn [run]. by rewrite H. Qed.

Lemma head_run_WordB prev s :
  at_boundary prev s = true → head (run ic WordB prev s) = Some ([], [], s).
Proof. intros H. cbn [run]. by rewrite H. Qed.

Lemma span_exact p (m rest : str) :
  forallb p m = true → clear p (head rest) = true → span p (m ++ rest) = length m.
Proof.
  intros Hm Hr. induction m as [|c m IH]; simpl in *.
  - destruct rest as [|x rest]; [done|]. simpl in *.
    apply negb_true_iff in Hr. by rewrite Hr.
  - apply andb_true_iff in Hm as [-> Hm]. by rewrite IH.
Qed.

Lemma head_rep_lens lo hi n top :
  top = match hi with Some h => h `min` n | None => n end → lo ≤ top →
  head (rep_lens lo hi n) = Some top.
Proof.
  intros Htop Hlo. unfold rep_lens. rewrite <- Htop.
  replace (S top - lo) with (S (top - lo)) by lia.
  rewrite seq_S, reverse_app. simpl. f_equal. lia.
Qed.

(** A greedy repetition first takes the whole run when that fits the
    bounds. *)
Lemma head_run_Rep p lo hi prev (m rest : str) :
  forallb p m = true → lo ≤ length m → (∀ b, hi = Some b → length m ≤ b) →
  clear p (head rest) = true ∨ hi = Some (length m) →
  head (run ic (Rep p lo hi) prev (m ++ rest)) = Some ([], m, rest).
Proof.
  intros Hm Hlo Hhi Hstop. cbn [run].
  pose proof (span_prefix p m rest Hm) as Hspan.
  assert (Htop : length m
                 = match hi with
                   | Some h => h `min` span p (m ++ rest)
                   | None => span p (m ++ rest)
                   end).
  { destruct Hstop as [Hc| ->].
    - rewrite (span_exact p m rest Hm Hc).
      destruct hi as [b|]; [|done]. specialize (Hhi b eq_refl). lia.
    - lia. }
  pose proof (head_rep_lens lo hi (span p (m ++ rest)) (length m) Htop Hlo) as Hh.
  destruct (rep_lens lo hi (span p (m ++ rest))) as [|k ks]; [done|].
  injection Hh as ->. cbn [fmap list_fmap head].
  by rewrite take_app_length, drop_app_length.
Qed.

(** What [search] returns is the first way of matching at the first
    position that has one. *)
Lemma search_from_Some_first r prev s h :
  search_from ic r prev s = Some h →
  ∃ pre suf, s = pre ++ suf ∧
    head (run ic r (last_or prev pre) suf) = Some h ∧
    ∀ pre1 suf1, s = pre1 ++ suf1 → length pre1 < length pre →
                 run ic r (last_or prev pre1) suf1 = [].
Proof.
  revert prev. induction s as [|c s IH]; intros prev; cbn [search_from].
  - destruct (run ic r prev []) as [|h0 l] eqn:E; [done|]. intros [= ->].
    exists [], []. split; [done|]. unfold last_or at 1. simpl. rewrite E.
    split; [done|]. intros pre1 suf1 _ Hlen. simpl in Hlen. lia.
  - destruct (run ic r prev (c :: s)) as [|h0 l] eqn:E.
    + intros (pre & suf & -> & Hh & Hnone)%IH. exists (c :: pre), suf.
      split; [done|]. split; [by rewrite last_or_cons|].
      intros pre1 suf1 Hs Hlen. destruct pre1 as [|x pre1].
      * simpl in Hs. subst suf1. exact E.
      * injection Hs as <- Hs. rewrite last_or_cons. apply Hnone; [done|].
        simpl in Hlen. lia.
    + intros [= ->]. exists [], (c :: s). split; [done|].
      unfold last_or at 1. simpl. rewrite E. split; [done|].
      intros pre1 suf1 _ Hlen. simpl in Hlen. lia.
Qed.
End first_hit.

Lemma wordish_before prev (s : str) c :
  head s = Some c → is_word c = true →
  Re.at_boundary prev s = true ↔ Re.wordish prev = false.
Proof.
  intros Hs Hc. unfold Re.at_boundary. rewrite Hs. simpl. rewrite Hc.
  by destruct (Re.wordish prev).
Qed.

Lemma wordish_after prev (m post : str) c :
  last m = Some c → is_word c = true →
  Re.at_boundary (Re.last_or prev m) post = true ↔ Re.wordish (head post) = false.
Proof.
  intros Hm Hc. unfold Re.at_boundary, Re.last_or. rewrite Hm. simpl. rewrite Hc.
  by destruct (Re.wordish (head post)).
Qed.

Lemma head_is (p : ascii → bool) (m rest : str) :
  forallb p m = true → 1 ≤ length m → ∃ c, head (m ++ rest) = Some c ∧ p c = true.
Proof.
  destruct m as [|c m]; simpl; [lia|]. intros [Hc _]%andb_true_iff _. by exists c.
Qed.

Lemma last_is (p : ascii → bool) (pre m : str) :
  forallb p m = true → 1 ≤ length m → ∃ c, last (pre ++ m) = Some c ∧ p c = true.
Proof.
  intros Hm Hlen. rewrite last_app. destruct (last m) as [c|] eqn:E.
  - exists c. split; [done|]. by apply (forallb_last p m).
  - apply last_None in E. subst m. simpl in Hlen. lia.
Qed.

Lemma is_word_code_tail c : is_upper c || is_digit c = true → is_word c = true.
Proof.
  intros [H|H]%orb_true_iff; [by apply is_word_upper|by apply is_word_digit].
Qed.

Ltac bounds :=
  repeat match goal with
    | H : ∀ b : nat, Some ?n = Some b → _ |- _ => specialize (H n eq_refl)
    | H : ∀ b : nat, None = Some b → _ |- _ => clear H
    | H : Re.lit_eq false _ _ = true |- _ => apply lit_eq_exact in H
    end.

Lemma clear_head_app (p q : ascii → bool) (m rest : str) :
  (∀ c, q c = true → p c = false) → forallb q m = true → 1 ≤ length m →
  clear p (head (m ++ rest)) = true.
Proof.
  intros Hpq Hm Hlen. destruct (head_is q m rest Hm Hlen) as (c & -> & Hc).
  simpl. by rewrite (Hpq c Hc).
Qed.

Lemma clear_not_wordish (p : ascii → bool) (o : option ascii) :
  (∀ c, p c = true → is_word c = true) → Re.wordish o = false → clear p o = true.
Proof.
  intros Hp. destruct o as [c|]; [|done]. simpl. intros Hw.
  destruct (p c) eqn:E; [|done]. by rewrite (Hp c E) in Hw.
Qed.

Lemma is_space_not_upper c : is_space c = true → is_upper c = false.
Proof. by destruct c as [[] [] [] [] [] [] [] []]. Qed.
Lemma is_digit_not_upper c : is_digit c = true → is_upper c = false.
Proof. by destruct c as [[] [] [] [] [] [] [] []]. Qed.

(** A pattern that matches exactly the texts of a shape standing as words
    of their own: what [search] finds is the first of them. *)
Section standing.
Variables (ic : bool) (r : Re.regex) (shape : str → Prop) (good : Re.hit → str → Prop).
Hypothesis hit_shape : ∀ prev s h,
  h ∈ Re.run ic r prev s →
  ∃ w post, s = w ++ post ∧ shape w ∧ Re.wordish prev = false ∧
            Re.wordish (head post) = false ∧ good h w.
Hypothesis shape_hit : ∀ prev w post,
  shape w → Re.wordish prev = false → Re.wordish (head post) = false →
  ∃ h, head (Re.run ic r prev (w ++ post)) = Some h ∧ good h w.

Lemma search_first_standing u w :
  first_standing shape u w → ∃ h, Re.search ic r u = Some h ∧ good h w.
Proof.
  intros (pre & post & (Hu & Hpre & Hpost) & Hw & Hfirst).
  destruct (shape_hit (Re.last_or None pre) w post Hw) as (h & Hh & Hg);
    [by rewrite last_or_None|done|].
  exists h. split; [|done].
  apply (search_from_first ic r None u pre (w ++ post) h Hu); [|done].
  intros pre1 suf1 Hs Hlen.
  destruct (Re.run ic r (Re.last_or None pre1) suf1) as [|h1 l1] eqn:E; [done|].
  exfalso.
  destruct (hit_shape (Re.last_or None pre1) suf1 h1) as (w1 & post1 & -> & Hw1 & Hb & Ha & _).
  { rewrite E. apply list_elem_of_here. }
  rewrite last_or_None in Hb.
  specialize (Hfirst pre1 w1 post1 (conj Hs (conj Hb Ha)) Hw1). lia.
Qed.

Lemma search_none_standing u :
  none_standing shape u → Re.search ic r u = None.
Proof.
  intros Hnone. apply search_from_None. intros pre suf Hu.
  destruct (Re.run ic r (Re.last_or None pre) suf) as [|h l] eqn:E; [done|].
  exfalso.
  destruct (hit_shape (Re.last_or None pre) suf h) as (w & post & -> & Hw & Hb & Ha & _).
  { rewrite E. apply list_elem_of_here. }
  rewrite last_or_None in Hb.
  by apply (Hnone pre w post (conj Hu (conj Hb Ha))).
Qed.
(** What [search] finds is the first text of the shape standing in the
    subject. *)
Lemma first_standing_of_search u h :
  Re.search ic r u = Some h → ∃ w, good h w ∧ first_standing shape u w.
Proof.
  intros (pre & suf & Hu & Hh & Hnone)%search_from_Some_first.
  destruct (hit_shape (Re.last_or None pre) suf h)
    as (w & post & -> & Hw & Hb & Ha & Hg).
  { destruct (Re.run ic r _ suf) as [|h0 l]; [done|].
    injection Hh as ->. apply list_elem_of_here. }
  rewrite last_or_None in Hb.
  exists w. split; [done|]. exists pre, post. split; [done|]. split; [done|].
  intros pre' w' post' (Hu' & Hb' & Ha') Hw'.
  destruct (decide (length pre' < length pre)) as [Hlt|]; [|lia].
  destruct (shape_hit (Re.last_or None pre') w' post' Hw') as (h' & Hh' & _);
    [by rewrite last_or_None|done|].
  rewrite (Hnone pre' (w' ++ post')) in Hh'; [done| |done].
  by rewrite <- Hu'.
Qed.

Lemma none_standing_of_search u :
  Re.search ic r u = None → none_standing shape u.
Proof.
  intros Hnone pre w post (Hu & Hb & Ha) Hw.
  destruct (shape_hit (Re.last_or None pre) w post Hw) as (h & Hh & _);
    [by rewrite last_or_None|done|].
  unfold Re.search in Hnone. rewrite search_from_None in Hnone.
  by rewrite (Hnone pre (w ++ post) Hu) in Hh.
Qed.

(** [search] succeeds exactly when a text of the shape stands in the
    subject. *)
Lemma found_standing u :
  Re.found (Re.search ic r u) = true ↔
  ∃ pre w post, stands_at u pre w post ∧ shape w.
Proof.
  split.
  - destruct (Re.search ic r u) as [h|] eqn:E; [|done]. intros _.
    apply first_standing_of_search in E as (w & _ & pre & post & Hs & Hw & _).
    by exists pre, w, post.
  - intros (pre & w & post & Hs & Hw).
    destruct (Re.search ic r u) as [h|] eqn:E; [done|].
    apply none_standing_of_search in E. by destruct (E pre w post Hs).
Qed.
End standing.

(** ** The scenarios of the specification *)

Example scenario_A_text_search :
  cr_course_title <$> head (default [] (match find_courses "Testing" [section_cs262] with
                                        | Ok l => Some l
                                        | Raise _ => None
                                        end))
  = Some ("Software Eng" : str).
Proof. by vm_compute. Qed.

Example scenario_B_department :
  find_sections_by_department "CS" [section_cs262]
  = Ok [ {| sr_section_id := "CS 262-01"; sr_section_name := "CS 262-01";
            sr_course_title := "Software Eng"; sr_time := "MWF 09:30" |} ].
Proof. by vm_compute. Qed.

Example scenario_C_derived_level :
  sec_level section_cs262 = Ok ("200" : str) ∧
  find_sections_by_level "200" [section_cs262]
  = Ok [ {| br_section_id := "CS 262-01"; br_section_name := "CS 262-01";
            br_course_title := "Software Eng" |} ].
Proof. split; by vm_compute. Qed.

Example scenario_D_bucket :
  _time_in_bin "MWF 09:30 AM - 10:20 AM" "morning" = true ∧
  _time_in_bin "MWF 09:30 AM - 10:20 AM" "evening" = false.
Proof. split; by vm_compute. Qed.

Example scenario_E_details :
  get_section_details "CS 262-01" [section_cs262] = Ok (Found section_cs262).
Proof. by vm_compute. Qed.

Example scenario_F_keyword :
  detect_intent "I want something about AI" = FindCourses "I want something about AI".
Proof. by vm_compute. Qed.

(** The same words resolve to the combined filter once the request for
    details is taken out. *)
Example without_details_phrase :
  detect_intent "show ENGL 300-A, a 300 level english class in the morning"
  = FindSectionsFiltered (Some ("ENGLISH" : str)) (Some ("300" : str))
                         (Some ("morning" : str)) 20 ∧
  detect_intent "show details for ENGL 300-A, a 300 level english class in the morning"
  = GetSectionDetails "ENGL 300-A".
Proof. split; by vm_compute. Qed.

(** ** Claims about the normalizer *)

(** C1.  The level of a record is the explicit [AcadLevel] when that is
    [[1-4]00], else the first digit of the course number followed by "00",
    else empty.  The first digit is not confined to 1..4, so the level of
    course 562 is "500", outside the documented canonical values. *)
Theorem sec_level_outside_canonical :
  sec_level section_grad = Ok ("500" : str) ∧ ("500" : str) ∉ canonical_levels.
Proof.
  split; [by vm_compute|].
  unfold canonical_levels. intros H.
  repeat (apply elem_of_cons in H as [H|H]; [discriminate H|]).
  by apply elem_of_nil in H.
Qed.

(** C5, as stated, fails: a number in a text field makes the derivations
    raise. *)
Lemma normalizer_raises_on_numeric_name : ¬ normalizer_total section_numeric_name.
Proof. intros ([i Hi] & _). vm_compute in Hi. discriminate Hi. Qed.

(** C5, amended.  On a record whose text fields are each missing, null,
    false or a string, every derivation (id, name, title, description,
    department, level, time) returns a string; [Crs_Number], [Sec_Number] and
    [AcadLevel] may hold any value. *)
Theorem normalizer_total_on_text s :
  well_formed s = true → normalizer_total s.
Proof.
  intros H. unfold normalizer_total.
  destruct (sec_id_ok s H) as (i & Hi & _).
  split; [by exists i|].
  split; [by apply sec_name_ok|].
  split; [by apply sec_title_ok|].
  split; [by apply sec_desc_ok|].
  split; [by apply sec_dept_ok|].
  split; [apply sec_level_ok|].
  by apply sec_time_str_ok.
Qed.

Lemma normalizer_total_on_text_witness : normalizer_total section_cs262.
Proof. apply normalizer_total_on_text. vm_compute. reflexivity. Defined.

(** ** Claims about id lookup *)


Lemma lookup_id_hits sid data r :
  (∀ x, x ∈ data → returns (sec_id x)) → r ∈ data → sec_id r = Ok sid →
  ∃ s, lookup_id sid data = Ok (Found s) ∧ sec_id s = Ok sid ∧ s ∈ data.
Proof.
  intros Hall Hr Hid. induction data as [|x data IH]; [by apply elem_of_nil in Hr|].
  simpl. destruct (Hall x) as [i Hi]; [apply list_elem_of_here|].
  rewrite Hi. simpl. destruct (bool_decide (i = sid)) eqn:E.
  - apply bool_decide_eq_true in E as ->. exists x.
    split; [done|]. split; [done|apply list_elem_of_here].
  - apply elem_of_cons in Hr as [->|Hr].
    + apply bool_decide_eq_false in E. congruence.
    + destruct IH as (s & ? & ? & ?); [|done|].
      { intros y Hy. apply Hall. by apply list_elem_of_further. }
      exists s. split; [done|]. split; [done|by apply list_elem_of_further].
Qed.

Lemma well_formed_all data x :
  forallb well_formed data = true → x ∈ data → well_formed x = true.
Proof.
  rewrite forallb_forall. intros H Hx. apply H. by apply list_elem_of_In.
Qed.

Lemma _norm_edges v x : _norm v = Ok x → edges_clear is_space x.
Proof.
  unfold _norm, strip_method. destruct (py_or v _); try done.
  intros [= <-]. apply strip_by_edges.
Qed.

(** Whenever the id is defined, it carries no surrounding blanks. *)
Lemma sec_id_trimmed s i : sec_id s = Ok i → strip i = i.
Proof.
  unfold sec_id, sec_raw_id.
  destruct (_norm (dict_get s "Subject")) as [subj|] eqn:E1;
    cbn [mbind result_bind]; [|done].
  destruct (norm_str_of s "Crs_Number") as [num|] eqn:E2;
    cbn [mbind result_bind]; [|done].
  destruct (norm_str_of s "Sec_Number") as [sec|] eqn:E3;
    cbn [mbind result_bind]; [|done].
  destruct (_norm (dict_get s "Section_Name")) as [name|] eqn:E4;
    cbn [mbind result_bind]; [|done].
  apply _norm_edges in E1, E2, E3, E4.
  destruct (nonempty subj && nonempty num && nonempty sec) eqn:E.
  - apply andb_true_iff in E as [E N3]. apply andb_true_iff in E as [N1 N2].
    apply nonempty_true in N1, N3.
    intros [= <-]. apply strip_by_fixed. by apply edges_clear_glue.
  - destruct (nonempty name).
    + intros [= <-]. by apply strip_by_fixed.
    + destruct (_norm (dict_get s "Section_Title")) as [title|] eqn:E5;
        cbn [mbind result_bind]; [|done].
      destruct (_norm (dict_get s "Period_RefID")) as [period|] eqn:E6;
        cbn [mbind result_bind]; [|done].
      apply _norm_edges in E5, E6.
      intros [= <-]. apply strip_by_fixed. by apply edges_clear_sep.
Qed.

(** The loop stops at the first record with the id, provided the ids of the
    records before it are defined. *)
Lemma lookup_id_reaches sid data k r :
  data !! k = Some r → sec_id r = Ok sid →
  (∀ x, x ∈ take k data → returns (sec_id x)) →
  ∃ s, lookup_id sid data = Ok (Found s) ∧ sec_id s = Ok sid ∧ s ∈ data ∧
       ((∀ r', r' ∈ take k data → sec_id r' ≠ Ok sid) → s = r).
Proof.
  revert k. induction data as [|x data IH]; intros k Hk Hr Hdef; [done|].
  cbn [lookup_id]. destruct k as [|k].
  - injection Hk as ->. rewrite Hr. cbn [mbind result_bind].
    rewrite bool_decide_eq_true_2 by done.
    exists r. split; [done|]. split; [done|]. split; [apply list_elem_of_here|done].
  - cbn [take] in Hdef. simpl in Hk.
    destruct (Hdef x) as [i Hi]; [apply list_elem_of_here|].
    rewrite Hi. cbn [mbind result_bind].
    destruct (bool_decide (i = sid)) eqn:E.
    + apply bool_decide_eq_true in E as ->. exists x.
      split; [done|]. split; [done|]. split; [apply list_elem_of_here|].
      intros Hnone. exfalso. apply (Hnone x); [apply list_elem_of_here|done].
    + destruct (IH k Hk Hr) as (s & Hs & Hsi & Hsd & Hfirst).
      { intros y Hy. apply Hdef. by apply list_elem_of_further. }
      exists s. split; [done|]. split; [done|].
      split; [by apply list_elem_of_further|].
      intros Hnone. apply Hfirst. intros r' Hr'. apply Hnone.
      by apply list_elem_of_further.
Qed.

(** C4, as stated, fails: behind a record whose section name is a number
    the lookup of the id of a later record raises instead of returning that
    record. *)
Lemma id_lookup_raises_behind_numeric_name :
  [section_numeric_name; section_cs262] !! 1 = Some section_cs262 ∧
  sec_id section_cs262 = Ok ("CS 262-01" : str) ∧
  get_section_details "CS 262-01" [section_numeric_name; section_cs262]
  = Raise AttributeError.
Proof. repeat split; by vm_compute. Qed.

(** C4, amended.  For the [k]-th record [r] of the dataset, when the id is
    defined for [r] and for every record before it, looking up the id of [r]
    returns a raw record (never the not-found value) of the dataset with
    that same id; it is [r] itself when no record before [r] has the same
    id. *)
Theorem id_lookup_round_trip data k r :
  data !! k = Some r →
  (∀ x, x ∈ take (S k) data → returns (sec_id x)) →
  ∃ i s, sec_id r = Ok i ∧
         get_section_details i data = Ok (Found s) ∧
         sec_id s = Ok i ∧ s ∈ data ∧
         ((∀ r', r' ∈ take k data → sec_id r' ≠ Ok i) → s = r).
Proof.
  intros Hk Hdef.
  destruct (Hdef r) as [i Hi].
  { rewrite (take_S_r data k r Hk). apply elem_of_app. right. apply list_elem_of_here. }
  destruct (lookup_id_reaches i data k r Hk Hi) as (s & Hs & Hsi & Hsd & Hfirst).
  { intros x Hx. apply Hdef. rewrite (take_S_r data k r Hk).
    apply elem_of_app. by left. }
  exists i, s. split; [done|].
  split; [|split; [done|split; [done|exact Hfirst]]].
  unfold get_section_details. rewrite _norm_VStr, (sec_id_trimmed r i Hi).
  exact Hs.
Qed.

Lemma id_lookup_round_trip_witness :
  ∃ i s, sec_id section_cs262 = Ok i ∧
         get_section_details i [section_numeric_desc; section_cs262] = Ok (Found s) ∧
         sec_id s = Ok i ∧ s ∈ [section_numeric_desc; section_cs262] ∧
         ((∀ r', r' ∈ take 1 [section_numeric_desc; section_cs262] →
                 sec_id r' ≠ Ok i) → s = section_cs262).
Proof.
  apply (id_lookup_round_trip [section_numeric_desc; section_cs262] 1 section_cs262).
  - reflexivity.
  - intros x Hx. cbn [take] in Hx.
    apply elem_of_cons in Hx as [->|Hx]; [eexists; vm_compute; reflexivity|].
    apply elem_of_cons in Hx as [->|Hx]; [eexists; vm_compute; reflexivity|].
    by apply elem_of_nil in Hx.
Defined.



(** ** Claims about the department filter *)

Lemma lstrip_by_all p (s : str) : forallb p s = true → lstrip_by p s = [].
Proof.
  induction s as [|c s IH]; simpl; [done|].
  intros [-> H]%andb_true_iff. by apply IH.
Qed.

Lemma strip_blank (s : str) : forallb is_space s = true → strip s = [].
Proof.
  intros H. unfold strip, strip_by. by rewrite lstrip_by_all.
Qed.

Lemma blank_department_rows data :
  Forall summarizable data →
  ∃ out,
    collect (λ s, subj ← sec_dept s; Ok (dept_matches (upper subj) []))
            section_row_of data = Ok out ∧
    Forall2 summary_of data (out.*2).
Proof.
  induction 1 as [|s data Hs Hdata (out & Hout & Hrows)]; cbn [collect].
  - exists []. split; [done|constructor].
  - destruct Hs as ((d & Ed) & (i & Ei) & (n & En) & (t & Et) & (w & Ew)).
    rewrite Ed. cbn [mbind result_bind].
    assert (Hrow : section_row_of s
                   = Ok {| sr_section_id := i; sr_section_name := n;
                           sr_course_title := t; sr_time := w |}).
    { unfold section_row_of. by rewrite Ei, En, Et, Ew. }
    unfold dept_matches at 1. rewrite startswith_nil, orb_true_r, Hrow, Hout.
    cbn [mbind result_bind]. eexists. split; [reflexivity|].
    rewrite fmap_cons. cbn [snd]. constructor; [|exact Hrows].
    by repeat split.
Qed.

(** C10, as stated, fails: one record whose section name is a number and
    the blank department returns no summary at all. *)
Lemma blank_department_raises_on_numeric_name :
  find_sections_by_department "  " [section_cs262; section_numeric_name]
  = Raise AttributeError.
Proof. by vm_compute. Qed.

(** C10, amended.  With an empty or all-blank department argument, on a
    dataset for every record of which the department, id, name, title and
    time are defined, the department filter returns one summary per record,
    in dataset order, each holding the normalized id, name, title and time
    of its record. *)
Theorem blank_department_selects_all department data :
  forallb is_space department = true →
  Forall summarizable data →
  ∃ rows, find_sections_by_department department data = Ok rows ∧
          Forall2 summary_of data rows.
Proof.
  intros Hblank Hdata.
  unfold find_sections_by_department, find_sections_by_department_hits, rows.
  rewrite _norm_VStr, (strip_blank _ Hblank). cbn [mbind result_bind upper map].
  destruct (blank_department_rows data Hdata) as (out & -> & Hrows).
  cbn [mbind result_bind]. by exists (out.*2).
Qed.

Lemma blank_department_selects_all_witness :
  ∃ rows,
    find_sections_by_department "  " [section_numeric_desc; section_cs262] = Ok rows ∧
    Forall2 summary_of [section_numeric_desc; section_cs262] rows.
Proof.
  apply blank_department_selects_all.
  - reflexivity.
  - repeat constructor; eexists; vm_compute; reflexivity.
Defined.

(** ** The combined filter *)

Ltac result_cases :=
  repeat first
    [ progress cbn [mbind result_bind andb negb]
    | match goal with
      | |- context [if ?b then _ else _] => destruct b eqn:?
      end ].

(** What reaching the [append] says about a section, predicate by
    predicate. *)
Lemma passes_true q dep lvl bucket s title desc :
  passes q dep lvl bucket s title desc = Ok true →
  (given q = true →
     py_in (lower (default [] q)) (lower (title ++ newline ++ desc)) = true) ∧
  (given dep = true →
     ∃ subj, sec_dept s = Ok subj ∧ dept_matches (upper subj) (default [] dep) = true) ∧
  (given lvl = true → sec_level s = Ok (default [] lvl)) ∧
  (given bucket = true →
     ∃ w, sec_time_str s = Ok w ∧ _time_in_bin w (default [] bucket) = true).
Proof.
  unfold passes.
  destruct (py_in (lower (default [] q)) (lower (title ++ newline ++ desc)));
    destruct (given q), (given dep), (given lvl), (given bucket);
    destruct (sec_dept s) as [subj|], (sec_level s) as [l|],
      (sec_time_str s) as [w|];
    result_cases; intros H; try discriminate H; try (injection H as H);
    repeat match goal with
           | H : negb _ = false |- _ => apply negb_false_iff in H
           | H : bool_decide _ = true |- _ => apply bool_decide_eq_true in H
           end;
    repeat split; intros; try done; try congruence;
    by (eexists; split; [reflexivity|]).
Qed.

Lemma passes_returns q dep lvl bucket s title desc :
  well_formed s = true → returns (passes q dep lvl bucket s title desc).
Proof.
  intros H. unfold passes.
  destruct (sec_dept_ok s H) as (d & ->).
  destruct (sec_level_ok s) as (l & ->).
  destruct (sec_time_str_ok s H) as (w & ->).
  result_cases; by eexists.
Qed.

Lemma filtered_row_of_preview s title desc row :
  filtered_row_of s title desc = Ok row →
  fr_preview row = if nonempty desc then take_chars 220 desc ++ ellipsis else [].
Proof.
  unfold filtered_row_of.
  destruct (sec_id s), (sec_name s), (sec_dept s), (sec_level s), (sec_time_str s);
    cbn [mbind result_bind]; try done.
  by intros [= <-].
Qed.

(** Every pair the loop adds is a section of the data that reached the
    [append], with the row built from its title and description. *)
Lemma filtered_loop_sound q dep lvl bucket limit data out0 out s row :
  filtered_loop q dep lvl bucket limit data out0 = Ok out →
  (s, row) ∈ out →
  (s, row) ∈ out0 ∨
  (s ∈ data ∧ ∃ title desc,
     sec_title s = Ok title ∧ sec_desc s = Ok desc ∧
     passes q dep lvl bucket s title desc = Ok true ∧
     filtered_row_of s title desc = Ok row).
Proof.
  revert out0. induction data as [|x data IH]; intros out0; simpl.
  - intros [= <-] Hin. by left.
  - destruct (sec_title x) as [title|] eqn:Et; cbn [mbind result_bind]; [|done].
    destruct (sec_desc x) as [desc|] eqn:Ed; cbn [mbind result_bind]; [|done].
    destruct (passes q dep lvl bucket x title desc) as [keep|] eqn:Ep;
      cbn [mbind result_bind]; [|done].
    destruct keep.
    + destruct (filtered_row_of x title desc) as [r|] eqn:Er;
        cbn [mbind result_bind]; [|done].
      assert (Hnew : (s, row) ∈ (out0 ++ [(x, r)]) →
                (s, row) ∈ out0 ∨
                (s ∈ x :: data ∧ ∃ title desc,
                   sec_title s = Ok title ∧ sec_desc s = Ok desc ∧
                   passes q dep lvl bucket s title desc = Ok true ∧
                   filtered_row_of s title desc = Ok row)).
      { intros [Hin|Hin%list_elem_of_singleton]%elem_of_app; [by left|].
        injection Hin as -> ->. right.
        split; [apply list_elem_of_here|]. by exists title, desc. }
      destruct (Z.max 1 limit <=? Z.of_nat (length (out0 ++ [(x, r)])))%Z.
      * intros [= <-] Hin. by apply Hnew.
      * intros Hloop Hin. destruct (IH _ Hloop Hin) as [H0|(Hd & H1)].
        -- by apply Hnew.
        -- right. split; [by apply list_elem_of_further|done].
    + intros Hloop Hin. destruct (IH _ Hloop Hin) as [H0|(Hd & H1)]; [by left|].
      right. split; [by apply list_elem_of_further|done].
Qed.

Lemma filtered_loop_returns q dep lvl bucket limit data out0 :
  forallb well_formed data = true →
  returns (filtered_loop q dep lvl bucket limit data out0).
Proof.
  revert out0. induction data as [|x data IH]; intros out0 Hwf; simpl; [by eexists|].
  simpl in Hwf. apply andb_true_iff in Hwf as [Hx Hwf].
  destruct (sec_title_ok x Hx) as (title & ->). cbn [mbind result_bind].
  destruct (sec_desc_ok x Hx) as (desc & ->). cbn [mbind result_bind].
  destruct (passes_returns q dep lvl bucket x title desc Hx) as (keep & ->).
  cbn [mbind result_bind]. destruct keep; [|by apply IH].
  destruct (filtered_row_of_ok x title desc Hx) as (r & ->).
  cbn [mbind result_bind].
  destruct (Z.max 1 limit <=? _)%Z; [by eexists|by apply IH].
Qed.

(** When no section reaches the [append], the loop adds nothing. *)
Lemma filtered_loop_none q dep lvl bucket limit data out0 :
  (∀ s, s ∈ data → ∃ title desc,
     sec_title s = Ok title ∧ sec_desc s = Ok desc ∧
     passes q dep lvl bucket s title desc = Ok false) →
  filtered_loop q dep lvl bucket limit data out0 = Ok out0.
Proof.
  induction data as [|x data IH]; intros Hall; simpl; [done|].
  destruct (Hall x) as (title & desc & -> & -> & Hp); [apply list_elem_of_here|].
  cbn [mbind result_bind]. rewrite Hp. cbn [mbind result_bind].
  apply IH. intros s Hs. apply Hall. by apply list_elem_of_further.
Qed.

(** The loop never collects more than [max(1, limit)] rows beyond what it
    started with. *)
Lemma filtered_loop_capped q dep lvl bucket limit data out0 out :
  filtered_loop q dep lvl bucket limit data out0 = Ok out →
  (Z.of_nat (length out0) < Z.max 1 limit)%Z →
  (Z.of_nat (length out) ≤ Z.max 1 limit)%Z.
Proof.
  revert out0. induction data as [|x data IH]; intros out0; simpl.
  - intros [= <-] ?. lia.
  - destruct (sec_title x) as [title|]; cbn [mbind result_bind]; [|done].
    destruct (sec_desc x) as [desc|]; cbn [mbind result_bind]; [|done].
    destruct (passes q dep lvl bucket x title desc) as [keep|];
      cbn [mbind result_bind]; [|done].
    destruct keep; [|by apply IH].
    destruct (filtered_row_of x title desc) as [r|]; cbn [mbind result_bind]; [|done].
    destruct (Z.max 1 limit <=? Z.of_nat (length (out0 ++ [(x, r)])))%Z eqn:E.
    + intros [= <-] Hlt. rewrite length_app in *. simpl in *. lia.
    + intros Hloop _. apply (IH _ Hloop). apply Z.leb_gt in E. exact E.
Qed.

Lemma py_in_nil (s : str) : py_in [] s = true.
Proof. destruct s; simpl; by rewrite ?startswith_nil. Qed.

Lemma filter_level_cue_nonempty level c :
  filter_level_cue level = Some c → c ≠ [].
Proof.
  unfold filter_level_cue. destruct level as [l|]; [|done].
  destruct (nonempty l); [|done].
  destruct (or_else _ _) as [m|].
  - intros [= <-] [_ E]%app_eq_nil. cbv in E. discriminate E.
  - destruct (nonempty _); [|done].
    intros [= <-] [_ E]%app_eq_nil. cbv in E. discriminate E.
Qed.

(** The sections the combined filter selects passed its four guards. *)
Lemma filtered_hits_sound query department level time_of_day limit data out s :
  find_sections_filtered_hits query department level time_of_day limit data = Ok out →
  s ∈ out.*1 →
  s ∈ data ∧ ∃ title desc row,
    sec_title s = Ok title ∧ sec_desc s = Ok desc ∧
    passes (if given query then Some (_n query) else None)
           (if given department then Some (upper (_n department)) else None)
           (filter_level_cue level)
           (if given time_of_day then Some (lower (_n time_of_day)) else None)
           s title desc = Ok true ∧
    filtered_row_of s title desc = Ok row ∧ (s, row) ∈ out.
Proof.
  unfold find_sections_filtered_hits. intros Hout Hs.
  apply list_elem_of_fmap in Hs as ([s' row] & -> & Hin).
  destruct (filtered_loop_sound _ _ _ _ _ _ _ _ _ _ Hout Hin)
    as [H0|(Hd & title & desc & Et & Ed & Hp & Hr)].
  - by apply elem_of_nil in H0.
  - split; [done|]. by exists title, desc, row.
Qed.

(** ** Claims about the combined filter *)

(** C6, as stated, fails: a short description is not truncated, yet its
    preview ends with the ellipsis. *)
Lemma preview_marks_short_text :
  ∃ row, find_sections_filtered None None None None 50 [section_cs262] = Ok [row] ∧
         sec_desc section_cs262 = Ok ("Testing and teamwork." : str) ∧
         fr_preview row ≠ preview_as_specified "Testing and teamwork.".
Proof.
  eexists. split; [by vm_compute|]. split; [by vm_compute|].
  vm_compute. discriminate.
Qed.

(** The slice counts characters: behind a two-byte letter the preview
    keeps 219 more characters, 221 bytes in all before the ellipsis. *)
Example preview_counts_characters :
  ∃ row,
    find_sections_filtered None None None None 50
      [ {[ "Section_Name" := VStr "FREN 101-A";
           "Desc" := VStr (("é" : str) ++ repeat "a"%char 230) ]} ] = Ok [row] ∧
    fr_preview row = ("é" : str) ++ repeat "a"%char 219 ++ ellipsis.
Proof. eexists. split; by vm_compute. Qed.

(** C6, amended.  For every section the combined filter returns, the
    preview is the first 220 characters of the normalized description
    (characters, not bytes) followed by an ellipsis whenever the description
    is not empty, cut or not, and is empty when the description is empty. *)
Theorem preview_of_filtered_rows
    query department level time_of_day limit data out s row :
  find_sections_filtered_hits query department level time_of_day limit data = Ok out →
  (s, row) ∈ out →
  ∃ desc, sec_desc s = Ok desc ∧
          fr_preview row
          = if nonempty desc then take_chars 220 desc ++ ellipsis else [].
Proof.
  unfold find_sections_filtered_hits. intros Hout Hin.
  destruct (filtered_loop_sound _ _ _ _ _ _ _ _ _ _ Hout Hin)
    as [H0|(Hd & title & desc & Et & Ed & Hp & Hr)].
  - by apply elem_of_nil in H0.
  - exists desc. split; [done|]. by apply (filtered_row_of_preview s title).
Qed.

Lemma preview_of_filtered_rows_witness :
  ∃ desc, sec_desc section_cs262 = Ok desc ∧
          fr_preview row_cs262
          = if nonempty desc then take_chars 220 desc ++ ellipsis else [].
Proof.
  apply (preview_of_filtered_rows None None None None 50 [section_cs262]
           [(section_cs262, row_cs262)]).
  - vm_compute. reflexivity.
  - apply list_elem_of_here.
Defined.

(** C3, as stated, fails on the level argument: the combined filter and the
    level filter read "year 1, level 2" differently ("200" against "100"), so
    the combined filter returns a 200-level section the level filter does
    not. *)
Lemma combined_filter_outside_level_filter :
  ∃ out o,
    find_sections_filtered_hits None None (Some ("year 1, level 2" : str)) None 50
      [section_cs262] = Ok out ∧
    find_sections_by_level_hits "year 1, level 2" [section_cs262] = Ok o ∧
    ¬ (out.*1 ⊆ o.*1).
Proof.
  exists [(section_cs262, row_cs262)], [].
  split; [by vm_compute|]. split; [by vm_compute|].
  intros H. specialize (H section_cs262 (list_elem_of_here _ _)).
  by apply elem_of_nil in H.
Qed.

(** C3, amended.  On a well-formed dataset the combined filter returns, and
    every section it returns is also returned
    - by the text search for the same query,
    - by the department filter for the same department,
    - by the level filter for the same level, when the two tools resolve the
      argument to the same cue,
    - by the time-of-day filter for the same bucket, when the argument is
      not blank. *)
Theorem combined_filter_within_single_filters
    query department level time_of_day limit data :
  forallb well_formed data = true →
  ∃ out,
    find_sections_filtered_hits query department level time_of_day limit data = Ok out ∧
    (∀ q, query = Some q →
       ∃ o, find_courses_hits q data = Ok o ∧ out.*1 ⊆ o.*1) ∧
    (∀ d, department = Some d →
       ∃ o, find_sections_by_department_hits d data = Ok o ∧ out.*1 ⊆ o.*1) ∧
    (∀ l, level = Some l → filter_level_cue level = Some (level_cue l) →
       ∃ o, find_sections_by_level_hits l data = Ok o ∧ out.*1 ⊆ o.*1) ∧
    (∀ t, time_of_day = Some t → strip t ≠ [] →
       ∃ o, find_sections_by_time_hits t data = Ok o ∧ out.*1 ⊆ o.*1).
Proof.
  intros Hwf.
  destruct (filtered_loop_returns
              (if given query then Some (_n query) else None)
              (if given department then Some (upper (_n department)) else None)
              (filter_level_cue level)
              (if given time_of_day then Some (lower (_n time_of_day)) else None)
              limit data [] Hwf) as [out Hout].
  exists out. split; [exact Hout|].
  pose proof (filtered_hits_sound query department level time_of_day limit data out)
    as Hsound.
  specialize (λ s, Hsound s Hout).
  assert (Hrow3 : ∀ s, s ∈ data → returns (brief_row_of s)).
  { intros s Hs. apply brief_row_of_ok. by apply (well_formed_all data). }
  repeat split.
  - (* text search *)
    intros q ->. unfold find_courses_hits. rewrite _norm_VStr.
    cbn [mbind result_bind].
    set (test := λ s : record, t ← sec_title s; d ← sec_desc s;
                   Ok (_contains (t ++ newline ++ d) (strip q))).
    destruct (collect_returns test course_row_of data) as [o Ho].
    { intros s Hs. pose proof (well_formed_all data s Hwf Hs) as Hws.
      split; [|by apply course_row_of_ok]. unfold test.
      destruct (sec_title_ok s Hws) as (t & ->).
      destruct (sec_desc_ok s Hws) as (d & ->). by eexists. }
    exists o. split; [done|]. intros s Hs.
    destruct (Hsound s Hs) as (Hd & title & desc & row & Et & Ed & Hp & _).
    apply (collect_complete test course_row_of data o s Ho Hd).
    unfold test. rewrite Et, Ed. cbn [mbind result_bind]. f_equal.
    apply passes_true in Hp as (Hq & _). unfold _contains.
    simpl in Hq. unfold _n in Hq. simpl in Hq.
    destruct (nonempty q) eqn:E1.
    + simpl in Hq. destruct (nonempty (strip q)) eqn:E2; [by apply Hq|].
      apply nonempty_false in E2. rewrite E2. apply py_in_nil.
    + apply nonempty_false in E1. subst q. apply py_in_nil.
  - (* department filter *)
    intros d ->. unfold find_sections_by_department_hits. rewrite _norm_VStr.
    cbn [mbind result_bind].
    set (test := λ s : record, subj ← sec_dept s;
                   Ok (dept_matches (upper subj) (upper (strip d)))).
    destruct (collect_returns test section_row_of data) as [o Ho].
    { intros s Hs. pose proof (well_formed_all data s Hwf Hs) as Hws.
      split; [|by apply section_row_of_ok]. unfold test.
      destruct (sec_dept_ok s Hws) as (x & ->). by eexists. }
    exists o. split; [done|]. intros s Hs.
    destruct (Hsound s Hs) as (Hd & title & desc & row & Et & Ed & Hp & _).
    apply (collect_complete test section_row_of data o s Ho Hd).
    apply passes_true in Hp as (_ & Hdep & _). unfold test.
    simpl in Hdep. unfold _n in Hdep. simpl in Hdep.
    pose proof (well_formed_all data s Hwf Hd) as Hws.
    destruct (sec_dept_ok s Hws) as (subj & Esubj). rewrite Esubj in *.
    cbn [mbind result_bind]. f_equal.
    assert (Hblank : ∀ x, upper (strip d) = [] →
              dept_matches x (upper (strip d)) = true).
    { intros x ->. unfold dept_matches. by rewrite startswith_nil, orb_true_r. }
    destruct (nonempty d) eqn:E1.
    + simpl in Hdep. destruct (nonempty (upper (strip d))) eqn:E2.
      * destruct (Hdep eq_refl) as (subj' & [= <-] & Hm). exact Hm.
      * apply nonempty_false in E2. by apply Hblank.
    + apply nonempty_false in E1. subst d. by apply Hblank.
  - (* level filter *)
    intros l -> Hcue. unfold find_sections_by_level_hits.
    set (test := λ s : record, x ← sec_level s;
                   Ok (bool_decide (x = level_cue l))).
    destruct (collect_returns test brief_row_of data) as [o Ho].
    { intros s Hs. split; [|by apply Hrow3]. unfold test.
      destruct (sec_level_ok s) as (x & ->). by eexists. }
    exists o. split; [done|]. intros s Hs.
    destruct (Hsound s Hs) as (Hd & title & desc & row & Et & Ed & Hp & _).
    apply (collect_complete test brief_row_of data o s Ho Hd).
    apply passes_true in Hp as (_ & _ & Hlvl & _). unfold test.
    rewrite Hcue in Hlvl. simpl in Hlvl.
    pose proof (filter_level_cue_nonempty _ _ Hcue) as Hne.
    apply nonempty_true in Hne. rewrite (Hlvl Hne).
    cbn [mbind result_bind]. by rewrite bool_decide_eq_true_2.
  - (* time-of-day filter *)
    intros t -> Hne. unfold find_sections_by_time_hits. rewrite _norm_VStr.
    cbn [mbind result_bind].
    set (test := λ s : record, w ← sec_time_str s;
                   Ok (_time_in_bin w (lower (strip t)))).
    destruct (collect_returns test brief_row_of data) as [o Ho].
    { intros s Hs. pose proof (well_formed_all data s Hwf Hs) as Hws.
      split; [|by apply Hrow3]. unfold test.
      destruct (sec_time_str_ok s Hws) as (x & ->). by eexists. }
    exists o. split; [done|]. intros s Hs.
    destruct (Hsound s Hs) as (Hd & title & desc & row & Et & Ed & Hp & _).
    apply (collect_complete test brief_row_of data o s Ho Hd).
    apply passes_true in Hp as (_ & _ & _ & Htime). unfold test.
    simpl in Htime. unfold _n in Htime. simpl in Htime.
    assert (E1 : nonempty t = true).
    { apply nonempty_true. intros ->. by apply Hne. }
    rewrite E1 in Htime. simpl in Htime.
    assert (E2 : nonempty (lower (strip t)) = true).
    { destruct (strip t); [done|reflexivity]. }
    destruct (Htime E2) as (w & -> & Hw).
    cbn [mbind result_bind]. by rewrite Hw.
Qed.

Lemma combined_filter_within_single_filters_witness :
  ∃ out,
    find_sections_filtered_hits (Some ("testing" : str)) (Some ("cs" : str))
      (Some ("200" : str)) (Some ("Morning" : str)) 20
      [section_cs262; section_engl300] = Ok out ∧
    (∀ q, Some ("testing" : str) = Some q →
       ∃ o, find_courses_hits q [section_cs262; section_engl300] = Ok o ∧
            out.*1 ⊆ o.*1) ∧
    (∀ d, Some ("cs" : str) = Some d →
       ∃ o, find_sections_by_department_hits d [section_cs262; section_engl300] = Ok o ∧
            out.*1 ⊆ o.*1) ∧
    (∀ l, Some ("200" : str) = Some l →
       filter_level_cue (Some ("200" : str)) = Some (level_cue l) →
       ∃ o, find_sections_by_level_hits l [section_cs262; section_engl300] = Ok o ∧
            out.*1 ⊆ o.*1) ∧
    (∀ t, Some ("Morning" : str) = Some t → strip t ≠ [] →
       ∃ o, find_sections_by_time_hits t [section_cs262; section_engl300] = Ok o ∧
            out.*1 ⊆ o.*1).
Proof.
  apply combined_filter_within_single_filters. vm_compute. reflexivity.
Defined.

(** ** Patterns that need a character of some class *)

Lemma elem_of_all_ascii c : c ∈ all_ascii.
Proof.
  unfold all_ascii. apply list_elem_of_fmap. exists (nat_of_ascii c).
  split; [by rewrite ascii_nat_embedding|].
  apply elem_of_seq. pose proof (nat_ascii_bounded c). lia.
Qed.

Lemma class_within (q p : ascii → bool) x :
  forallb (λ x, implb (q x) (p x)) all_ascii = true → q x = true → p x = true.
Proof.
  rewrite forallb_forall. intros H Hq.
  specialize (H x). rewrite Hq in H. apply H.
  apply list_elem_of_In, elem_of_all_ascii.
Qed.

Lemma needs_sound ic p r prev s g m rest :
  needs ic p r = true → (g, m, rest) ∈ Re.run ic r prev s → existsb p m = true.
Proof.
  revert prev s g m rest.
  induction r as [|c|q|q lo hi| |r1 IH1 r2 IH2|r1 IH1 r2 IH2|i r IH];
    intros prev s g m rest; cbn [needs]; intros Hn.
  - done.
  - intros (x & s' & -> & Hx & [= -> -> ->])%elem_of_run_Lit.
    simpl. by rewrite (class_within _ p x Hn Hx).
  - intros (x & s' & -> & Hx & [= -> -> ->])%elem_of_run_Class.
    simpl. by rewrite (class_within _ p x Hn Hx).
  - apply andb_true_iff in Hn as [Hlo Hn]. apply Nat.ltb_lt in Hlo.
    intros (m' & rest' & [= -> -> ->] & -> & Hm & Hlen & _)%elem_of_run_Rep.
    destruct m' as [|x m']; [simpl in Hlen; lia|].
    simpl in Hm. apply andb_true_iff in Hm as [Hx _].
    simpl. by rewrite (class_within _ p x Hn Hx).
  - done.
  - intros (g1 & m1 & s1 & g2 & m2 & s2 & H1 & H2 & [= -> -> ->])%elem_of_run_Seq.
    rewrite existsb_app. apply orb_true_iff.
    apply orb_true_iff in Hn as [Hn|Hn]; [left|right]; eauto.
  - apply andb_true_iff in Hn as [Hn1 Hn2].
    intros [H|H]%elem_of_run_Alt; eauto.
  - intros (g' & m' & s' & H & [= -> -> ->])%elem_of_run_Group. eauto.
Qed.

(** A pattern that needs a character of a class finds nothing in a text
    without one. *)
Lemma search_needs ic p r (s : str) :
  needs ic p r = true → forallb (λ c, negb (p c)) s = true →
  Re.search ic r s = None.
Proof.
  intros Hn Hs. unfold Re.search. apply search_from_None.
  intros pre suf ->. apply elem_of_nil_inv. intros [[g m] rest] Hh.
  pose proof (needs_sound _ _ _ _ _ _ _ _ Hn Hh) as Hex.
  apply run_consumes in Hh as ->.
  apply existsb_exists in Hex as (c & Hc & Hpc).
  rewrite forallb_forall in Hs. specialize (Hs c).
  rewrite Hpc in Hs. discriminate Hs.
  apply in_or_app. right. apply in_or_app. by left.
Qed.

(** ** Claims about invalid filter arguments *)

Lemma sub_class_no_digit level :
  no_level_cue level = true → Re.sub_class (λ c, negb (is_digit c)) level = [].
Proof.
  unfold no_level_cue, Re.sub_class. induction level as [|c l IH]; [done|].
  simpl. intros [Hc Hl]%andb_true_iff.
  rewrite filter_cons_False; [by apply IH|]. by rewrite Hc.
Qed.

Lemma filter_level_cue_no_digit level :
  no_level_cue level = true → filter_level_cue (Some level) = None.
Proof.
  intros H. unfold filter_level_cue. destruct (nonempty level); [|done].
  rewrite (search_needs false is_digit re_d_00), (search_needs true is_digit re_d_xx),
    (search_needs true is_digit re_level_d); try done.
  cbn [or_else]. by rewrite sub_class_no_digit.
Qed.

Lemma level_cue_no_digit level :
  no_level_cue level = true → level_cue level = [].
Proof.
  intros H. unfold level_cue.
  rewrite (search_needs false is_digit re_d00), (search_needs true is_digit re_dxx);
    try done.
  cbn [or_else]. by rewrite sub_class_no_digit.
Qed.

Lemma _time_in_bin_unknown w b :
  assoc_get b _DEF_BINS = None → _time_in_bin w b = false.
Proof. intros H. unfold _time_in_bin. by rewrite H. Qed.

Lemma passes_unknown_bucket q dep lvl b s title desc :
  well_formed s = true → nonempty b = true → assoc_get b _DEF_BINS = None →
  passes q dep lvl (Some b) s title desc = Ok false.
Proof.
  intros Hs Hb Hun. unfold passes. cbn [given default]. rewrite Hb.
  destruct (sec_dept_ok s Hs) as (d & ->).
  destruct (sec_level_ok s) as (l & ->).
  destruct (sec_time_str_ok s Hs) as (w & ->).
  result_cases; try done; unfold id; by rewrite _time_in_bin_unknown.
Qed.

Lemma filtered_loop_blank_bucket q dep lvl limit data out0 :
  filtered_loop q dep lvl (Some []) limit data out0
  = filtered_loop q dep lvl None limit data out0.
Proof.
  revert out0. induction data as [|x data IH]; intros out0; simpl; [done|].
  destruct (sec_title x) as [title|]; cbn [mbind result_bind]; [|done].
  destruct (sec_desc x) as [desc|]; cbn [mbind result_bind]; [|done].
  change (passes q dep lvl (Some []) x title desc)
    with (passes q dep lvl None x title desc).
  destruct (passes q dep lvl None x title desc) as [keep|];
    cbn [mbind result_bind]; [|done].
  destruct keep; [|by apply IH].
  destruct (filtered_row_of x title desc) as [r|]; cbn [mbind result_bind]; [|done].
  destruct (Z.max 1 limit <=? _)%Z; [done|by apply IH].
Qed.

(** C7, as stated, fails for the time of day: a bucket name the code does
    not know excludes every section instead of being ignored. *)
Lemma unknown_bucket_is_not_ignored :
  unknown_bucket "night" = true ∧
  find_sections_filtered None None None (Some ("night" : str)) 50 [section_cs262]
  ≠ find_sections_filtered None None None None 50 [section_cs262].
Proof. split; [reflexivity|]. vm_compute. discriminate. Qed.

(** C7, amended.  No invalid argument makes a tool raise on a well-formed
    dataset, and
    - in the combined filter a level without a digit, like a blank time of
      day, is treated as absent;
    - the level filter given a level without a digit returns exactly the
      sections whose normalized level is empty;
    - a time of day that names no bucket matches no section: the
      time-of-day filter returns the empty list, and so does the combined
      filter unless the argument is blank. *)
Theorem invalid_arguments query department level time_of_day limit data :
  forallb well_formed data = true →
  (∀ l, no_level_cue l = true →
     find_sections_filtered query department (Some l) time_of_day limit data
     = find_sections_filtered query department None time_of_day limit data) ∧
  (∀ l, no_level_cue l = true →
     ∃ o, find_sections_by_level_hits l data = Ok o ∧
          ∀ s, s ∈ o.*1 ↔ s ∈ data ∧ sec_level s = Ok []) ∧
  (∀ t, unknown_bucket t = true →
     find_sections_by_time t data = Ok [] ∧
     (strip t = [] →
        find_sections_filtered query department level (Some t) limit data
        = find_sections_filtered query department level None limit data) ∧
     (strip t ≠ [] →
        find_sections_filtered query department level (Some t) limit data = Ok [])).
Proof.
  intros Hwf. split; [|split; [|intros t Ht; split; [|split]]].
  - intros l Hl. unfold find_sections_filtered, find_sections_filtered_hits.
    by rewrite (filter_level_cue_no_digit l Hl).
  - intros l Hl. unfold find_sections_by_level_hits.
    rewrite (level_cue_no_digit l Hl).
    set (test := λ s : record, x ← sec_level s; Ok (bool_decide (x = []))).
    destruct (collect_returns test brief_row_of data) as [o Ho].
    { intros s Hs. split.
      - unfold test. destruct (sec_level_ok s) as (x & ->). by eexists.
      - apply brief_row_of_ok. by apply (well_formed_all data). }
    exists o. split; [done|]. intros s. split.
    + intros ([s' row] & -> & Hin)%list_elem_of_fmap. cbn [fst].
      destruct (collect_sound test brief_row_of data o s' row Ho Hin)
        as (Hd & Ht & _).
      split; [done|]. unfold test in Ht.
      destruct (sec_level s') as [x|]; cbn [mbind result_bind] in Ht; [|done].
      injection Ht as Ht. apply bool_decide_eq_true in Ht. by rewrite Ht.
    + intros [Hd Hl0]. apply (collect_complete test brief_row_of data o s Ho Hd).
      unfold test. by rewrite Hl0.
  - unfold find_sections_by_time, find_sections_by_time_hits, rows.
    rewrite _norm_VStr. cbn [mbind result_bind].
    rewrite collect_none; [done|]. intros s Hs.
    destruct (sec_time_str_ok s (well_formed_all data s Hwf Hs)) as (w & ->).
    cbn [mbind result_bind]. rewrite _time_in_bin_unknown; [done|].
    unfold unknown_bucket in Ht. by destruct (assoc_get _ _).
  - intros Hblank.
    unfold find_sections_filtered, find_sections_filtered_hits.
    destruct (given (Some t)) eqn:E; [|done].
    change (_n (Some t)) with (strip t). rewrite Hblank.
    change (lower []) with (@nil ascii).
    by rewrite filtered_loop_blank_bucket.
  - intros Hne.
    unfold find_sections_filtered, find_sections_filtered_hits, rows.
    assert (E : given (Some t) = true).
    { apply nonempty_true. intros ->. by apply Hne. }
    rewrite E. change (_n (Some t)) with (strip t).
    rewrite filtered_loop_none; [done|]. intros s Hs.
    pose proof (well_formed_all data s Hwf Hs) as Hws.
    destruct (sec_title_ok s Hws) as (title & ->).
    destruct (sec_desc_ok s Hws) as (desc & ->).
    exists title, desc. split; [done|]. split; [done|].
    apply passes_unknown_bucket; [done| |].
    + destruct (strip t); [done|reflexivity].
    + unfold unknown_bucket in Ht. by destruct (assoc_get _ _).
Qed.

Lemma invalid_arguments_witness :
  (∀ l, no_level_cue l = true →
     find_sections_filtered None (Some ("cs" : str)) (Some l) None 20
       [section_cs262; section_engl300]
     = find_sections_filtered None (Some ("cs" : str)) None None 20
         [section_cs262; section_engl300]) ∧
  (∀ l, no_level_cue l = true →
     ∃ o, find_sections_by_level_hits l [section_cs262; section_engl300] = Ok o ∧
          ∀ s, s ∈ o.*1 ↔ s ∈ [section_cs262; section_engl300] ∧ sec_level s = Ok []) ∧
  (∀ t, unknown_bucket t = true →
     find_sections_by_time t [section_cs262; section_engl300] = Ok [] ∧
     (strip t = [] →
        find_sections_filtered None (Some ("cs" : str)) None (Some t) 20
          [section_cs262; section_engl300]
        = find_sections_filtered None (Some ("cs" : str)) None None 20
            [section_cs262; section_engl300]) ∧
     (strip t ≠ [] →
        find_sections_filtered None (Some ("cs" : str)) None (Some t) 20
          [section_cs262; section_engl300] = Ok [])).
Proof.
  apply invalid_arguments. vm_compute. reflexivity.
Defined.

(** ** Claims about the time buckets *)


(** What [re_clock] captures: an hour of one or two digits and a minute of
    two. *)
Lemma clock_groups t m :
  Re.search false re_clock t = Some m →
  ∃ h d1 d2,
    Re.group 1 m = h ∧ Re.group 2 m = [d1; d2] ∧
    forallb is_digit h = true ∧ 1 ≤ length h ≤ 2 ∧
    is_digit d1 = true ∧ is_digit d2 = true.
Proof.
  intros (pre & suf & -> & Hm)%search_from_Some.
  unfold re_clock, Re.cat in Hm. cbn [foldr] in Hm. run_inv. subst.
  match goal with
  | Hd : forallb is_digit ?mm = true, Hlo : 2 ≤ length ?mm |- _ =>
      rename mm into minute; rename Hd into Hdig; rename Hlo into Hlen
  end.
  match goal with
  | Hhi : ∀ b, Some 2 = Some b → length minute ≤ b |- _ =>
      specialize (Hhi 2 eq_refl)
  end.
  destruct minute as [|d1 [|d2 [|d3 minute]]]; simpl in *; try lia.
  apply andb_true_iff in Hdig as [Hd1 Hdig].
  apply andb_true_iff in Hdig as [Hd2 _].
  match goal with
  | Hd : forallb is_digit ?hh = true, Hhi : ∀ b, Some 2 = Some b → length ?hh ≤ b |- _ =>
      exists hh, d1, d2; specialize (Hhi 2 eq_refl)
  end.
  repeat split; try done; lia.
Qed.

Lemma is_digit_cases c : is_digit c = true → c ∈ ("0123456789" : str).
Proof.
  destruct c as [[] [] [] [] [] [] [] []]; intros H; vm_compute in H;
    try discriminate H; clear H; apply (bool_decide_unpack _); vm_compute; exact I.
Qed.

Lemma digit_val_range c : is_digit c = true → (0 ≤ digit_val c ≤ 9)%Z.
Proof.
  intros H%is_digit_cases.
  repeat (apply elem_of_cons in H as [->|H]); try (by apply elem_of_nil in H);
    vm_compute; split; discriminate.
Qed.

Lemma int_of_digits_hour h :
  forallb is_digit h = true → 1 ≤ length h ≤ 2 → (0 ≤ int_of_digits h ≤ 99)%Z.
Proof.
  destruct h as [|a [|b [|c h]]]; simpl; try lia.
  - intros [Ha%digit_val_range _]%andb_true_iff _.
    unfold int_of_digits. simpl. lia.
  - intros [Ha%digit_val_range [Hb%digit_val_range _]%andb_true_iff]%andb_true_iff _.
    unfold int_of_digits. simpl. lia.
Qed.

Lemma two_digits_minute d1 d2 :
  is_digit d1 = true → is_digit d2 = true → (int_of_digits [d1; d2] ≤ 59)%Z →
  [d1; d2] ∈ minute_texts.
Proof.
  intros H1%is_digit_cases H2%is_digit_cases.
  repeat (apply elem_of_cons in H1 as [->|H1]);
    try (by apply elem_of_nil in H1);
    repeat (apply elem_of_cons in H2 as [->|H2]);
    try (by apply elem_of_nil in H2);
    intros H; first [ apply (bool_decide_unpack _); vm_compute; exact I
                    | exfalso; vm_compute in H; by apply H ].
Qed.

Lemma hour_of_day hh : (0 ≤ hh ≤ 23)%Z → hh ∈ hours.
Proof.
  intros H. unfold hours. apply list_elem_of_fmap. exists (Z.to_nat hh).
  split; [lia|]. apply elem_of_seq. lia.
Qed.

(** The three comparisons on every start time of a day. *)
Lemma clock_table :
  forallb (λ hh, forallb (λ mm,
     bool_decide (List.filter (in_bin (fmt_02d hh ++ ":" ++ mm)) bucket_names
                  = if in_gap hh then []
                    else [bucket_for hh (int_of_digits mm)]))
     minute_texts) hours = true.
Proof. vm_compute. reflexivity. Qed.

Lemma clock_start_inv t hh mm :
  clock_start t = Some (hh, mm) →
  t ≠ [] ∧ (0 ≤ hh)%Z ∧
  ∃ d1 d2, mm = [d1; d2] ∧ is_digit d1 = true ∧ is_digit d2 = true.
Proof.
  unfold clock_start. destruct (Re.search false re_clock t) as [m|] eqn:E; [|done].
  destruct (clock_groups t m E) as (h & d1 & d2 & Hg1 & Hg2 & Hh & Hlen & Hd1 & Hd2).
  rewrite Hg1, Hg2. pose proof (int_of_digits_hour h Hh Hlen) as Hrange.
  intros [= <- <-]. split; [|split].
  - intros ->. vm_compute in E. discriminate E.
  - repeat match goal with |- context [if ?b then _ else _] => destruct b end; lia.
  - by exists d1, d2.
Qed.

Lemma _time_in_bin_clock t hh mm label :
  clock_start t = Some (hh, mm) →
  _time_in_bin t label = in_bin (fmt_02d hh ++ ":" ++ mm) label.
Proof.
  intros H. unfold _time_in_bin, in_bin.
  destruct (assoc_get label _DEF_BINS) as [[lo hi]|]; [|done].
  destruct (clock_start_inv t hh mm H) as (Ht%nonempty_true & _).
  by rewrite Ht, H.
Qed.

Lemma clock_hit prev s h :
  h ∈ Re.run false re_clock prev s →
  ∃ w post, s = w ++ post ∧ a_clock_time w ∧
    Re.wordish prev = false ∧ Re.wordish (head post) = false ∧
    clock_groups_of h w.
Proof.
  unfold re_clock, Re.cat. cbn [foldr]. intros Hh. run_inv. bounds. subst.
  lazymatch goal with
  | Hb : Re.at_boundary prev _ = true, He : Re.at_boundary (Re.last_or ?q _) _ = true
    |- ∃ w post, ?hr ++ _ :: ?mn ++ ?p = _ ∧ _ =>
      exists (hr ++ ":" ++ mn), p;
      assert (Hhr : forallb is_digit hr = true) by done;
      assert (Hmn : forallb is_digit mn = true) by done;
      assert (Hhl : 1 ≤ length hr) by done;
      assert (Hml : 1 ≤ length mn) by lia;
      destruct (head_is is_digit hr (":" ++ mn ++ p) Hhr Hhl) as (c1 & Hc1 & Hu1);
      destruct (last_is is_digit [] mn Hmn Hml) as (c2 & Hc2 & Hu2);
      simpl in Hc2; rewrite ?app_nil_r in He;
      apply (wordish_before prev _ c1 Hc1 (is_word_digit c1 Hu1)) in Hb;
      apply (wordish_after q _ _ c2 Hc2 (is_word_digit c2 Hu2)) in He;
      assert (Hc : clock_text hr mn (hr ++ ":" ++ mn))
        by (repeat split; try done; lia)
  end.
  split; [by rewrite <- !app_assoc|].
  split; [by eexists _, _|]. split; [done|]. split; [done|].
  eexists _, _. split; [exact Hc|]. simpl. by rewrite ?app_nil_r.
Qed.

Lemma colon_not_digit : is_digit ":" = false.
Proof. reflexivity. Qed.

Lemma clock_head prev w post :
  a_clock_time w → Re.wordish prev = false → Re.wordish (head post) = false →
  ∃ h, head (Re.run false re_clock prev (w ++ post)) = Some h ∧ clock_groups_of h w.
Proof.
  intros (hour & minute & Hc) Hprev Hpost.
  pose proof Hc as (-> & Hh & Hhl & Hm & Hml).
  rewrite <- !app_assoc.
  destruct (head_is is_digit hour (":" ++ minute ++ post) Hh) as (c1 & Hc1 & Hu1);
    [lia|].
  destruct (last_is is_digit [] minute Hm) as (c2 & Hc2 & Hu2); [lia|].
  simpl in Hc2.
  eexists. split.
  - unfold re_clock, Re.cat. cbn [foldr].
    eapply head_run_Seq.
    { apply head_run_WordB. by apply (wordish_before prev _ c1 Hc1), Hprev;
        apply is_word_digit. }
    eapply head_run_Seq.
    { apply head_run_Group.
      apply head_run_Rep; [done|lia|by intros b [= <-]; lia|left]. done. }
    eapply head_run_Seq.
    { apply head_run_Lit. reflexivity. }
    eapply head_run_Seq.
    { apply head_run_Group.
      apply head_run_Rep; [done|lia|by intros b [= <-]; lia|right].
      by rewrite Hml. }
    eapply head_run_Seq; [|reflexivity].
    apply head_run_WordB.
    by apply (wordish_after _ _ _ c2 Hc2 (is_word_digit c2 Hu2)).
  - exists hour, minute. split; [done|]. simpl. by rewrite ?app_nil_r.
Qed.

(** The hour of a clock time is what stands before its colon. *)
Lemma clock_text_unique hour minute hour' minute' w :
  clock_text hour minute w → clock_text hour' minute' w →
  hour = hour' ∧ minute = minute'.
Proof.
  intros (-> & Hh & _ & _ & _) (E & Hh' & _ & _ & _).
  revert hour' Hh' E. induction hour as [|c hour IH]; intros [|c' hour'] Hh' E.
  - simpl in E. by injection E as <-.
  - simpl in *. injection E as <- _. by rewrite colon_not_digit in Hh'.
  - simpl in *. injection E as -> _. by rewrite colon_not_digit in Hh.
  - simpl in *. injection E as -> E.
    apply andb_true_iff in Hh as [_ Hh]. apply andb_true_iff in Hh' as [_ Hh'].
    destruct (IH Hh hour' Hh' E) as [-> ->]. done.
Qed.

Lemma number_digits (s : str) :
  forallb is_digit s = true → 1 ≤ length s ≤ 2 → number s = Some (int_of_digits s).
Proof.
  destruct s as [|a [|b [|c s]]]; simpl; try lia.
  - intros [Ha%is_digit_cases _]%andb_true_iff _.
    repeat (apply elem_of_cons in Ha as [->|Ha]); try (by apply elem_of_nil in Ha);
      reflexivity.
  - intros [Ha%is_digit_cases [Hb%is_digit_cases _]%andb_true_iff]%andb_true_iff _.
    repeat (apply elem_of_cons in Ha as [->|Ha]); try (by apply elem_of_nil in Ha);
      repeat (apply elem_of_cons in Hb as [->|Hb]); try (by apply elem_of_nil in Hb);
      reflexivity.
Qed.

Lemma before_first_none (c : ascii) (t : str) : c ∉ t → before_first c t = t.
Proof.
  induction t as [|x t IH]; [done|]. intros Hc. simpl.
  rewrite bool_decide_eq_false_2.
  - f_equal. apply IH. intros H. apply Hc. by apply list_elem_of_further.
  - intros ->. apply Hc. apply list_elem_of_here.
Qed.

Lemma before_first_app (c : ascii) (b rest : str) :
  c ∉ b → before_first c (b ++ c :: rest) = b.
Proof.
  induction b as [|x b IH]; intros Hc; simpl.
  - by rewrite bool_decide_eq_true_2.
  - rewrite bool_decide_eq_false_2.
    + f_equal. apply IH. intros H. apply Hc. by apply list_elem_of_further.
    + intros ->. apply Hc. apply list_elem_of_here.
Qed.

Lemma before_dash_first t before : before_dash t before → before_first "-" t = before.
Proof.
  intros [Hc [->|(rest & ->)]]; [by apply before_first_none|].
  by apply before_first_app.
Qed.

(** A marker of two letters, looked for in any letter case. *)
Section marker.
Variables a b : ascii.
Hypothesis a_word : ∀ x, lower_c x = lower_c a → is_word x = true.
Hypothesis b_word : ∀ x, lower_c x = lower_c b → is_word x = true.

Lemma marker_hit prev s h :
  h ∈ Re.run true (re_marker a b) prev s →
  ∃ w post, s = w ++ post ∧ lower w = lower [a; b] ∧
    Re.wordish prev = false ∧ Re.wordish (head post) = false ∧ True.
Proof.
  unfold re_marker, Re.cat. cbn [foldr]. intros Hh. run_inv. subst.
  repeat match goal with
         | H : Re.lit_eq true _ _ = true |- _ =>
             unfold Re.lit_eq in H; apply bool_decide_eq_true in H
         end.
  lazymatch goal with
  | Hb : Re.at_boundary prev _ = true, He : Re.at_boundary (Re.last_or ?q _) _ = true,
    Hx : lower_c ?x = lower_c a, Hy : lower_c ?y = lower_c b
    |- ∃ w post, _ :: _ :: ?p = _ ∧ _ =>
      exists [x; y], p; simpl in He;
      apply (wordish_before prev (x :: y :: p) x eq_refl (a_word x Hx)) in Hb;
      apply (wordish_after q [x; y] p y eq_refl (b_word y Hy)) in He;
      split; [done|]; split; [by simpl; rewrite Hx, Hy|done]
  end.
Qed.

Lemma marker_head prev w post :
  lower w = lower [a; b] → Re.wordish prev = false →
  Re.wordish (head post) = false →
  ∃ h, head (Re.run true (re_marker a b) prev (w ++ post)) = Some h ∧ True.
Proof.
  intros Hw Hprev Hpost.
  destruct w as [|x [|y [|z w]]]; try discriminate Hw.
  simpl in Hw. injection Hw as Hx Hy.
  eexists. split; [|done].
  unfold re_marker, Re.cat. cbn [foldr].
  eapply head_run_Seq.
  { apply head_run_WordB.
    by apply (wordish_before prev (x :: y :: post) x eq_refl (a_word x Hx)). }
  eapply head_run_Seq.
  { eapply head_run_Seq.
    { apply head_run_Lit. unfold Re.lit_eq. by apply bool_decide_eq_true. }
    eapply head_run_Seq; [|reflexivity].
    apply head_run_Lit. unfold Re.lit_eq. by apply bool_decide_eq_true. }
  eapply head_run_Seq; [|reflexivity].
  apply head_run_WordB. simpl.
  by apply (wordish_after _ [x; y] post y eq_refl (b_word y Hy)).
Qed.

Lemma marker_found s :
  Re.found (Re.search true (re_marker a b) s) = true ↔ marker_stands [a; b] s.
Proof.
  apply (found_standing true (re_marker a b) (λ w, lower w = lower [a; b]) (λ _ _, True)
           marker_hit marker_head).
Qed.
End marker.

Lemma p_word x : lower_c x = lower_c "P" → is_word x = true.
Proof. destruct x as [[] [] [] [] [] [] [] []]; by vm_compute. Qed.
Lemma a_word x : lower_c x = lower_c "A" → is_word x = true.
Proof. destruct x as [[] [] [] [] [] [] [] []]; by vm_compute. Qed.
Lemma m_word x : lower_c x = lower_c "M" → is_word x = true.
Proof. destruct x as [[] [] [] [] [] [] [] []]; by vm_compute. Qed.

Lemma found_PM s : Re.found (Re.search true re_PM s) = true ↔ marker_stands "PM" s.
Proof. apply (marker_found "P" "M" p_word m_word). Qed.

Lemma found_AM s : Re.found (Re.search true re_AM s) = true ↔ marker_stands "AM" s.
Proof. apply (marker_found "A" "M" a_word m_word). Qed.

Lemma reflects (b c : bool) (P : Prop) : (b = true ↔ P) → (c = true ↔ P) → b = c.
Proof. destruct b, c; intuition congruence. Qed.

(** The start [_time_in_bin] reads off a text: the first clock time
    standing in it, its hour resolved by the markers before the hyphen. *)
Lemma clock_start_reads t w hour minute before h pm am :
  first_standing a_clock_time t w → clock_text hour minute w →
  number hour = Some h →
  before_dash t before →
  (pm = true ↔ marker_stands "PM" before) →
  (am = true ↔ marker_stands "AM" before) →
  clock_start t = Some (resolved_hour h pm am, minute).
Proof.
  intros Hfirst Hc Hn Hbefore Hpm Ham.
  destruct (search_first_standing false re_clock a_clock_time clock_groups_of
              clock_hit clock_head t w Hfirst)
    as (m & Hm & hour' & minute' & Hc' & G1 & G2).
  destruct (clock_text_unique _ _ _ _ _ Hc' Hc) as [-> ->].
  destruct Hc as (_ & Hh & Hhl & _ & _).
  rewrite (number_digits hour Hh Hhl) in Hn. injection Hn as Hn.
  unfold clock_start. rewrite Hm, G1, G2, Hn, (before_dash_first t before Hbefore).
  rewrite (reflects _ pm _ (found_PM before) Hpm).
  rewrite (reflects _ am _ (found_AM before) Ham).
  reflexivity.
Qed.

(** The buckets of a text whose start the code reads as [hh]:[mm]. *)
Lemma buckets_of_clock_start t hh mm :
  clock_start t = Some (hh, mm) → (hh ≤ 23)%Z → (int_of_digits mm ≤ 59)%Z →
  buckets_of t = (if in_gap hh then [] else [bucket_for hh (int_of_digits mm)]).
Proof.
  intros Hc Hh Hm.
  destruct (clock_start_inv t hh mm Hc) as (_ & Hh0 & d1 & d2 & -> & Hd1 & Hd2).
  assert (Hb : buckets_of t
               = List.filter (in_bin (fmt_02d hh ++ ":" ++ [d1; d2])) bucket_names).
  { unfold buckets_of, bucket_names. cbn [List.filter].
    by rewrite !(_time_in_bin_clock t hh [d1; d2]). }
  rewrite Hb. pose proof clock_table as Htab.
  rewrite forallb_forall in Htab.
  specialize (Htab hh). rewrite forallb_forall in Htab.
  specialize (Htab (proj1 (list_elem_of_In _ _) (hour_of_day hh (conj Hh0 Hh)))
                   [d1; d2]
                   (proj1 (list_elem_of_In _ _) (two_digits_minute d1 d2 Hd1 Hd2 Hm))).
  by apply bool_decide_eq_true in Htab.
Qed.

Lemma first_clock_time t h :
  Re.search false re_clock t = Some h →
  first_standing a_clock_time t (Re.group 1 h ++ ":" ++ Re.group 2 h).
Proof.
  intros E.
  destruct (first_standing_of_search false re_clock a_clock_time clock_groups_of
              clock_hit clock_head t h E)
    as (w & (hour & minute & Hc & <- & <-) & Hw).
  by destruct Hc as (-> & _).
Qed.

(** C2, as stated, fails.  "24:00" holds a clock time with valid minutes
    whose start is in neither excepted range, and no bucket takes it; and
    "6:00PM" holds the clock time 6:00, but the letters that follow it keep
    the code from reading it, so no bucket takes it either. *)
Lemma clock_times_in_no_bucket :
  (first_standing a_clock_time "24:00" "24:00" ∧ clock_text "24" "00" "24:00" ∧
   number "24" = Some 24%Z ∧ number "00" = Some 0%Z ∧
   in_gap 24 = false ∧ buckets_of "24:00" = []) ∧
  ((∃ pre post, ("6:00PM" : str) = pre ++ "6:00" ++ post) ∧
   clock_text "6" "00" "6:00" ∧ number "6" = Some 6%Z ∧
   in_gap (resolved_hour 6 true false) = false ∧ buckets_of "6:00PM" = []).
Proof.
  split.
  - split; [|repeat split; first [by vm_compute|simpl; lia]].
    apply (first_clock_time "24:00"
             ([(1, "24" : str); (2, "00" : str)], "24:00" : str, [])).
    by vm_compute.
  - split; [by exists [], ("PM" : str)|].
    repeat split; first [by vm_compute|simpl; lia].
Qed.

(** C2, amended.  Take the first clock time that stands in the text as a
    word of its own: an hour of one or two digits, a colon and a minute of
    two digits, with no letter, digit or underscore directly before or after.
    Its hour is resolved by the markers standing as words of their own, in
    any letter case, before the first hyphen: 12 is added for PM unless the
    hour is 12, and 12 AM is 0.  When the resolved hour is at most 23 and the
    minutes are at most 59, no bucket classifies true when the start is in
    00:00-05:59 or 23:00-23:59, and otherwise exactly one does: morning up to
    11:59, afternoon from 12:00 to 17:00 inclusive, evening from 17:01.  At
    the boundaries 12:00 and 17:00 are afternoon and 17:01 is evening. *)
Theorem time_buckets_partition t w hour minute before h m pm am :
  first_standing a_clock_time t w → clock_text hour minute w →
  number hour = Some h → number minute = Some m →
  before_dash t before →
  (pm = true ↔ marker_stands "PM" before) →
  (am = true ↔ marker_stands "AM" before) →
  (resolved_hour h pm am ≤ 23)%Z → (m ≤ 59)%Z →
  buckets_of t = (if in_gap (resolved_hour h pm am) then []
                  else [bucket_for (resolved_hour h pm am) m]) ∧
  buckets_of "12:00" = ["afternoon" : str] ∧
  buckets_of "17:00" = ["afternoon" : str] ∧
  buckets_of "17:01" = ["evening" : str].
Proof.
  intros Hfirst Hc Hh Hm Hbefore Hpm Ham Hhour Hmin. split; [|by vm_compute].
  pose proof (clock_start_reads t w hour minute before h pm am
                Hfirst Hc Hh Hbefore Hpm Ham) as Hstart.
  destruct Hc as (_ & _ & _ & Hmd & Hml).
  rewrite (number_digits minute Hmd) in Hm by lia. injection Hm as <-.
  by apply buckets_of_clock_start.
Qed.

Lemma time_buckets_partition_witness :
  buckets_of "MWF 09:30 AM - 10:20 AM"
  = (if in_gap (resolved_hour 9 false true) then []
     else [bucket_for (resolved_hour 9 false true) 30]) ∧
  buckets_of "12:00" = ["afternoon" : str] ∧
  buckets_of "17:00" = ["afternoon" : str] ∧
  buckets_of "17:01" = ["evening" : str].
Proof.
  apply (time_buckets_partition "MWF 09:30 AM - 10:20 AM" "09:30" "09" "30"
           "MWF 09:30 AM ").
  - apply (first_clock_time "MWF 09:30 AM - 10:20 AM"
             ([(1, "09" : str); (2, "30" : str)], "09:30" : str,
              " AM - 10:20 AM" : str)).
    by vm_compute.
  - repeat split; simpl; lia.
  - reflexivity.
  - reflexivity.
  - split.
    + apply (bool_decide_unpack _). by vm_compute.
    + right. exists (" 10:20 AM" : str). reflexivity.
  - split; [discriminate|]. intros H%found_PM. vm_compute in H. discriminate H.
  - split; [|done]. intros _. apply found_AM. by vm_compute.
  - vm_compute. discriminate.
  - lia.
Defined.

(** ** Claims about the intent resolver *)

Lemma is_digit_lower_c c : is_digit (lower_c c) = is_digit c.
Proof. by destruct c as [[] [] [] [] [] [] [] []]. Qed.

Lemma is_word_lower_c c : is_word (lower_c c) = is_word c.
Proof. by destruct c as [[] [] [] [] [] [] [] []]. Qed.

Lemma wordish_last_lower (s : str) :
  Re.wordish (last (lower s)) = Re.wordish (last s).
Proof.
  induction s as [|c s IH]; [done|].
  unfold lower in *. simpl map. rewrite !last_cons.
  destruct (last s) eqn:E, (last (map lower_c s)) eqn:E'; try done.
  - apply last_None in E'. apply map_eq_nil in E'. subst s. done.
  - apply last_None in E. subst s. done.
  - simpl. apply is_word_lower_c.
Qed.

Lemma wordish_head_lower (s : str) :
  Re.wordish (head (lower s)) = Re.wordish (head s).
Proof. destruct s; [done|]. simpl. apply is_word_lower_c. Qed.

Lemma forallb_digit_lower (s : str) :
  forallb is_digit (lower s) = forallb is_digit s.
Proof.
  induction s as [|c s IH]; [done|]. simpl. by rewrite is_digit_lower_c, IH.
Qed.

Lemma mentions_py_in phrase u : mentions phrase u ↔ py_in phrase u = true.
Proof. symmetry. apply py_in_spec. Qed.

Lemma section_code_hit prev s h :
  h ∈ Re.run false re_section_code prev s →
  ∃ code post, s = code ++ post ∧ section_code code ∧
    Re.wordish prev = false ∧ Re.wordish (head post) = false ∧
    Re.group 1 h = code.
Proof.
  unfold re_section_code, Re.cat. cbn [foldr]. intros Hh. run_inv. bounds. subst.
  lazymatch goal with
  | Hb : Re.at_boundary prev _ = true, He : Re.at_boundary (Re.last_or ?q _) _ = true
    |- ∃ code post, ?l ++ ?g ++ ?d ++ _ :: ?t ++ ?p = _ ∧ _ =>
      exists (l ++ g ++ d ++ "-" ++ t), p;
      assert (Hl : forallb is_upper l = true) by done;
      assert (Ht : forallb (λ c, is_upper c || is_digit c) t = true) by done;
      assert (Hll : 1 ≤ length l) by lia;
      assert (Htl : 1 ≤ length t) by done;
      destruct (head_is is_upper l (g ++ d ++ "-" ++ t ++ p) Hl Hll) as (c1 & Hc1 & Hu1);
      destruct (last_is (λ c, is_upper c || is_digit c) (l ++ g ++ d ++ "-") t Ht Htl)
        as (c2 & Hc2 & Hu2);
      rewrite <- !app_assoc in Hc2; rewrite app_nil_r in He;
      apply (wordish_before prev _ c1 Hc1 (is_word_upper c1 Hu1)) in Hb;
      apply (wordish_after q _ _ c2 Hc2 (is_word_code_tail c2 Hu2)) in He
  end.
  split; [by rewrite <- !app_assoc|].
  split; [eexists _, _, _, _; repeat split; try done; lia|].
  split; [done|]. split; [done|].
  simpl. by rewrite !app_nil_r.
Qed.

Lemma section_code_head prev code post :
  section_code code → Re.wordish prev = false → Re.wordish (head post) = false →
  ∃ h, head (Re.run false re_section_code prev (code ++ post)) = Some h ∧
       Re.group 1 h = code.
Proof.
  intros (letters & gap & digits & tail & -> & Hl & Hll & Hg & Hd & Hdl & Ht & Htl)
         Hprev Hpost.
  rewrite <- !app_assoc.
  destruct (head_is is_upper letters (gap ++ digits ++ "-" ++ tail ++ post) Hl)
    as (c1 & Hc1 & Hu1); [lia|].
  destruct (last_is (λ c, is_upper c || is_digit c) (letters ++ gap ++ digits ++ "-")
              tail Ht) as (c2 & Hc2 & Hu2); [lia|].
  rewrite <- !app_assoc in Hc2.
  eexists. split.
  - unfold re_section_code, Re.cat. cbn [foldr].
    eapply head_run_Seq.
    { apply head_run_WordB. by apply (wordish_before prev _ c1 Hc1), Hprev;
        apply is_word_upper. }
    eapply head_run_Seq.
    + apply head_run_Group.
      eapply head_run_Seq.
      { apply head_run_Rep; [done|lia|by intros b [= <-]; lia|left].
        destruct gap as [|g gap].
        - apply (clear_head_app _ is_digit digits); [apply is_digit_not_upper|done|lia].
        - apply (clear_head_app _ is_space (g :: gap));
            [apply is_space_not_upper|done|simpl; lia]. }
      eapply head_run_Seq.
      { apply head_run_Rep; [done|lia|by intros b [=]|left].
        apply (clear_head_app _ is_digit digits); [apply is_digit_not_space|done|lia]. }
      eapply head_run_Seq.
      { apply head_run_Rep; [done|lia|by intros b [= <-]; lia|left]. done. }
      eapply head_run_Seq.
      { apply head_run_Lit. reflexivity. }
      eapply head_run_Seq; [|reflexivity].
      apply head_run_Rep; [done|lia|by intros b [= <-]; lia|left].
      apply clear_not_wordish; [apply is_word_code_tail|done].
    + eapply head_run_Seq; [|reflexivity].
      apply head_run_WordB. rewrite app_nil_r.
      by apply (wordish_after _ _ _ c2 Hc2 (is_word_code_tail c2 Hu2)).
  - simpl. by rewrite !app_nil_r.
Qed.

Lemma long_number_hit prev s h :
  h ∈ Re.run false re_long_number prev s →
  ∃ w post, s = w ++ post ∧ long_number w ∧
    Re.wordish prev = false ∧ Re.wordish (head post) = false ∧
    Re.group 1 h = w.
Proof.
  unfold re_long_number, Re.cat. cbn [foldr]. intros Hh. run_inv. bounds. subst.
  lazymatch goal with
  | Hb : Re.at_boundary prev _ = true, He : Re.at_boundary (Re.last_or ?q _) _ = true
    |- ∃ w post, ?d ++ ?p = _ ∧ _ =>
      exists d, p;
      assert (Hd : forallb is_digit d = true) by done;
      assert (Hdl : 1 ≤ length d) by lia;
      destruct (head_is is_digit d p Hd Hdl) as (c1 & Hc1 & Hu1);
      destruct (last_is is_digit [] d Hd Hdl) as (c2 & Hc2 & Hu2);
      rewrite ?app_nil_r in He; simpl in Hc2;
      apply (wordish_before prev _ c1 Hc1 (is_word_digit c1 Hu1)) in Hb;
      apply (wordish_after q _ _ c2 Hc2 (is_word_digit c2 Hu2)) in He
  end.
  split; [done|]. split; [by split|]. split; [done|]. split; [done|].
  simpl. by rewrite ?app_nil_r.
Qed.

Lemma long_number_head prev w post :
  long_number w → Re.wordish prev = false → Re.wordish (head post) = false →
  ∃ h, head (Re.run false re_long_number prev (w ++ post)) = Some h ∧
       Re.group 1 h = w.
Proof.
  intros [Hd Hlen] Hprev Hpost.
  destruct (head_is is_digit w post Hd) as (c1 & Hc1 & Hu1); [lia|].
  destruct (last_is is_digit [] w Hd) as (c2 & Hc2 & Hu2); [lia|].
  simpl in Hc2.
  eexists. split.
  - unfold re_long_number, Re.cat. cbn [foldr].
    eapply head_run_Seq.
    { apply head_run_WordB. by apply (wordish_before prev _ c1 Hc1), Hprev;
        apply is_word_digit. }
    eapply head_run_Seq.
    + apply head_run_Group.
      apply head_run_Rep; [done|lia|by intros b [=]|left].
      apply clear_not_wordish; [apply is_word_digit|done].
    + eapply head_run_Seq; [|reflexivity].
      apply head_run_WordB. rewrite ?app_nil_r.
      by apply (wordish_after _ _ _ c2 Hc2 (is_word_digit c2 Hu2)).
  - simpl. by rewrite ?app_nil_r.
Qed.

Lemma section_code_search utterance sid :
  first_standing section_code utterance sid →
  ∃ h, Re.search false re_section_code utterance = Some h ∧ Re.group 1 h = sid.
Proof.
  apply (search_first_standing false re_section_code section_code
           (λ h w, Re.group 1 h = w) section_code_hit section_code_head).
Qed.

Lemma lower_digits (w : str) : forallb is_digit w = true → lower w = w.
Proof.
  induction w as [|c w IH]; [done|]. simpl. intros [Hc Hw]%andb_true_iff.
  rewrite (IH Hw). f_equal. unfold lower_c.
  by rewrite (is_digit_not_upper c Hc).
Qed.

Lemma stands_at_lower u pre w post :
  stands_at u pre w post → forallb is_digit w = true →
  stands_at (lower u) (lower pre) w (lower post).
Proof.
  intros (-> & Hb & Ha) Hw. split; [|split].
  - by rewrite !lower_app, (lower_digits w Hw).
  - by rewrite wordish_last_lower.
  - by rewrite wordish_head_lower.
Qed.

Lemma stands_at_unlower u pre w post :
  stands_at (lower u) pre w post → forallb is_digit w = true →
  ∃ pre' post', stands_at u pre' w post' ∧ length pre' = length pre.
Proof.
  intros (Hu & Hb & Ha) Hw. unfold lower in Hu.
  apply map_eq_app in Hu as (pre' & rest & -> & <- & Hrest).
  apply map_eq_app in Hrest as (w' & post' & -> & <- & <-).
  fold (lower pre') in *. fold (lower w') in *. fold (lower post') in *.
  rewrite forallb_digit_lower in Hw. rewrite (lower_digits w' Hw).
  rewrite wordish_last_lower in Hb. rewrite wordish_head_lower in Ha.
  exists pre', post'. split; [done|]. unfold lower. by rewrite length_map.
Qed.

Lemma first_long_number_lower u w :
  first_standing long_number u w → first_standing long_number (lower u) w.
Proof.
  intros (pre & post & Hs & [Hd Hlen] & Hfirst).
  exists (lower pre), (lower post).
  split; [by apply stands_at_lower|]. split; [done|].
  intros pre' w' post' Hs' [Hd' Hlen'].
  destruct (stands_at_unlower u pre' w' post' Hs' Hd') as (p & q & Hs'' & <-).
  unfold lower. rewrite length_map. by apply (Hfirst p w' q).
Qed.

Lemma is_word_not_space c : is_word c = true → is_space c = false.
Proof. by destruct c as [[] [] [] [] [] [] [] []]. Qed.

Lemma word_edges_trimmed (w : str) c1 c2 :
  head w = Some c1 → is_word c1 = true → last w = Some c2 → is_word c2 = true →
  strip w = w.
Proof.
  intros H1 W1 H2 W2. apply strip_by_fixed. split.
  - rewrite H1. simpl. by rewrite (is_word_not_space c1 W1).
  - rewrite H2. simpl. by rewrite (is_word_not_space c2 W2).
Qed.

Lemma section_code_trimmed code : section_code code → strip code = code.
Proof.
  intros (letters & gap & digits & tail & -> & Hl & Hll & Hg & Hd & Hdl & Ht & Htl).
  destruct (head_is is_upper letters (gap ++ digits ++ "-" ++ tail) Hl)
    as (c1 & Hc1 & Hu1); [lia|].
  destruct (last_is (λ c, is_upper c || is_digit c) (letters ++ gap ++ digits ++ "-")
              tail Ht) as (c2 & Hc2 & Hu2); [lia|].
  rewrite <- !app_assoc in Hc2.
  apply (word_edges_trimmed _ c1 c2 Hc1 (is_word_upper c1 Hu1) Hc2
           (is_word_code_tail c2 Hu2)).
Qed.

Lemma long_number_trimmed w : long_number w → strip w = w.
Proof.
  intros [Hd Hlen].
  destruct (head_is is_digit w [] Hd) as (c1 & Hc1 & Hu1); [lia|].
  destruct (last_is is_digit [] w Hd) as (c2 & Hc2 & Hu2); [lia|].
  rewrite app_nil_r in Hc1. simpl in Hc2.
  apply (word_edges_trimmed _ c1 c2 Hc1 (is_word_digit c1 Hu1) Hc2
           (is_word_digit c2 Hu2)).
Qed.

(** C8, as stated, fails: the code ENGL 300-ABC is in the utterance, but a
    letter follows it, and the resolver turns to the combined filter. *)
Lemma id_lookup_misses_code_inside_word :
  asks_for_details "details ENGL 300-ABCD" ∧
  (∃ pre code post,
     ("details ENGL 300-ABCD" : str) = pre ++ code ++ post ∧ section_code code) ∧
  detect_intent "details ENGL 300-ABCD"
  = FindSectionsFiltered (Some ("ENGLISH" : str)) (Some ("300" : str)) None 20.
Proof.
  split; [|split].
  - left. by exists ([] : str), (" engl 300-abcd" : str).
  - exists ("details " : str), ("ENGL 300-ABC" : str), ("D" : str).
    split; [done|].
    exists ("ENGL" : str), (" " : str), ("300" : str), ("ABC" : str).
    repeat split; try reflexivity; simpl; lia.
  - by vm_compute.
Qed.

(** C8, amended.  When the utterance holds "details", "tell me more" or
    "id " (in any letter case) and a section code stands in it as a word of
    its own, [detect_intent] resolves to the id lookup with the first such
    code; when no section code stands so but a run of five or more digits
    does, it resolves to the id lookup with the first such run.  Department,
    level, time-of-day and keyword cues in the utterance change nothing. *)
Theorem id_lookup_overrides utterance sid :
  asks_for_details utterance →
  first_standing section_code utterance sid ∨
  (none_standing section_code utterance ∧ first_standing long_number utterance sid) →
  detect_intent utterance = GetSectionDetails sid.
Proof.
  intros Hask Hid.
  assert (Ha : asks_details (lower utterance) = true).
  { unfold asks_details. rewrite !orb_true_iff, <- !mentions_py_in.
    destruct Hask as [H|[H|H]]; auto. }
  assert (Hs : ∃ h, section_id_cue utterance (lower utterance) = Some h ∧
                    strip (Re.group 1 h) = sid).
  { unfold section_id_cue. destruct Hid as [H|[Hnone H]].
    - destruct (section_code_search utterance sid H) as (h & -> & Hg).
      exists h. split; [done|]. rewrite Hg. destruct H as (_ & _ & _ & Hc & _).
      by apply section_code_trimmed.
    - rewrite (search_none_standing false re_section_code section_code
                 (λ h w, Re.group 1 h = w) section_code_hit utterance Hnone).
      destruct (search_first_standing false re_long_number long_number
                  (λ h w, Re.group 1 h = w) long_number_hit long_number_head
                  (lower utterance) sid (first_long_number_lower _ _ H))
        as (h & -> & Hg).
      exists h. split; [done|]. rewrite Hg. destruct H as (_ & _ & _ & Hc & _).
      by apply long_number_trimmed. }
  destruct Hs as (h & Hs & Hsid).
  unfold detect_intent. cbv zeta. by rewrite Ha, Hs, Hsid.
Qed.

Lemma id_lookup_overrides_witness :
  detect_intent "show details for ENGL 300-A, a 300 level english class in the morning"
  = GetSectionDetails "ENGL 300-A".
Proof.
  apply id_lookup_overrides.
  - left. by exists ("show " : str),
      (" for engl 300-a, a 300 level english class in the morning" : str).
  - left.
    destruct (first_standing_of_search false re_section_code section_code
                (λ h w, Re.group 1 h = w) section_code_hit section_code_head
                "show details for ENGL 300-A, a 300 level english class in the morning"
                ([(1, "ENGL 300-A" : str)], "ENGL 300-A" : str,
                 ", a 300 level english class in the morning" : str))
      as (w & <- & Hw); [by vm_compute|exact Hw].
Defined.

(** * Further properties of the tools and of the agent *)

(** ** Selection keeps the dataset order *)

Lemma collect_filter {A : Type} (test : record → result bool)
    (row : record → result A) data out :
  collect test row data = Ok out →
  out.*1 = List.filter (passed test) data.
Proof.
  revert out. induction data as [|x data IH]; intros out; simpl.
  - by intros [= <-].
  - unfold passed at 1. destruct (test x) as [b|e]; cbn [mbind result_bind]; [|done].
    destruct b.
    + destruct (row x) as [a|e]; cbn [mbind result_bind]; [|done].
      destruct (collect test row data) as [out'|e]; cbn [mbind result_bind]; [|done].
      intros [= <-]. rewrite fmap_cons. simpl. f_equal. by apply IH.
    + apply IH.
Qed.

Lemma startswith_refl (s : str) : startswith s s = true.
Proof. induction s as [|c s IH]; [done|]. simpl. by rewrite bool_decide_eq_true_2. Qed.

Lemma dept_matches_prefix subj d : dept_matches subj d = startswith subj d.
Proof.
  unfold dept_matches. destruct (bool_decide (subj = d)) eqn:E; [|done].
  apply bool_decide_eq_true in E as ->. by rewrite startswith_refl.
Qed.

(** X1.  The department filter returns, in dataset order, exactly the
    sections whose department in capitals starts with the trimmed code in
    capitals; the equality test of the source adds nothing to the prefix
    test. *)
Theorem department_filter_prefix department data out :
  find_sections_by_department_hits department data = Ok out →
  out.*1 = List.filter (dept_starts_with (upper (strip department))) data.
Proof.
  unfold find_sections_by_department_hits. rewrite _norm_VStr.
  cbn [mbind result_bind]. intros H%collect_filter. rewrite H.
  apply List.filter_ext. intros s. unfold passed, dept_starts_with.
  destruct (sec_dept s) as [subj|]; cbn [mbind result_bind]; [|done].
  rewrite dept_matches_prefix. by destruct (startswith _ _).
Qed.

Lemma department_filter_prefix_witness :
  [(section_cs262, section_row_cs262)].*1
  = List.filter (dept_starts_with (upper (strip " c ")))
      [section_cs262; section_engl300].
Proof.
  apply department_filter_prefix. vm_compute. reflexivity.
Defined.

Lemma py_in_app_r (sub a b : str) : py_in sub a = true → py_in sub (a ++ b) = true.
Proof.
  rewrite !py_in_spec. intros (pre & post & ->). exists pre, (post ++ b).
  by rewrite <- !app_assoc.
Qed.

(** X2.  On a well-formed dataset, every section the title search returns
    for a fragment is also returned by the text search for the same
    fragment: the title is part of the text that is searched. *)
Theorem title_search_within_text_search fragment data :
  forallb well_formed data = true →
  ∃ o1 o2, find_sections_hits fragment data = Ok o1 ∧
           find_courses_hits fragment data = Ok o2 ∧
           o1.*1 ⊆ o2.*1.
Proof.
  intros Hwf. unfold find_sections_hits, find_courses_hits.
  rewrite _norm_VStr. cbn [mbind result_bind].
  set (t1 := λ s : record, t ← sec_title s; Ok (_contains t (strip fragment))).
  set (t2 := λ s : record, t ← sec_title s; d ← sec_desc s;
               Ok (_contains (t ++ newline ++ d) (strip fragment))).
  destruct (collect_returns t1 section_row_of data) as [o1 Ho1].
  { intros s Hs. pose proof (well_formed_all data s Hwf Hs) as Hws.
    split; [|by apply section_row_of_ok]. unfold t1.
    destruct (sec_title_ok s Hws) as (t & ->). by eexists. }
  destruct (collect_returns t2 course_row_of data) as [o2 Ho2].
  { intros s Hs. pose proof (well_formed_all data s Hwf Hs) as Hws.
    split; [|by apply course_row_of_ok]. unfold t2.
    destruct (sec_title_ok s Hws) as (t & ->).
    destruct (sec_desc_ok s Hws) as (d & ->). by eexists. }
  exists o1, o2. split; [done|]. split; [done|].
  intros s ([s' r] & -> & Hin)%list_elem_of_fmap. cbn [fst].
  destruct (collect_sound t1 section_row_of data o1 s' r Ho1 Hin) as (Hd & Ht & _).
  apply (collect_complete t2 course_row_of data o2 s' Ho2 Hd).
  unfold t1 in Ht. unfold t2.
  destruct (sec_title s') as [t|]; cbn [mbind result_bind] in *; [|done].
  destruct (sec_desc_ok s' (well_formed_all data s' Hwf Hd)) as (d & ->).
  cbn [mbind result_bind]. injection Ht as Ht. f_equal.
  unfold _contains in *. rewrite lower_app. by apply py_in_app_r.
Qed.

Lemma title_search_within_text_search_witness :
  ∃ o1 o2, find_sections_hits "soft" [section_cs262; section_engl300] = Ok o1 ∧
           find_courses_hits "soft" [section_cs262; section_engl300] = Ok o2 ∧
           o1.*1 ⊆ o2.*1.
Proof.
  apply title_search_within_text_search. vm_compute. reflexivity.
Defined.

(** ** Id lookup: misses and blank ids *)

Lemma lookup_id_miss sid data :
  forallb (other_id sid) data = true → lookup_id sid data = Ok (NotFound sid).
Proof.
  induction data as [|x data IH]; simpl; [done|].
  intros [Hx Hd]%andb_true_iff. unfold other_id in Hx.
  destruct (sec_id x) as [i|]; [|done]. cbn [mbind result_bind].
  apply negb_true_iff in Hx. rewrite Hx. by apply IH.
Qed.

(** X3.  When every record has an id and none equals the trimmed argument,
    the lookup returns the not-found value carrying the trimmed argument; in
    particular on the empty dataset. *)
Theorem id_lookup_miss section_id data :
  forallb (other_id (strip section_id)) data = true →
  get_section_details section_id data = Ok (NotFound (strip section_id)).
Proof.
  intros H. unfold get_section_details. rewrite _norm_VStr.
  cbn [mbind result_bind]. by apply lookup_id_miss.
Qed.

Lemma id_lookup_miss_witness :
  get_section_details "  MATH 101-01 " [section_cs262; section_engl300]
  = Ok (NotFound (strip "  MATH 101-01 ")).
Proof. apply id_lookup_miss. vm_compute. reflexivity. Defined.

(** The synthesized id is never empty: it holds a subject, a name, or at
    least the bar between title and period. *)
Lemma sec_id_nonempty s i : sec_id s = Ok i → i ≠ [].
Proof.
  unfold sec_id, sec_raw_id.
  destruct (_norm (dict_get s "Subject")) as [subj|]; cbn [mbind result_bind]; [|done].
  destruct (norm_str_of s "Crs_Number") as [num|]; cbn [mbind result_bind]; [|done].
  destruct (norm_str_of s "Sec_Number") as [sec|]; cbn [mbind result_bind]; [|done].
  destruct (_norm (dict_get s "Section_Name")) as [name|]; cbn [mbind result_bind];
    [|done].
  destruct (nonempty subj && nonempty num && nonempty sec) eqn:E.
  - intros [= <-]. destruct subj; [done|discriminate].
  - destruct (nonempty name) eqn:En.
    + intros [= <-]. by apply nonempty_true.
    + destruct (_norm (dict_get s "Section_Title")) as [title|];
        cbn [mbind result_bind]; [|done].
      destruct (_norm (dict_get s "Period_RefID")) as [period|];
        cbn [mbind result_bind]; [|done].
      intros [= <-]. destruct title; discriminate.
Qed.

(** X4.  No record has an empty id, so on a well-formed dataset the lookup
    of an empty or all-blank id is always a miss. *)
Theorem blank_id_is_never_found section_id data :
  forallb is_space section_id = true → forallb well_formed data = true →
  get_section_details section_id data = Ok (NotFound []).
Proof.
  intros Hblank Hwf. pose proof (strip_blank _ Hblank) as Hs.
  unfold get_section_details. rewrite _norm_VStr, Hs. cbn [mbind result_bind].
  apply lookup_id_miss. apply forallb_forall. intros s Hs'%list_elem_of_In.
  unfold other_id.
  destruct (sec_id_ok s (well_formed_all data s Hwf Hs')) as (i & Hi & _).
  rewrite Hi. apply negb_true_iff, bool_decide_eq_false.
  by apply (sec_id_nonempty s).
Qed.

Lemma blank_id_is_never_found_witness :
  get_section_details "   " [section_cs262; section_engl300] = Ok (NotFound []).
Proof.
  apply blank_id_is_never_found.
  - reflexivity.
  - vm_compute. reflexivity.
Defined.

(** ** The limit of the combined filter *)

(** Below the cap, the loop is the selection loop of the other tools. *)
Lemma filtered_loop_uncapped q dep lvl bucket limit data out0 out :
  filtered_loop q dep lvl bucket limit data out0 = Ok out →
  length out0 + length data < row_cap limit →
  ∃ all, collect (filtered_test q dep lvl bucket) filtered_row_for data = Ok all ∧
         out = out0 ++ all.
Proof.
  unfold row_cap, filtered_test, filtered_row_for.
  revert out0. induction data as [|x data IH]; intros out0; simpl.
  - intros [= <-] _. exists []. by rewrite app_nil_r.
  - destruct (sec_title x) as [title|]; cbn [mbind result_bind]; [|done].
    destruct (sec_desc x) as [desc|]; cbn [mbind result_bind]; [|done].
    destruct (passes q dep lvl bucket x title desc) as [keep|];
      cbn [mbind result_bind]; [|done].
    destruct keep.
    + destruct (filtered_row_of x title desc) as [r|]; cbn [mbind result_bind]; [|done].
      intros Hloop Hlen.
      destruct (Z.max 1 limit <=? Z.of_nat (length (out0 ++ [(x, r)])))%Z eqn:E.
      { apply Z.leb_le in E. rewrite length_app in E. simpl in E. lia. }
      destruct (IH _ Hloop) as (all & -> & ->).
      { rewrite length_app. simpl. lia. }
      cbn [mbind result_bind]. exists ((x, r) :: all).
      split; [done|]. by rewrite <- app_assoc.
    + intros Hloop Hlen. apply (IH _ Hloop). lia.
Qed.

(** The loop stops at the cap: it returns the rows it started with followed
    by the first selected rows that fit. *)
Lemma filtered_loop_take q dep lvl bucket limit data out0 all :
  collect (filtered_test q dep lvl bucket) filtered_row_for data = Ok all →
  length out0 < row_cap limit →
  filtered_loop q dep lvl bucket limit data out0
  = Ok (out0 ++ take (row_cap limit - length out0) all).
Proof.
  unfold row_cap, filtered_test, filtered_row_for.
  revert out0 all. induction data as [|x data IH]; intros out0 all; simpl.
  - intros [= <-] _. by rewrite take_nil, app_nil_r.
  - destruct (sec_title x) as [title|]; cbn [mbind result_bind]; [|done].
    destruct (sec_desc x) as [desc|]; cbn [mbind result_bind]; [|done].
    destruct (passes q dep lvl bucket x title desc) as [keep|];
      cbn [mbind result_bind]; [|done].
    destruct keep.
    + destruct (filtered_row_of x title desc) as [r|]; cbn [mbind result_bind]; [|done].
      destruct (collect _ _ data) as [all'|] eqn:Ec; cbn [mbind result_bind]; [|done].
      intros [= <-] Hlen.
      destruct (Z.to_nat (Z.max 1 limit) - length out0) as [|k] eqn:Ek; [lia|].
      cbn [take].
      destruct (Z.max 1 limit <=? Z.of_nat (length (out0 ++ [(x, r)])))%Z eqn:E.
      * apply Z.leb_le in E. rewrite length_app in E. simpl in E.
        assert (k = 0) as -> by lia. by rewrite take_0.
      * apply Z.leb_gt in E. rewrite length_app in E. simpl in E.
        rewrite (IH (out0 ++ [(x, r)]) all' eq_refl).
        -- rewrite length_app. simpl. rewrite <- app_assoc. simpl.
           by replace (Z.to_nat (Z.max 1 limit) - (length out0 + 1)) with k by lia.
        -- rewrite length_app. simpl. lia.
    + intros Hc Hlen. by apply IH.
Qed.

(** X5.  The limit only truncates.  If the combined filter returns [all]
    when its limit exceeds the size of the dataset, then with any limit it
    returns the first [max(1, limit)] rows of [all], in the same order; so a
    limit of zero or less acts as 1 and no call returns more than
    [max(1, limit)] rows. *)
Theorem combined_filter_limit query department level time_of_day limit data all :
  find_sections_filtered_hits query department level time_of_day
    (Z.of_nat (length data) + 1) data = Ok all →
  find_sections_filtered_hits query department level time_of_day limit data
  = Ok (take (row_cap limit) all) ∧
  length (take (row_cap limit) all) ≤ row_cap limit.
Proof.
  unfold find_sections_filtered_hits. intros Hall.
  apply filtered_loop_uncapped in Hall as (all' & Hc & ->);
    [|unfold row_cap; simpl; lia].
  split; [|rewrite length_take; lia].
  rewrite (filtered_loop_take _ _ _ _ limit data [] all' Hc);
    [|unfold row_cap; simpl; lia].
  simpl. by rewrite Nat.sub_0_r.
Qed.

Lemma combined_filter_limit_witness :
  find_sections_filtered_hits None None None None 0
    [section_cs262; section_cs262_twin; section_engl300]
  = Ok (take (row_cap 0)
          [(section_cs262, row_cs262); (section_cs262_twin, row_cs262);
           (section_engl300, row_engl300)]) ∧
  length (take (row_cap 0)
            [(section_cs262, row_cs262); (section_cs262_twin, row_cs262);
             (section_engl300, row_engl300)]) ≤ row_cap 0.
Proof.
  apply combined_filter_limit. vm_compute. reflexivity.
Defined.

Lemma is_space_not_digit c : is_space c = true → is_digit c = false.
Proof. by destruct c as [[] [] [] [] [] [] [] []]. Qed.

Lemma blank_no_level_cue (l : str) : forallb is_space l = true → no_level_cue l = true.
Proof.
  unfold no_level_cue. induction l as [|c l IH]; [done|]. simpl.
  intros [Hc Hl]%andb_true_iff. by rewrite (is_space_not_digit c Hc), IH.
Qed.

Lemma passes_unconstrained q dep bucket s title desc :
  given q = false → given dep = false → given bucket = false →
  passes q dep None bucket s title desc = Ok true.
Proof. intros Hq Hd Hb. unfold passes. by rewrite Hq, Hd, Hb. Qed.

(** X6.  Arguments that are absent, empty or all blanks impose no
    constraint: on a well-formed dataset the combined filter then returns
    the rows of the first [max(1, limit)] sections of the dataset. *)
Theorem combined_filter_unconstrained
    query department level time_of_day limit data :
  blank_arg query = true → blank_arg department = true →
  blank_arg level = true → blank_arg time_of_day = true →
  forallb well_formed data = true →
  ∃ out,
    find_sections_filtered_hits query department level time_of_day limit data = Ok out ∧
    out.*1 = take (row_cap limit) data.
Proof.
  intros Hq Hd Hl Ht Hwf. unfold find_sections_filtered_hits.
  set (q := if given query then Some (_n query) else None).
  set (dep := if given department then Some (upper (_n department)) else None).
  set (bucket := if given time_of_day then Some (lower (_n time_of_day)) else None).
  assert (Hgq : given q = false).
  { unfold q, blank_arg in *. destruct query as [s|]; [|done]. simpl in *.
    destruct (nonempty s); [|done]. unfold _n. simpl. by rewrite (strip_blank s Hq). }
  assert (Hgd : given dep = false).
  { unfold dep, blank_arg in *. destruct department as [s|]; [|done]. simpl in *.
    destruct (nonempty s); [|done]. unfold _n. simpl. by rewrite (strip_blank s Hd). }
  assert (Hgb : given bucket = false).
  { unfold bucket, blank_arg in *. destruct time_of_day as [s|]; [|done]. simpl in *.
    destruct (nonempty s); [|done]. unfold _n. simpl. by rewrite (strip_blank s Ht). }
  assert (Hlvl : filter_level_cue level = None).
  { unfold blank_arg in Hl. destruct level as [s|]; [|done]. simpl in Hl.
    by apply filter_level_cue_no_digit, blank_no_level_cue. }
  rewrite Hlvl.
  assert (Htest : ∀ s, s ∈ data → filtered_test q dep None bucket s = Ok true).
  { intros s Hs. pose proof (well_formed_all data s Hwf Hs) as Hws.
    unfold filtered_test.
    destruct (sec_title_ok s Hws) as (t & ->). cbn [mbind result_bind].
    destruct (sec_desc_ok s Hws) as (d & ->). cbn [mbind result_bind].
    by apply passes_unconstrained. }
  destruct (collect_returns (filtered_test q dep None bucket) filtered_row_for data)
    as [all Hall].
  { intros s Hs. pose proof (well_formed_all data s Hwf Hs) as Hws.
    split; [rewrite Htest by done; by eexists|]. unfold filtered_row_for.
    destruct (sec_title_ok s Hws) as (t & ->). cbn [mbind result_bind].
    destruct (sec_desc_ok s Hws) as (d & ->). cbn [mbind result_bind].
    by apply filtered_row_of_ok. }
  destruct (collect_all _ _ data all Hall Htest) as [Hfst _].
  exists (take (row_cap limit) all). split.
  - rewrite (filtered_loop_take _ _ _ _ limit data [] all Hall);
      [|unfold row_cap; simpl; lia].
    simpl. by rewrite Nat.sub_0_r.
  - by rewrite fmap_take, Hfst.
Qed.

Lemma combined_filter_unconstrained_witness :
  ∃ out,
    find_sections_filtered_hits (Some (" " : str)) None (Some ([] : str))
      (Some ("  " : str)) 2 [section_cs262; section_cs262_twin; section_engl300]
    = Ok out ∧
    out.*1 = take (row_cap 2) [section_cs262; section_cs262_twin; section_engl300].
Proof.
  apply combined_filter_unconstrained; reflexivity.
Defined.

(** ** Letter case and surrounding blanks of an argument *)

Section strip_more.
Variable p : ascii → bool.

Lemma lstrip_by_pad (a s : str) :
  forallb p a = true → lstrip_by p (a ++ s) = lstrip_by p s.
Proof.
  induction a as [|c a IH]; [done|]. simpl.
  intros [-> Ha]%andb_true_iff. by apply IH.
Qed.

Lemma lstrip_by_app (s b : str) :
  lstrip_by p s ≠ [] → lstrip_by p (s ++ b) = lstrip_by p s ++ b.
Proof.
  induction s as [|c s IH]; [done|]. simpl. by destruct (p c).
Qed.

Lemma lstrip_by_nil (s : str) : lstrip_by p s = [] → forallb p s = true.
Proof.
  induction s as [|c s IH]; [done|]. simpl. destruct (p c); [exact IH|done].
Qed.

Lemma forallb_reverse (s : str) : forallb p (reverse s) = forallb p s.
Proof.
  induction s as [|c s IH]; [done|].
  rewrite reverse_cons, forallb_app, IH. simpl.
  by rewrite andb_true_r, andb_comm.
Qed.

Lemma rstrip_by_pad (s b : str) :
  forallb p b = true → rstrip_by p (s ++ b) = rstrip_by p s.
Proof.
  intros Hb. unfold rstrip_by. rewrite reverse_app, lstrip_by_pad; [done|].
  by rewrite forallb_reverse.
Qed.

Lemma strip_by_pad (a s b : str) :
  forallb p a = true → forallb p b = true →
  strip_by p (a ++ s ++ b) = strip_by p s.
Proof.
  intros Ha Hb. unfold strip_by. rewrite lstrip_by_pad by done.
  destruct (lstrip_by p s) as [|c r] eqn:E.
  - apply lstrip_by_nil in E. rewrite lstrip_by_all; [done|].
    by rewrite forallb_app, E, Hb.
  - rewrite lstrip_by_app by (by rewrite E). rewrite E. by apply rstrip_by_pad.
Qed.

Variable f : ascii → ascii.
Hypothesis f_class : ∀ c, p (f c) = p c.

Lemma lstrip_by_map (s : str) : lstrip_by p (map f s) = map f (lstrip_by p s).
Proof.
  induction s as [|c s IH]; [done|]. simpl. rewrite f_class. by destruct (p c).
Qed.

Lemma reverse_map (s : str) : reverse (map f s) = map f (reverse s).
Proof.
  induction s as [|c s IH]; [done|]. simpl.
  by rewrite !reverse_cons, map_app, IH.
Qed.

Lemma strip_by_map (s : str) : strip_by p (map f s) = map f (strip_by p s).
Proof.
  unfold strip_by, rstrip_by.
  by rewrite lstrip_by_map, reverse_map, lstrip_by_map, reverse_map.
Qed.
End strip_more.

Lemma is_space_upper_c c : is_space (upper_c c) = is_space c.
Proof. by destruct c as [[] [] [] [] [] [] [] []]. Qed.

Lemma is_space_lower_c c : is_space (lower_c c) = is_space c.
Proof. by destruct c as [[] [] [] [] [] [] [] []]. Qed.

Lemma lower_upper_c c : lower_c (upper_c c) = lower_c c.
Proof. by destruct c as [[] [] [] [] [] [] [] []]. Qed.

Lemma upper_lower_c c : upper_c (lower_c c) = upper_c c.
Proof. by destruct c as [[] [] [] [] [] [] [] []]. Qed.

Lemma lower_lower_c c : lower_c (lower_c c) = lower_c c.
Proof. by destruct c as [[] [] [] [] [] [] [] []]. Qed.

Lemma upper_upper_c c : upper_c (upper_c c) = upper_c c.
Proof. by destruct c as [[] [] [] [] [] [] [] []]. Qed.

Lemma map_map_ext (f g h : ascii → ascii) (s : str) :
  (∀ c, f (g c) = h c) → map f (map g s) = map h s.
Proof. intros H. rewrite map_map. apply map_ext. exact H. Qed.

Lemma lower_strip_upper s : lower (strip (upper s)) = lower (strip s).
Proof.
  unfold lower, upper, strip. rewrite strip_by_map by apply is_space_upper_c.
  apply map_map_ext, lower_upper_c.
Qed.

Lemma lower_strip_lower s : lower (strip (lower s)) = lower (strip s).
Proof.
  unfold lower, strip. rewrite strip_by_map by apply is_space_lower_c.
  apply map_map_ext, lower_lower_c.
Qed.

Lemma upper_strip_lower s : upper (strip (lower s)) = upper (strip s).
Proof.
  unfold lower, upper, strip. rewrite strip_by_map by apply is_space_lower_c.
  apply map_map_ext, upper_lower_c.
Qed.

Lemma upper_strip_upper s : upper (strip (upper s)) = upper (strip s).
Proof.
  unfold upper, strip. rewrite strip_by_map by apply is_space_upper_c.
  apply map_map_ext, upper_upper_c.
Qed.

(** The four tools that normalize their argument depend on it only through
    its trimmed lower-case (for the department: upper-case) form. *)
Lemma find_courses_arg q1 q2 data :
  lower (strip q1) = lower (strip q2) → find_courses q1 data = find_courses q2 data.
Proof.
  intros H. unfold find_courses, find_courses_hits, _contains.
  rewrite !_norm_VStr. cbn [mbind result_bind]. by rewrite H.
Qed.

Lemma find_sections_arg q1 q2 data :
  lower (strip q1) = lower (strip q2) → find_sections q1 data = find_sections q2 data.
Proof.
  intros H. unfold find_sections, find_sections_hits, _contains.
  rewrite !_norm_VStr. cbn [mbind result_bind]. by rewrite H.
Qed.

Lemma find_sections_by_department_arg d1 d2 data :
  upper (strip d1) = upper (strip d2) →
  find_sections_by_department d1 data = find_sections_by_department d2 data.
Proof.
  intros H. unfold find_sections_by_department, find_sections_by_department_hits.
  rewrite !_norm_VStr. cbn [mbind result_bind]. by rewrite H.
Qed.

Lemma find_sections_by_time_arg t1 t2 data :
  lower (strip t1) = lower (strip t2) →
  find_sections_by_time t1 data = find_sections_by_time t2 data.
Proof.
  intros H. unfold find_sections_by_time, find_sections_by_time_hits.
  rewrite !_norm_VStr. cbn [mbind result_bind]. by rewrite H.
Qed.

(** X7.  Text search, title search, the department filter and the
    time-of-day filter do not depend on the letter case of their argument:
    typing it in capitals or in small letters changes nothing. *)
Theorem argument_case_is_irrelevant arg data :
  find_courses (upper arg) data = find_courses arg data ∧
  find_courses (lower arg) data = find_courses arg data ∧
  find_sections (upper arg) data = find_sections arg data ∧
  find_sections (lower arg) data = find_sections arg data ∧
  find_sections_by_department (upper arg) data = find_sections_by_department arg data ∧
  find_sections_by_department (lower arg) data = find_sections_by_department arg data ∧
  find_sections_by_time (upper arg) data = find_sections_by_time arg data ∧
  find_sections_by_time (lower arg) data = find_sections_by_time arg data.
Proof.
  repeat split;
    first [ apply find_courses_arg | apply find_sections_arg
          | apply find_sections_by_department_arg | apply find_sections_by_time_arg ];
    first [ apply lower_strip_upper | apply lower_strip_lower
          | apply upper_strip_upper | apply upper_strip_lower ].
Qed.

(** X8.  Blanks around the argument are ignored by text search, title
    search, the department filter, the time-of-day filter and the id
    lookup. *)
Theorem argument_padding_is_irrelevant before after arg data :
  forallb is_space before = true → forallb is_space after = true →
  find_courses (before ++ arg ++ after) data = find_courses arg data ∧
  find_sections (before ++ arg ++ after) data = find_sections arg data ∧
  find_sections_by_department (before ++ arg ++ after) data
  = find_sections_by_department arg data ∧
  find_sections_by_time (before ++ arg ++ after) data
  = find_sections_by_time arg data ∧
  get_section_details (before ++ arg ++ after) data = get_section_details arg data.
Proof.
  intros Ha Hb.
  assert (Hs : strip (before ++ arg ++ after) = strip arg) by by apply strip_by_pad.
  repeat split.
  - apply find_courses_arg. by rewrite Hs.
  - apply find_sections_arg. by rewrite Hs.
  - apply find_sections_by_department_arg. by rewrite Hs.
  - apply find_sections_by_time_arg. by rewrite Hs.
  - unfold get_section_details. rewrite !_norm_VStr. by rewrite Hs.
Qed.

Lemma argument_padding_is_irrelevant_witness :
  find_courses ("  " ++ "testing" ++ " ") [section_cs262]
  = find_courses "testing" [section_cs262] ∧
  find_sections ("  " ++ "testing" ++ " ") [section_cs262]
  = find_sections "testing" [section_cs262] ∧
  find_sections_by_department ("  " ++ "testing" ++ " ") [section_cs262]
  = find_sections_by_department "testing" [section_cs262] ∧
  find_sections_by_time ("  " ++ "testing" ++ " ") [section_cs262]
  = find_sections_by_time "testing" [section_cs262] ∧
  get_section_details ("  " ++ "testing" ++ " ") [section_cs262]
  = get_section_details "testing" [section_cs262].
Proof. apply argument_padding_is_irrelevant; reflexivity. Defined.

(** ** The shape of a level *)

Lemma fullmatch_Some ic r s h :
  Re.fullmatch ic r s = Some h → h ∈ Re.run ic r None s ∧ h.2 = [].
Proof.
  unfold Re.fullmatch. intros H.
  destruct (filter _ _) as [|h' l] eqn:E; [done|]. injection H as ->.
  assert (Hin : h ∈ filter (λ h : Re.hit, h.2 = []) (Re.run ic r None s)).
  { rewrite E. apply list_elem_of_here. }
  apply list_elem_of_filter in Hin as [? ?]. done.
Qed.


Lemma level_exact_shape lvl :
  Re.found (Re.fullmatch false re_level_exact lvl) = true →
  ∃ d, in_range "1" "4" d = true ∧ lvl = [d; "0"; "0"]%char.
Proof.
  destruct (Re.fullmatch false re_level_exact lvl) as [h|] eqn:E; [|done].
  intros _. apply fullmatch_Some in E as [Hrun Hrest].
  unfold re_level_exact, Re.cat in Hrun. cbn [foldr] in Hrun.
  run_inv. subst. simpl in Hrest. subst.
  repeat match goal with
         | H : Re.lit_eq false _ _ = true |- _ => apply lit_eq_exact in H
         end.
  subst. eauto.
Qed.

Lemma first_digit_shape num m :
  Re.search false re_digit num = Some m →
  ∃ d, is_digit d = true ∧ Re.group 1 m = [d].
Proof.
  intros (pre & suf & -> & Hm)%search_from_Some.
  unfold re_digit in Hm. run_inv. subst. eauto.
Qed.

Lemma in_range_1_4_digit d : in_range "1" "4" d = true → is_digit d = true.
Proof. by destruct d as [[] [] [] [] [] [] [] []]. Qed.

Lemma sec_level_form s :
  ∃ l, sec_level s = Ok l ∧
       (l = [] ∨ ∃ d, is_digit d = true ∧ l = [d; "0"; "0"]%char).
Proof.
  unfold sec_level.
  destruct (norm_str_of_ok s "AcadLevel") as (lvl & -> & _).
  destruct (norm_str_of_ok s "Crs_Number") as (num & -> & _).
  cbn [mbind result_bind].
  destruct (Re.found _) eqn:E.
  - exists lvl. split; [done|]. right.
    destruct (level_exact_shape lvl E) as (d & Hd & ->).
    exists d. split; [by apply in_range_1_4_digit|done].
  - destruct (Re.search false re_digit num) as [m|] eqn:Em.
    + destruct (first_digit_shape num m Em) as (d & Hd & ->).
      eexists. split; [reflexivity|]. right. by exists d.
    + exists []. split; [done|by left].
Qed.

(** X9.  The normalized level of any record, well-formed or not, is either
    empty or one digit followed by "00": it never raises, and it is never a
    longer or differently shaped text. *)
Theorem sec_level_shape s :
  ∃ l, sec_level s = Ok l ∧
       (l = [] ∨ ∃ d, is_digit d = true ∧ l = [d; "0"; "0"]%char).
Proof.
  destruct (sec_level_form s) as (l & Hl & Hshape).
  exists l. split; [exact Hl|]. destruct Hshape as [->|(d & Hd & ->)].
  - by left.
  - right. by exists d.
Qed.

(** X10.  An explicit level wins over the course number: when [AcadLevel]
    is the text "100", "200", "300" or "400", possibly with blanks around it,
    that is the level, whatever the course number says. *)
Theorem explicit_level_wins s a :
  dict_get s "AcadLevel" = VStr a → strip a ∈ explicit_levels →
  sec_level s = Ok (strip a).
Proof.
  intros Ha Hin. unfold sec_level, norm_str_of. rewrite Ha.
  assert (Hne : nonempty a = true).
  { destruct a; [|done]. exfalso. revert Hin. unfold explicit_levels. cbn.
    intros H. repeat (apply elem_of_cons in H as [H|H]; [discriminate H|]).
    by apply elem_of_nil in H. }
  unfold py_or. cbn [truthy py_str]. rewrite Hne. cbn [py_str].
  rewrite (_norm_VStr a). cbn [mbind result_bind].
  assert (Hf : Re.found (Re.fullmatch false re_level_exact (strip a)) = true).
  { unfold explicit_levels in Hin.
    repeat (apply elem_of_cons in Hin as [->|Hin]; [by vm_compute|]).
    by apply elem_of_nil in Hin. }
  by rewrite Hf.
Qed.

Lemma explicit_level_wins_witness :
  sec_level (<["AcadLevel" := VStr " 400 "]> section_grad) = Ok (strip " 400 ").
Proof.
  apply explicit_level_wins.
  - vm_compute. reflexivity.
  - apply (bool_decide_unpack _). vm_compute. exact I.
Defined.

(** ** Normalized fields are trimmed *)


(** X11.  On a well-formed record the id, name, title, description,
    department and level come out without blanks at either end, so trimming
    any of them again changes nothing.  (The time is left out: its date-range
    fallback strips only spaces and dashes.) *)
Theorem normalized_fields_are_trimmed s :
  well_formed s = true →
  trimmed (sec_id s) ∧ trimmed (sec_name s) ∧ trimmed (sec_title s) ∧
  trimmed (sec_desc s) ∧ trimmed (sec_dept s) ∧ trimmed (sec_level s).
Proof.
  intros H. unfold trimmed.
  split; [by apply sec_id_ok|].
  split.
  { unfold sec_name.
    destruct (_norm_textual (dict_get s "Section_Name")) as (name & -> & Hn); [text_key|].
    destruct (_norm_textual (dict_get s "Subject")) as (subj & -> & _); [text_key|].
    destruct (norm_str_of_ok s "Crs_Number") as (num & -> & _).
    destruct (norm_str_of_ok s "Sec_Number") as (sec & -> & _).
    cbn [mbind result_bind]. destruct (nonempty name).
    - exists name. split; [done|]. by apply strip_by_fixed.
    - eexists. split; [reflexivity|]. apply strip_idem. }
  split.
  { destruct (first_of_ok s "Section_Title" "CourseTitle" "course_title")
      as (x & E & Hx); [text_key..|].
    exists x. split; [done|]. by apply strip_by_fixed. }
  split.
  { destruct (first_of_ok s "Desc" "CourseDescription" "description")
      as (x & E & Hx); [text_key..|].
    exists x. split; [done|]. by apply strip_by_fixed. }
  split.
  { destruct (first_of_ok s "Subject" "Department" "department")
      as (x & E & Hx); [text_key..|].
    exists x. split; [done|]. by apply strip_by_fixed. }
  destruct (sec_level_form s) as (l & Hl & [->|(d & Hd & ->)]).
  - by exists [].
  - eexists. split; [exact Hl|]. apply strip_by_fixed.
    split; simpl; [by rewrite (is_digit_not_space d Hd)|done].
Qed.

Lemma normalized_fields_are_trimmed_witness :
  trimmed (sec_id section_cs262) ∧ trimmed (sec_name section_cs262) ∧
  trimmed (sec_title section_cs262) ∧ trimmed (sec_desc section_cs262) ∧
  trimmed (sec_dept section_cs262) ∧ trimmed (sec_level section_cs262).
Proof. apply normalized_fields_are_trimmed. vm_compute. reflexivity. Defined.

(** ** The level argument *)

Lemma digit_group_lit_lit ic a b level m :
  Re.search ic (Re.cat [Re.Group 1 (Re.Class is_digit); Re.Lit a; Re.Lit b]) level
  = Some m →
  ∃ d, is_digit d = true ∧ Re.group 1 m = [d].
Proof.
  intros (pre & suf & -> & Hm)%search_from_Some.
  unfold Re.cat in Hm. cbn [foldr] in Hm. run_inv. subst. eauto.
Qed.

Lemma digit_group_gap_lit_lit ic a b level m :
  Re.search ic (Re.cat [Re.Group 1 (Re.Class is_digit); Re.Rep is_space 0 None;
                        Re.Lit a; Re.Lit b]) level = Some m →
  ∃ d, is_digit d = true ∧ Re.group 1 m = [d].
Proof.
  intros (pre & suf & -> & Hm)%search_from_Some.
  unfold Re.cat in Hm. cbn [foldr] in Hm. run_inv. subst. eauto.
Qed.

Lemma level_word_digit level m :
  Re.search true re_level_d level = Some m →
  ∃ d, is_digit d = true ∧ Re.group 1 m = [d].
Proof.
  intros (pre & suf & -> & Hm)%search_from_Some.
  unfold re_level_d, Re.lits, Re.cat in Hm. cbn [map list_ascii_of_string foldr] in Hm.
  cbn [foldr] in Hm. run_inv. subst. eauto.
Qed.

Lemma first_sub_digit level :
  nonempty (Re.sub_class (λ c, negb (is_digit c)) level) = true →
  ∃ d, is_digit d = true ∧
       take 1 (Re.sub_class (λ c, negb (is_digit c)) level) = [d].
Proof.
  unfold Re.sub_class.
  destruct (filter _ level) as [|d l] eqn:E; [done|]. intros _.
  exists d. split; [|done].
  assert (Hin : d ∈ filter (λ c, negb (is_digit c) = false) level).
  { rewrite E. apply list_elem_of_here. }
  apply list_elem_of_filter in Hin as [Hd _]. by apply negb_false_iff.
Qed.

(** X12.  Whatever the level argument, the level filter compares with the
    empty text or with one digit followed by "00", and the combined filter
    with such a text or with nothing. *)
Theorem level_cues_shape level :
  (level_cue level = [] ∨
   ∃ d, is_digit d = true ∧ level_cue level = [d; "0"; "0"]%char) ∧
  (filter_level_cue (Some level) = None ∨
   ∃ d, is_digit d = true ∧ filter_level_cue (Some level) = Some [d; "0"; "0"]%char).
Proof.
  split.
  - unfold level_cue.
    destruct (Re.search false re_d00 level) as [m|] eqn:E1; cbn [or_else].
    { destruct (digit_group_lit_lit _ _ _ _ _ E1) as (d & Hd & ->). right. by exists d. }
    destruct (Re.search true re_dxx level) as [m|] eqn:E2.
    { destruct (digit_group_lit_lit _ _ _ _ _ E2) as (d & Hd & ->). right. by exists d. }
    destruct (nonempty _) eqn:E3; [|by left].
    destruct (first_sub_digit level E3) as (d & Hd & ->). right. by exists d.
  - unfold filter_level_cue. destruct (nonempty level); [|by left].
    destruct (Re.search false re_d_00 level) as [m|] eqn:E1; cbn [or_else].
    { destruct (digit_group_gap_lit_lit _ _ _ _ _ E1) as (d & Hd & ->).
      right. by exists d. }
    destruct (Re.search true re_d_xx level) as [m|] eqn:E2; cbn [or_else].
    { destruct (digit_group_gap_lit_lit _ _ _ _ _ E2) as (d & Hd & ->).
      right. by exists d. }
    destruct (Re.search true re_level_d level) as [m|] eqn:E3.
    { destruct (level_word_digit _ _ E3) as (d & Hd & ->). right. by exists d. }
    destruct (nonempty _) eqn:E4; [|by left].
    destruct (first_sub_digit level E4) as (d & Hd & ->). right. by exists d.
Qed.

(** X13.  On the documented forms of a level, a digit followed by "00",
    "xx" or "XX", the level filter and the combined filter resolve the
    argument alike, to that digit followed by "00". *)
Theorem level_cues_agree_on_documented_forms d :
  is_digit d = true →
  let canon := [d; "0"; "0"]%char in
  level_cue [d; "0"; "0"]%char = canon ∧
  level_cue [d; "x"; "x"]%char = canon ∧
  level_cue [d; "X"; "X"]%char = canon ∧
  filter_level_cue (Some [d; "0"; "0"]%char) = Some canon ∧
  filter_level_cue (Some [d; "x"; "x"]%char) = Some canon ∧
  filter_level_cue (Some [d; "X"; "X"]%char) = Some canon.
Proof.
  intros H%is_digit_cases.
  repeat (apply elem_of_cons in H as [->|H]); try (by apply elem_of_nil in H);
    by vm_compute.
Qed.

Lemma level_cues_agree_on_documented_forms_witness :
  let canon := ["3"; "0"; "0"]%char in
  level_cue ["3"; "0"; "0"]%char = canon ∧
  level_cue ["3"; "x"; "x"]%char = canon ∧
  level_cue ["3"; "X"; "X"]%char = canon ∧
  filter_level_cue (Some ["3"; "0"; "0"]%char) = Some canon ∧
  filter_level_cue (Some ["3"; "x"; "x"]%char) = Some canon ∧
  filter_level_cue (Some ["3"; "X"; "X"]%char) = Some canon.
Proof. apply (level_cues_agree_on_documented_forms "3"). reflexivity. Defined.

(** ** The buckets do not overlap *)

Lemma assoc_get_elem {V : Type} k (d : list (str * V)) v :
  assoc_get k d = Some v → (k, v) ∈ d.
Proof.
  induction d as [|[k' v'] d IH]; simpl; [done|].
  destruct (bool_decide (k' = k)) eqn:E.
  - apply bool_decide_eq_true in E as ->. intros [= ->]. apply list_elem_of_here.
  - intros H. apply list_elem_of_further. by apply IH.
Qed.

Lemma assoc_get_key {V : Type} k (d : list (str * V)) :
  k ∈ d.*1 → ∃ v, assoc_get k d = Some v.
Proof.
  induction d as [|[k' v'] d IH]; simpl; [by intros ?%elem_of_nil|].
  destruct (bool_decide (k' = k)) eqn:E; [by eexists|].
  apply bool_decide_eq_false in E.
  intros [->|H]%elem_of_cons; [done|]. by apply IH.
Qed.

Lemma str_le_trans a b c : str_le a b = true → str_le b c = true → str_le a c = true.
Proof.
  revert b c. induction a as [|x a IH]; intros b c; [done|].
  destruct b as [|y b]; [done|]. destruct c as [|z c]; [done|]. simpl.
  destruct (code x <? code y)%N eqn:Exy.
  - intros _. destruct (code y <? code z)%N eqn:Eyz.
    + intros _. apply N.ltb_lt in Exy, Eyz.
      assert ((code x <? code z)%N = true) as -> by (apply N.ltb_lt; lia). done.
    + destruct (code z <? code y)%N eqn:Ezy; [done|]. intros _.
      apply N.ltb_lt in Exy. apply N.ltb_ge in Eyz, Ezy.
      assert ((code x <? code z)%N = true) as -> by (apply N.ltb_lt; lia). done.
  - destruct (code y <? code x)%N eqn:Eyx; [done|].
    apply N.ltb_ge in Exy, Eyx. intros Hab.
    destruct (code y <? code z)%N eqn:Eyz.
    + intros _. apply N.ltb_lt in Eyz.
      assert ((code x <? code z)%N = true) as -> by (apply N.ltb_lt; lia). done.
    + destruct (code z <? code y)%N eqn:Ezy; [done|].
      apply N.ltb_ge in Eyz, Ezy. intros Hbc.
      assert ((code x <? code z)%N = false) as -> by (apply N.ltb_ge; lia).
      assert ((code z <? code x)%N = false) as -> by (apply N.ltb_ge; lia).
      by apply (IH b c).
Qed.

(** The bucketer is the comparison of the start text, when there is one. *)
Lemma _time_in_bin_start t label :
  _time_in_bin t label
  = match clock_start t with
    | Some (hh, mm) => in_bin (fmt_02d hh ++ ":" ++ mm) label
    | None => false
    end.
Proof.
  destruct (clock_start t) as [[hh mm]|] eqn:E.
  - by apply _time_in_bin_clock.
  - unfold _time_in_bin. rewrite E.
    destruct (assoc_get label _DEF_BINS) as [[lo hi]|]; [|done].
    by destruct (negb (nonempty t)).
Qed.

Lemma in_bin_disjoint start b1 b2 :
  in_bin start b1 = true → in_bin start b2 = true → b1 = b2.
Proof.
  unfold in_bin.
  destruct (assoc_get b1 _DEF_BINS) as [[lo1 hi1]|] eqn:E1; [|done].
  destruct (assoc_get b2 _DEF_BINS) as [[lo2 hi2]|] eqn:E2; [|done].
  intros [L1 H1]%andb_true_iff [L2 H2]%andb_true_iff.
  pose proof (str_le_trans _ _ _ L1 H2) as X12.
  pose proof (str_le_trans _ _ _ L2 H1) as X21.
  clear L1 H1 L2 H2.
  apply assoc_get_elem in E1, E2. unfold _DEF_BINS in E1, E2.
  repeat (apply elem_of_cons in E1 as [E1|E1]); try (by apply elem_of_nil in E1);
    injection E1 as -> -> ->;
    repeat (apply elem_of_cons in E2 as [E2|E2]); try (by apply elem_of_nil in E2);
    injection E2 as -> -> ->;
    first [ reflexivity
          | exfalso; vm_compute in X12; discriminate X12
          | exfalso; vm_compute in X21; discriminate X21 ].
Qed.

Lemma _time_in_bin_unique t b1 b2 :
  _time_in_bin t b1 = true → _time_in_bin t b2 = true → b1 = b2.
Proof.
  rewrite !_time_in_bin_start.
  destruct (clock_start t) as [[hh mm]|]; [|done]. apply in_bin_disjoint.
Qed.

(** X14.  No time text is classified true by two buckets, whatever its hour
    and minutes: the buckets the bucketer accepts for a text are none or
    exactly one. *)
Theorem buckets_never_overlap t b1 b2 :
  _time_in_bin t b1 = true → _time_in_bin t b2 = true →
  b1 = b2 ∧ buckets_of t = [b1].
Proof.
  intros H1 H2. split; [by apply (_time_in_bin_unique t)|].
  assert (Hb : ∀ b, _time_in_bin t b = true → b = b1).
  { intros b Hb. by apply (_time_in_bin_unique t). }
  assert (Hin : b1 ∈ bucket_names).
  { rewrite _time_in_bin_start in H1.
    destruct (clock_start t) as [[hh mm]|]; [|done]. unfold in_bin in H1.
    destruct (assoc_get b1 _DEF_BINS) as [[lo hi]|] eqn:E; [|done].
    apply assoc_get_elem in E. unfold _DEF_BINS in E. unfold bucket_names.
    repeat (apply elem_of_cons in E as [E|E];
            [injection E as -> _ _;
             repeat (first [apply list_elem_of_here|apply list_elem_of_further])|]).
    by apply elem_of_nil in E. }
  unfold buckets_of, bucket_names in *.
  repeat (apply elem_of_cons in Hin as [Hin|Hin]); try (by apply elem_of_nil in Hin);
    subst b1; cbn [List.filter]; rewrite H1;
    repeat match goal with
           | |- context [_time_in_bin t ?b] =>
               lazymatch goal with
               | H : _time_in_bin t b = true |- _ => fail
               | _ => destruct (_time_in_bin t b) eqn:?
               end
           end;
    try done;
    repeat match goal with
           | H : _time_in_bin t _ = true |- _ => apply Hb in H; try discriminate H
           end.
Qed.

Lemma buckets_never_overlap_witness :
  ("morning" : str) = "morning" ∧ buckets_of "MWF 09:30" = ["morning" : str].
Proof.
  apply (buckets_never_overlap "MWF 09:30"); vm_compute; reflexivity.
Defined.

(** X15.  The time-of-day filter puts a section in at most one bucket: a
    section returned for one time of day is not returned for another (letter
    case and surrounding blanks of the bucket names aside). *)
Theorem time_filters_are_disjoint t1 t2 data o1 o2 s :
  lower (strip t1) ≠ lower (strip t2) →
  find_sections_by_time_hits t1 data = Ok o1 →
  find_sections_by_time_hits t2 data = Ok o2 →
  s ∈ o1.*1 → s ∉ o2.*1.
Proof.
  unfold find_sections_by_time_hits. rewrite !_norm_VStr. cbn [mbind result_bind].
  intros Hne H1 H2 ([s1 r1] & -> & Hin1)%list_elem_of_fmap
                   ([s2 r2] & Hs & Hin2)%list_elem_of_fmap.
  cbn [fst] in *. subst s2.
  apply (collect_sound _ _ _ _ _ _ H1) in Hin1 as (_ & T1 & _).
  apply (collect_sound _ _ _ _ _ _ H2) in Hin2 as (_ & T2 & _).
  destruct (sec_time_str s1) as [w|]; cbn [mbind result_bind] in *; [|done].
  injection T1 as T1. injection T2 as T2.
  by apply Hne, (_time_in_bin_unique w).
Qed.

Lemma time_filters_are_disjoint_witness :
  section_cs262 ∉ ([] : list (record * brief_row)).*1.
Proof.
  apply (time_filters_are_disjoint "morning" "Evening"
           [section_cs262; section_engl300]
           [(section_cs262, brief_row_cs262)] [] section_cs262).
  - vm_compute. discriminate.
  - vm_compute. reflexivity.
  - vm_compute. reflexivity.
  - apply list_elem_of_here.
Defined.

(** ** Department aliases *)

Lemma elem_of_insert_by_len x l y : y ∈ insert_by_len x l ↔ y = x ∨ y ∈ l.
Proof.
  induction l as [|z l IH]; simpl.
  - rewrite list_elem_of_singleton, elem_of_nil. tauto.
  - destruct (length x <? length z).
    + rewrite !elem_of_cons, IH. tauto.
    + rewrite !elem_of_cons. tauto.
Qed.

Lemma insert_by_len_sorted x l :
  longest_to_shortest l → longest_to_shortest (insert_by_len x l).
Proof.
  induction l as [|z l IH]; simpl; [by split|].
  intros [Hz Hl]. destruct (length x <? length z) eqn:E.
  - apply Nat.ltb_lt in E. simpl. split; [|by apply IH].
    apply Forall_forall. intros y [->|Hy]%elem_of_insert_by_len; [lia|].
    by apply (proj1 (Forall_forall _ _) Hz).
  - apply Nat.ltb_ge in E. simpl. split; [|by split].
    constructor; [done|].
    apply Forall_forall. intros y Hy.
    pose proof (proj1 (Forall_forall _ _) Hz y Hy) as Hyz. simpl in Hyz. lia.
Qed.

Lemma elem_of_longest_first l y : y ∈ longest_first l ↔ y ∈ l.
Proof.
  induction l as [|x l IH]; simpl; [done|].
  rewrite elem_of_insert_by_len, elem_of_cons, IH. tauto.
Qed.

Lemma longest_first_sorted l : longest_to_shortest (longest_first l).
Proof. induction l as [|x l IH]; simpl; [done|]. by apply insert_by_len_sorted. Qed.

Lemma longest_to_shortest_after pre key post y :
  longest_to_shortest (pre ++ key :: post) → y ∈ post → length y ≤ length key.
Proof.
  induction pre as [|x pre IH]; simpl.
  - intros [H _] Hy. by apply (proj1 (Forall_forall _ _) H).
  - intros [_ H]. by apply IH.
Qed.

(** The loop returns at the first key that matches. *)
Lemma first_alias_Some ul keys v :
  first_alias ul keys = Some v →
  ∃ pre key post, keys = pre ++ key :: post ∧
    alias_matches key ul = true ∧
    Forall (λ k, alias_matches k ul = false) pre ∧
    assoc_get key SUBJECT_ALIASES = Some v.
Proof.
  induction keys as [|k keys IH]; cbn [first_alias]; [done|].
  fold (alias_matches k ul). destruct (alias_matches k ul) eqn:E.
  - intros H. exists [], k, keys. by repeat split.
  - intros (pre & key & post & -> & Hm & Hpre & Hv)%IH.
    exists (k :: pre), key, post. repeat split; try done. by constructor.
Qed.

Lemma first_alias_None ul keys :
  first_alias ul keys = None →
  (∀ k, k ∈ keys → k ∈ SUBJECT_ALIASES.*1) →
  ∀ k, k ∈ keys → alias_matches k ul = false.
Proof.
  induction keys as [|k keys IH]; cbn [first_alias];
    [by intros _ _ k ?%elem_of_nil|].
  fold (alias_matches k ul). destruct (alias_matches k ul) eqn:E.
  - intros H Hk. destruct (assoc_get_key k SUBJECT_ALIASES) as [v Hv].
    { apply Hk, list_elem_of_here. }
    congruence.
  - intros H Hk k' [->|Hk']%elem_of_cons; [done|].
    apply IH; [done| |done]. intros y Hy. by apply Hk, list_elem_of_further.
Qed.

(** X16.  Department detection gives the canonical name of the longest
    alias that occurs in the lowercased text as a whole word, and nothing
    when no alias does. *)
Theorem department_alias_longest_wins text :
  match _normalize_department text with
  | Some v =>
      ∃ key, (key, v) ∈ SUBJECT_ALIASES ∧
             alias_matches key (lower text) = true ∧
             ∀ key', key' ∈ SUBJECT_ALIASES.*1 →
                     alias_matches key' (lower text) = true →
                     length key' ≤ length key
  | None =>
      ∀ key, key ∈ SUBJECT_ALIASES.*1 → alias_matches key (lower text) = false
  end.
Proof.
  unfold _normalize_department.
  destruct (first_alias _ _) as [v|] eqn:E.
  - apply first_alias_Some in E as (pre & key & post & Hkeys & Hm & Hpre & Hv).
    exists key. split; [by apply assoc_get_elem|]. split; [done|].
    intros key' Hin Hm'.
    apply elem_of_longest_first in Hin. rewrite Hkeys in Hin.
    apply elem_of_app in Hin as [Hin|Hin].
    + pose proof (proj1 (Forall_forall _ _) Hpre key' Hin). congruence.
    + apply elem_of_cons in Hin as [->|Hin]; [done|].
      apply (longest_to_shortest_after pre key post); [|done].
      rewrite <- Hkeys. apply longest_first_sorted.
  - intros key Hin. apply (first_alias_None _ _ E).
    + intros k Hk. by apply elem_of_longest_first.
    + by apply elem_of_longest_first.
Qed.

(** ** What the intent resolver emits *)

Lemma first_in_elem xs u x : first_in xs u = Some x → x ∈ xs.
Proof.
  induction xs as [|y xs IH]; simpl; [done|].
  destruct (py_in y u).
  - intros [= ->]. apply list_elem_of_here.
  - intros H. apply list_elem_of_further. by apply IH.
Qed.

Lemma in_range_1_4_cases c : in_range "1" "4" c = true → c ∈ ("1234" : str).
Proof.
  destruct c as [[] [] [] [] [] [] [] []]; intros H; vm_compute in H;
    try discriminate H; clear H; apply (bool_decide_unpack _); vm_compute; exact I.
Qed.

(** Both level patterns capture exactly one character, one of 1..4. *)
Lemma level_pattern_captures u m :
  or_else (Re.search false re_lvl_00 u) (Re.search false re_lvl_xx u) = Some m →
  ∃ c, c ∈ ("1234" : str) ∧ m.1.1 = [(1, [c])].
Proof.
  unfold or_else. destruct (Re.search false re_lvl_00 u) as [m'|] eqn:E1.
  - intros [= ->]. apply search_from_Some in E1 as (pre & suf & -> & Hm).
    unfold re_lvl_00, Re.cat, Re.alts in Hm. cbn [foldr] in Hm. run_inv.
    match goal with
    | H : _ ∈ Re.run _ (Re.Alt _ _) _ _ |- _ =>
        apply elem_of_run_Alt in H as [H|H];
        [|apply elem_of_run_Alt in H as [H|H];
          [|apply elem_of_run_Alt in H as [H|H]]]
    end;
      run_inv; subst;
      repeat match goal with
             | H : Re.lit_eq false _ _ = true |- _ => apply lit_eq_exact in H
             end;
      subst; eexists; (split; [|reflexivity]);
      apply (bool_decide_unpack _); vm_compute; exact I.
  - intros E2. apply search_from_Some in E2 as (pre & suf & -> & Hm).
    unfold re_lvl_xx, Re.cat in Hm. cbn [foldr] in Hm. run_inv. subst.
    eexists. split; [|reflexivity]. by apply in_range_1_4_cases.
Qed.

Lemma alias_value text v : _normalize_department text = Some v → v ∈ SUBJECT_ALIASES.*2.
Proof.
  unfold _normalize_department.
  intros (pre & key & post & _ & _ & _ & Hv%assoc_get_elem)%first_alias_Some.
  apply list_elem_of_fmap. by exists (key, v).
Qed.

(** The arguments of a combined-filter intent. *)
Lemma filter_intent_args utterance dep lvl tod limit :
  detect_intent utterance = FindSectionsFiltered dep lvl tod limit →
  limit = 20%Z ∧
  given dep || given lvl || given tod = true ∧
  (∀ d, dep = Some d → d ∈ SUBJECT_ALIASES.*2) ∧
  (∀ l, lvl = Some l → l ∈ explicit_levels) ∧
  (∀ t, tod = Some t → t ∈ bucket_names).
Proof.
  unfold detect_intent. cbv zeta.
  match goal with
  | |- context [FindSectionsFiltered ?d ?l ?t 20] =>
      set (dep' := d); set (lvl' := l); set (tod' := t)
  end.
  assert (Hdep : ∀ d, dep' = Some d → d ∈ SUBJECT_ALIASES.*2).
  { intros d. unfold dep'.
    destruct (given (_normalize_department utterance)).
    - apply alias_value.
    - destruct (Re.search false re_subject utterance) as [m|]; [|apply alias_value].
      destruct (bool_decide _) eqn:E; [|apply alias_value].
      intros [= <-]. by apply bool_decide_eq_true in E. }
  assert (Hlvl : ∀ l, lvl' = Some l → l ∈ explicit_levels).
  { intros l. unfold lvl'.
    destruct (or_else _ _) as [m|] eqn:E; [|done].
    destruct (level_pattern_captures _ _ E) as (c & Hc & Hg).
    destruct m as [[g mt] rest]. simpl in Hg. subst g. intros [= <-].
    repeat (apply elem_of_cons in Hc as [->|Hc]); try (by apply elem_of_nil in Hc);
      apply (bool_decide_unpack _); vm_compute; exact I. }
  assert (Htod : ∀ t, tod' = Some t → t ∈ bucket_names).
  { intros t. unfold tod'. apply first_in_elem. }
  clearbody dep' lvl' tod'.
  destruct (asks_details _); [destruct (section_id_cue _ _); [done|]|];
    (destruct (given dep' || given lvl' || given tod') eqn:G;
     [intros [= <- <- <- <-]; by repeat split
     |destruct (Re.found _); discriminate]).
Qed.

(** X17.  When the resolver selects the combined filter, the arguments it
    passes are always usable: the limit is 20, at least one of department,
    level and time of day is given, the department is a canonical name of the
    alias table, the level is "100", "200", "300" or "400", and the time of
    day is one of the three bucket names. *)
Theorem resolver_emits_valid_filter utterance dep lvl tod limit :
  detect_intent utterance = FindSectionsFiltered dep lvl tod limit →
  limit = 20%Z ∧
  given dep || given lvl || given tod = true ∧
  (∀ d, dep = Some d → d ∈ SUBJECT_ALIASES.*2) ∧
  (∀ l, lvl = Some l → l ∈ explicit_levels) ∧
  (∀ t, tod = Some t → t ∈ bucket_names).
Proof. apply filter_intent_args. Qed.

Lemma resolver_emits_valid_filter_witness :
  20%Z = 20%Z ∧
  given (Some ("COMPUTER SCIENCE" : str)) || given (Some ("300" : str))
    || given (Some ("morning" : str)) = true ∧
  (∀ d, Some ("COMPUTER SCIENCE" : str) = Some d → d ∈ SUBJECT_ALIASES.*2) ∧
  (∀ l, Some ("300" : str) = Some l → l ∈ explicit_levels) ∧
  (∀ t, Some ("morning" : str) = Some t → t ∈ bucket_names).
Proof.
  apply (resolver_emits_valid_filter "morning 3XX-level Comp Sci please").
  vm_compute. reflexivity.
Defined.

(** ** The guards of the combined filter *)

Lemma passes_guards q dep lvl bucket s title desc :
  well_formed s = true →
  passes q dep lvl bucket s title desc
  = Ok (text_ok q title desc && dept_ok dep s && level_ok lvl s && time_ok bucket s).
Proof.
  intros H. unfold passes, text_ok, dept_ok, level_ok, time_ok.
  destruct (sec_dept_ok s H) as (d & ->).
  destruct (sec_level_ok s) as (l & ->).
  destruct (sec_time_str_ok s H) as (w & ->).
  destruct (given q), (given dep), (given lvl), (given bucket);
    cbn [mbind result_bind negb andb orb];
    destruct (py_in (lower (default [] q)) (lower (title ++ newline ++ desc)));
    cbn [mbind result_bind negb andb orb]; try reflexivity;
    destruct (dept_matches (upper d) (default [] dep));
    cbn [mbind result_bind negb andb orb]; try reflexivity;
    destruct (bool_decide (l = default [] lvl));
    cbn [mbind result_bind negb andb orb]; try reflexivity;
    by destruct (_time_in_bin w (default [] bucket)).
Qed.

Lemma filtered_test_returns q dep lvl bucket s :
  well_formed s = true →
  returns (filtered_test q dep lvl bucket s) ∧ returns (filtered_row_for s).
Proof.
  intros H. unfold filtered_test, filtered_row_for.
  destruct (sec_title_ok s H) as (t & ->). cbn [mbind result_bind].
  destruct (sec_desc_ok s H) as (d & ->). cbn [mbind result_bind].
  split; [by apply passes_returns|by apply filtered_row_of_ok].
Qed.

Lemma collect_length {A : Type} (test : record → result bool)
    (row : record → result A) data out :
  collect test row data = Ok out → length out ≤ length data.
Proof.
  intros H%collect_filter.
  rewrite <- (length_fmap fst out), H. apply List.filter_length_le.
Qed.

(** With a limit above the size of the dataset the loop of the combined
    filter is the selection loop of the other tools. *)
Lemma filtered_hits_uncapped query department level time_of_day limit data :
  forallb well_formed data = true → (Z.of_nat (length data) < limit)%Z →
  ∃ all,
    collect (filtered_test
               (if given query then Some (_n query) else None)
               (if given department then Some (upper (_n department)) else None)
               (filter_level_cue level)
               (if given time_of_day then Some (lower (_n time_of_day)) else None))
            filtered_row_for data = Ok all ∧
    find_sections_filtered_hits query department level time_of_day limit data = Ok all.
Proof.
  intros Hwf Hlim. unfold find_sections_filtered_hits.
  set (q := if given query then _ else _).
  set (dep := if given department then _ else _).
  set (bucket := if given time_of_day then _ else _).
  destruct (collect_returns (filtered_test q dep (filter_level_cue level) bucket)
              filtered_row_for data) as [all Hall].
  { intros s Hs. apply filtered_test_returns. by apply (well_formed_all data). }
  exists all. split; [done|].
  rewrite (filtered_loop_take _ _ _ _ limit data [] all Hall);
    [|unfold row_cap; simpl; lia].
  simpl. rewrite Nat.sub_0_r. f_equal. apply take_ge.
  pose proof (collect_length _ _ _ _ Hall). unfold row_cap. lia.
Qed.

Lemma collect_complete_row {A : Type} (test : record → result bool)
    (row : record → result A) data out s a :
  collect test row data = Ok out → s ∈ data → test s = Ok true → row s = Ok a →
  (s, a) ∈ out.
Proof.
  revert out. induction data as [|x data IH]; intros out; simpl.
  - intros _ Hin. by apply elem_of_nil in Hin.
  - destruct (test x) as [b|e] eqn:Et; cbn [mbind result_bind]; [|done].
    destruct b.
    + destruct (row x) as [a'|e] eqn:Er; cbn [mbind result_bind]; [|done].
      destruct (collect test row data) as [out'|e]; cbn [mbind result_bind]; [|done].
      intros [= <-] Hin Hs Ha.
      apply elem_of_cons in Hin as [->|Hin].
      * rewrite Er in Ha. injection Ha as ->. apply list_elem_of_here.
      * apply list_elem_of_further. by apply IH.
    + intros Hc Hin Hs Ha. apply elem_of_cons in Hin as [->|Hin]; [congruence|].
      by apply IH.
Qed.

Lemma filtered_test_guards q dep lvl bucket s :
  well_formed s = true →
  ∃ title desc, sec_title s = Ok title ∧ sec_desc s = Ok desc ∧
    filtered_test q dep lvl bucket s
    = Ok (text_ok q title desc && dept_ok dep s && level_ok lvl s && time_ok bucket s).
Proof.
  intros H. unfold filtered_test.
  destruct (sec_title_ok s H) as (t & Et). destruct (sec_desc_ok s H) as (d & Ed).
  exists t, d. rewrite Et, Ed. cbn [mbind result_bind].
  split; [done|]. split; [done|]. by apply passes_guards.
Qed.

(** ** Each constraint only narrows *)

Lemma text_ok_relax a b title desc :
  relaxes a b → text_ok a title desc = true → text_ok b title desc = true.
Proof. by intros [->| ->]. Qed.

Lemma dept_ok_relax a b s : relaxes a b → dept_ok a s = true → dept_ok b s = true.
Proof. by intros [->| ->]. Qed.

Lemma level_ok_relax a b s : relaxes a b → level_ok a s = true → level_ok b s = true.
Proof. by intros [->| ->]. Qed.

Lemma time_ok_relax a b s : relaxes a b → time_ok a s = true → time_ok b s = true.
Proof. by intros [->| ->]. Qed.

Lemma relaxes_given (f : option str → str) a b :
  relaxes a b →
  relaxes (if given a then Some (f a) else None) (if given b then Some (f b) else None).
Proof. intros [->| ->]; [by left|by right]. Qed.

Lemma relaxes_level_cue a b :
  relaxes a b → relaxes (filter_level_cue a) (filter_level_cue b).
Proof. intros [->| ->]; [by left|by right]. Qed.

(** X18.  Each constraint only narrows.  On a well-formed dataset and with
    a limit above its size, every row the combined filter returns is also
    returned when any of the four arguments is left out. *)
Theorem constraints_only_narrow
    query department level time_of_day query' department' level' time_of_day'
    limit data :
  forallb well_formed data = true → (Z.of_nat (length data) < limit)%Z →
  relaxes query query' → relaxes department department' →
  relaxes level level' → relaxes time_of_day time_of_day' →
  ∃ narrow wide,
    find_sections_filtered_hits query department level time_of_day limit data
    = Ok narrow ∧
    find_sections_filtered_hits query' department' level' time_of_day' limit data
    = Ok wide ∧
    narrow ⊆ wide.
Proof.
  intros Hwf Hlim Rq Rd Rl Rt.
  destruct (filtered_hits_uncapped query department level time_of_day limit data
              Hwf Hlim) as (narrow & Hn & ->).
  destruct (filtered_hits_uncapped query' department' level' time_of_day' limit data
              Hwf Hlim) as (wide & Hw & ->).
  exists narrow, wide. split; [done|]. split; [done|].
  intros [s row] Hin.
  destruct (collect_sound _ _ _ _ _ _ Hn Hin) as (Hd & Ht & Hr).
  apply (collect_complete_row _ _ _ _ _ _ Hw Hd); [|done].
  pose proof (well_formed_all data s Hwf Hd) as Hws.
  destruct (filtered_test_guards
              (if given query then Some (_n query) else None)
              (if given department then Some (upper (_n department)) else None)
              (filter_level_cue level)
              (if given time_of_day then Some (lower (_n time_of_day)) else None)
              s Hws) as (t & d & Et & Ed & E1).
  destruct (filtered_test_guards
              (if given query' then Some (_n query') else None)
              (if given department' then Some (upper (_n department')) else None)
              (filter_level_cue level')
              (if given time_of_day' then Some (lower (_n time_of_day')) else None)
              s Hws) as (t' & d' & Et' & Ed' & E2).
  rewrite Et in Et'. injection Et' as <-. rewrite Ed in Ed'. injection Ed' as <-.
  rewrite E2. rewrite E1 in Ht. injection Ht as Ht. f_equal.
  apply andb_true_iff in Ht as [Ht G4]. apply andb_true_iff in Ht as [Ht G3].
  apply andb_true_iff in Ht as [G1 G2].
  rewrite (text_ok_relax _ _ t d (relaxes_given _n _ _ Rq) G1).
  rewrite (dept_ok_relax _ _ s (relaxes_given (λ o, upper (_n o)) _ _ Rd) G2).
  rewrite (level_ok_relax _ _ s (relaxes_level_cue _ _ Rl) G3).
  by rewrite (time_ok_relax _ _ s (relaxes_given (λ o, lower (_n o)) _ _ Rt) G4).
Qed.

Lemma constraints_only_narrow_witness :
  ∃ narrow wide,
    find_sections_filtered_hits (Some ("testing" : str)) (Some ("cs" : str))
      (Some ("200" : str)) (Some ("morning" : str)) 20
      [section_cs262; section_engl300] = Ok narrow ∧
    find_sections_filtered_hits (Some ("testing" : str)) None
      (Some ("200" : str)) None 20
      [section_cs262; section_engl300] = Ok wide ∧
    narrow ⊆ wide.
Proof.
  apply constraints_only_narrow.
  - vm_compute. reflexivity.
  - simpl. lia.
  - by left.
  - by right.
  - by left.
  - by right.
Defined.

(** ** One constraint alone *)

Lemma selected_collect {A : Type} (test : record → result bool)
    (row : record → result A) data :
  (∀ s, s ∈ data → returns (test s) ∧ returns (row s)) →
  selected (collect test row data) = Ok (List.filter (passed test) data).
Proof.
  intros H. destruct (collect_returns test row data H) as [out Hout].
  unfold selected. rewrite Hout. cbn [mbind result_bind].
  by rewrite (collect_filter _ _ _ _ Hout).
Qed.

Lemma selected_filtered query department level time_of_day limit data :
  forallb well_formed data = true → (Z.of_nat (length data) < limit)%Z →
  selected (find_sections_filtered_hits query department level time_of_day limit data)
  = Ok (List.filter
          (passed (filtered_test
             (if given query then Some (_n query) else None)
             (if given department then Some (upper (_n department)) else None)
             (filter_level_cue level)
             (if given time_of_day then Some (lower (_n time_of_day)) else None)))
          data).
Proof.
  intros Hwf Hlim.
  destruct (filtered_hits_uncapped query department level time_of_day limit data
              Hwf Hlim) as (all & Hall & ->).
  unfold selected. cbn [mbind result_bind]. by rewrite (collect_filter _ _ _ _ Hall).
Qed.

Lemma filter_on (f g : record → bool) (data : list record) :
  (∀ s, s ∈ data → f s = g s) → List.filter f data = List.filter g data.
Proof. intros H. apply List.filter_ext_in. intros s Hs. by apply H, list_elem_of_In. Qed.

Lemma passed_filtered_test q dep lvl bucket s title desc :
  well_formed s = true → sec_title s = Ok title → sec_desc s = Ok desc →
  passed (filtered_test q dep lvl bucket) s
  = text_ok q title desc && dept_ok dep s && level_ok lvl s && time_ok bucket s.
Proof.
  intros H Et Ed. unfold passed.
  destruct (filtered_test_guards q dep lvl bucket s H) as (t & d & Et' & Ed' & ->).
  rewrite Et in Et'. injection Et' as <-. rewrite Ed in Ed'. injection Ed' as <-.
  by destruct (_ && _).
Qed.

Lemma text_ok_arg (q title desc : str) :
  text_ok (if given (Some q) then Some (_n (Some q)) else None) title desc
  = _contains (title ++ newline ++ desc) (strip q).
Proof.
  unfold text_ok, _contains, _n. cbn [given default from_option id].
  destruct (nonempty q) eqn:E1.
  - cbn [given default from_option id]. destruct (nonempty (strip q)) eqn:E2; [done|].
    apply nonempty_false in E2. rewrite E2. cbn [negb orb]. symmetry. apply py_in_nil.
  - apply nonempty_false in E1. subst q. symmetry. apply py_in_nil.
Qed.

Lemma dept_ok_arg (d : str) s subj :
  sec_dept s = Ok subj →
  dept_ok (if given (Some d) then Some (upper (_n (Some d))) else None) s
  = dept_matches (upper subj) (upper (strip d)).
Proof.
  intros Es. unfold dept_ok, _n. rewrite Es. cbn [given default from_option id].
  assert (Hblank : ∀ x, upper (strip d) = [] →
            dept_matches x (upper (strip d)) = true).
  { intros x ->. unfold dept_matches. by rewrite startswith_nil, orb_true_r. }
  destruct (nonempty d) eqn:E1.
  - cbn [given default from_option id]. destruct (nonempty (upper (strip d))) eqn:E2; [done|].
    apply nonempty_false in E2. cbn [negb orb]. symmetry. by apply Hblank.
  - apply nonempty_false in E1. subst d. cbn [given negb orb]. symmetry.
    by apply Hblank.
Qed.

Lemma time_ok_arg (t : str) s w :
  strip t ≠ [] → sec_time_str s = Ok w →
  time_ok (if given (Some t) then Some (lower (_n (Some t))) else None) s
  = _time_in_bin w (lower (strip t)).
Proof.
  intros Hne Es. unfold time_ok, _n. rewrite Es. cbn [given default from_option id].
  assert (E1 : nonempty t = true).
  { apply nonempty_true. intros ->. by apply Hne. }
  rewrite E1. cbn [given default from_option id].
  assert (E2 : nonempty (lower (strip t)) = true).
  { destruct (strip t); [done|reflexivity]. }
  by rewrite E2.
Qed.

Lemma level_ok_arg (l : str) s x :
  filter_level_cue (Some l) = Some (level_cue l) → sec_level s = Ok x →
  level_ok (filter_level_cue (Some l)) s = bool_decide (x = level_cue l).
Proof.
  intros Hcue Es. unfold level_ok. rewrite Es, Hcue. cbn [given default from_option id].
  pose proof (filter_level_cue_nonempty _ _ Hcue) as Hne.
  apply nonempty_true in Hne. by rewrite Hne.
Qed.

(** X19.  One constraint alone makes the combined filter a single-purpose
    tool.  On a well-formed dataset and with a limit above its size, the
    combined filter given only a query selects exactly the sections of the
    text search, in the same order; given only a department, those of the
    department filter; given only a time of day that is not blank, those of
    the time-of-day filter; and given only a level that both tools resolve
    alike, those of the level filter. *)
Theorem one_constraint_is_the_single_tool arg limit data :
  forallb well_formed data = true → (Z.of_nat (length data) < limit)%Z →
  selected (find_sections_filtered_hits (Some arg) None None None limit data)
  = selected (find_courses_hits arg data) ∧
  selected (find_sections_filtered_hits None (Some arg) None None limit data)
  = selected (find_sections_by_department_hits arg data) ∧
  (filter_level_cue (Some arg) = Some (level_cue arg) →
   selected (find_sections_filtered_hits None None (Some arg) None limit data)
   = selected (find_sections_by_level_hits arg data)) ∧
  (strip arg ≠ [] →
   selected (find_sections_filtered_hits None None None (Some arg) limit data)
   = selected (find_sections_by_time_hits arg data)).
Proof.
  intros Hwf Hlim.
  assert (Hw : ∀ s, s ∈ data → well_formed s = true).
  { intros s Hs. by apply (well_formed_all data). }
  split; [|split; [|split]].
  - rewrite selected_filtered by done.
    unfold find_courses_hits. rewrite _norm_VStr. cbn [mbind result_bind].
    rewrite selected_collect.
    + f_equal. apply filter_on. intros s Hs. specialize (Hw s Hs).
      destruct (sec_title_ok s Hw) as (t & Et). destruct (sec_desc_ok s Hw) as (d & Ed).
      rewrite (passed_filtered_test _ _ _ _ s t d Hw Et Ed).
      unfold passed. rewrite Et, Ed. cbn [mbind result_bind].
      rewrite text_ok_arg. cbn [filter_level_cue given dept_ok level_ok time_ok negb orb].
      by destruct (_contains _ _).
    + intros s Hs. specialize (Hw s Hs). split; [|by apply course_row_of_ok].
      destruct (sec_title_ok s Hw) as (t & ->). destruct (sec_desc_ok s Hw) as (d & ->).
      by eexists.
  - rewrite selected_filtered by done.
    unfold find_sections_by_department_hits. rewrite _norm_VStr.
    cbn [mbind result_bind]. rewrite selected_collect.
    + f_equal. apply filter_on. intros s Hs. specialize (Hw s Hs).
      destruct (sec_title_ok s Hw) as (t & Et). destruct (sec_desc_ok s Hw) as (d & Ed).
      destruct (sec_dept_ok s Hw) as (subj & Es).
      rewrite (passed_filtered_test _ _ _ _ s t d Hw Et Ed).
      unfold passed. rewrite Es. cbn [mbind result_bind].
      rewrite (dept_ok_arg arg s subj Es).
      cbn [filter_level_cue given text_ok level_ok time_ok negb orb andb].
      by destruct (dept_matches _ _).
    + intros s Hs. specialize (Hw s Hs). split; [|by apply section_row_of_ok].
      destruct (sec_dept_ok s Hw) as (subj & ->). by eexists.
  - intros Hcue. rewrite selected_filtered by done.
    unfold find_sections_by_level_hits. rewrite selected_collect.
    + f_equal. apply filter_on. intros s Hs. specialize (Hw s Hs).
      destruct (sec_title_ok s Hw) as (t & Et). destruct (sec_desc_ok s Hw) as (d & Ed).
      destruct (sec_level_ok s) as (x & Es).
      rewrite (passed_filtered_test _ _ _ _ s t d Hw Et Ed).
      unfold passed. rewrite Es. cbn [mbind result_bind].
      rewrite (level_ok_arg arg s x Hcue Es).
      cbn [given text_ok dept_ok time_ok negb orb andb].
      by destruct (bool_decide _).
    + intros s Hs. specialize (Hw s Hs). split; [|by apply brief_row_of_ok].
      destruct (sec_level_ok s) as (x & ->). by eexists.
  - intros Hne. rewrite selected_filtered by done.
    unfold find_sections_by_time_hits. rewrite _norm_VStr.
    cbn [mbind result_bind]. rewrite selected_collect.
    + f_equal. apply filter_on. intros s Hs. specialize (Hw s Hs).
      destruct (sec_title_ok s Hw) as (t & Et). destruct (sec_desc_ok s Hw) as (d & Ed).
      destruct (sec_time_str_ok s Hw) as (w & Es).
      rewrite (passed_filtered_test _ _ _ _ s t d Hw Et Ed).
      unfold passed. rewrite Es. cbn [mbind result_bind].
      rewrite (time_ok_arg arg s w Hne Es).
      cbn [filter_level_cue given text_ok dept_ok level_ok negb orb andb].
      by destruct (_time_in_bin _ _).
    + intros s Hs. specialize (Hw s Hs). split; [|by apply brief_row_of_ok].
      destruct (sec_time_str_ok s Hw) as (w & ->). by eexists.
Qed.

Lemma one_constraint_is_the_single_tool_witness :
  selected (find_sections_filtered_hits (Some ("morning" : str)) None None None 50
              [section_cs262; section_engl300])
  = selected (find_courses_hits "morning" [section_cs262; section_engl300]) ∧
  selected (find_sections_filtered_hits None (Some ("morning" : str)) None None 50
              [section_cs262; section_engl300])
  = selected (find_sections_by_department_hits "morning"
                [section_cs262; section_engl300]) ∧
  (filter_level_cue (Some ("morning" : str)) = Some (level_cue "morning") →
   selected (find_sections_filtered_hits None None (Some ("morning" : str)) None 50
               [section_cs262; section_engl300])
   = selected (find_sections_by_level_hits "morning"
                 [section_cs262; section_engl300])) ∧
  (strip "morning" ≠ [] →
   selected (find_sections_filtered_hits None None None (Some ("morning" : str)) 50
               [section_cs262; section_engl300])
   = selected (find_sections_by_time_hits "morning"
                 [section_cs262; section_engl300])).
Proof.
  apply one_constraint_is_the_single_tool.
  - vm_compute. reflexivity.
  - simpl. lia.
Defined.

(** ** Listed ids can be looked up *)

Lemma looked_up data r i :
  forallb well_formed data = true → r ∈ data → sec_id r = Ok i →
  can_be_looked_up data i.
Proof.
  intros Hwf Hr Hi.
  destruct (sec_id_ok r (well_formed_all data r Hwf Hr)) as (i' & Hi' & Hstrip).
  rewrite Hi in Hi'. injection Hi' as <-.
  destruct (lookup_id_hits i data r) as (s & Hs & Hsi & Hsd); [|done|done|].
  { intros x Hx. destruct (sec_id_ok x (well_formed_all data x Hwf Hx)) as (j & ? & _).
    by exists j. }
  exists s. split; [|done]. unfold get_section_details.
  rewrite _norm_VStr, Hstrip. exact Hs.
Qed.

Lemma course_row_id s a : course_row_of s = Ok a → sec_id s = Ok (cr_section_id a).
Proof.
  unfold course_row_of.
  destruct (sec_id s), (sec_name s), (sec_title s), (sec_dept s), (sec_level s),
    (sec_time_str s); cbn [mbind result_bind]; try done.
  by intros [= <-].
Qed.

Lemma section_row_id s a : section_row_of s = Ok a → sec_id s = Ok (sr_section_id a).
Proof.
  unfold section_row_of.
  destruct (sec_id s), (sec_name s), (sec_title s), (sec_time_str s);
    cbn [mbind result_bind]; try done.
  by intros [= <-].
Qed.

Lemma brief_row_id s a : brief_row_of s = Ok a → sec_id s = Ok (br_section_id a).
Proof.
  unfold brief_row_of.
  destruct (sec_id s), (sec_name s), (sec_title s); cbn [mbind result_bind]; try done.
  by intros [= <-].
Qed.

Lemma filtered_row_id s title desc a :
  filtered_row_of s title desc = Ok a → sec_id s = Ok (fr_section_id a).
Proof.
  unfold filtered_row_of.
  destruct (sec_id s), (sec_name s), (sec_dept s), (sec_level s), (sec_time_str s);
    cbn [mbind result_bind]; try done.
  by intros [= <-].
Qed.

Lemma rows_lookup {A : Type} (idof : A → str)
    (hits : result (list (record * A))) data out a :
  forallb well_formed data = true →
  (∀ o s x, hits = Ok o → (s, x) ∈ o → s ∈ data ∧ sec_id s = Ok (idof x)) →
  rows hits = Ok out → a ∈ out → can_be_looked_up data (idof a).
Proof.
  intros Hwf Hhits Hrows Ha. unfold rows in Hrows.
  destruct hits as [o|]; cbn [mbind result_bind] in Hrows; [|done].
  injection Hrows as <-.
  apply list_elem_of_fmap in Ha as ([s x] & -> & Hin). cbn [snd].
  destruct (Hhits o s x eq_refl Hin) as [Hd Hi].
  by apply (looked_up data s).
Qed.

(** X20.  Every section id a tool lists can be looked up.  On a well-formed
    dataset, the [section_id] of any row returned by the text search, the
    title search, the department, level and time-of-day filters or the
    combined filter is an id for which the lookup returns a record of the
    dataset, never the not-found value. *)
Theorem listed_ids_can_be_looked_up data :
  forallb well_formed data = true →
  (∀ arg out row, find_courses arg data = Ok out → row ∈ out →
     can_be_looked_up data (cr_section_id row)) ∧
  (∀ arg out row, find_sections arg data = Ok out → row ∈ out →
     can_be_looked_up data (sr_section_id row)) ∧
  (∀ arg out row, find_sections_by_department arg data = Ok out → row ∈ out →
     can_be_looked_up data (sr_section_id row)) ∧
  (∀ arg out row, find_sections_by_level arg data = Ok out → row ∈ out →
     can_be_looked_up data (br_section_id row)) ∧
  (∀ arg out row, find_sections_by_time arg data = Ok out → row ∈ out →
     can_be_looked_up data (br_section_id row)) ∧
  (∀ query department level time_of_day limit out row,
     find_sections_filtered query department level time_of_day limit data = Ok out →
     row ∈ out → can_be_looked_up data (fr_section_id row)).
Proof.
  intros Hwf.
  split; [|split; [|split; [|split; [|split]]]].
  - intros arg out row. apply (rows_lookup cr_section_id); [done|].
    unfold find_courses_hits. rewrite _norm_VStr. cbn [mbind result_bind].
    intros o s x Ho Hin. destruct (collect_sound _ _ _ _ _ _ Ho Hin) as (Hd & _ & Hr).
    split; [done|by apply course_row_id].
  - intros arg out row. apply (rows_lookup sr_section_id); [done|].
    unfold find_sections_hits. rewrite _norm_VStr. cbn [mbind result_bind].
    intros o s x Ho Hin. destruct (collect_sound _ _ _ _ _ _ Ho Hin) as (Hd & _ & Hr).
    split; [done|by apply section_row_id].
  - intros arg out row. apply (rows_lookup sr_section_id); [done|].
    unfold find_sections_by_department_hits. rewrite _norm_VStr.
    cbn [mbind result_bind].
    intros o s x Ho Hin. destruct (collect_sound _ _ _ _ _ _ Ho Hin) as (Hd & _ & Hr).
    split; [done|by apply section_row_id].
  - intros arg out row. apply (rows_lookup br_section_id); [done|].
    unfold find_sections_by_level_hits.
    intros o s x Ho Hin. destruct (collect_sound _ _ _ _ _ _ Ho Hin) as (Hd & _ & Hr).
    split; [done|by apply brief_row_id].
  - intros arg out row. apply (rows_lookup br_section_id); [done|].
    unfold find_sections_by_time_hits. rewrite _norm_VStr. cbn [mbind result_bind].
    intros o s x Ho Hin. destruct (collect_sound _ _ _ _ _ _ Ho Hin) as (Hd & _ & Hr).
    split; [done|by apply brief_row_id].
  - intros query department level time_of_day limit out row.
    apply (rows_lookup fr_section_id); [done|].
    unfold find_sections_filtered_hits. intros o s x Ho Hin.
    destruct (filtered_loop_sound _ _ _ _ _ _ _ _ _ _ Ho Hin)
      as [H0|(Hd & title & desc & Et & Ed & Hp & Hr)].
    + by apply elem_of_nil in H0.
    + split; [done|by apply (filtered_row_id s title desc)].
Qed.

Lemma listed_ids_can_be_looked_up_witness :
  can_be_looked_up [section_cs262; section_engl300] "CS 262-01".
Proof.
  pose proof (listed_ids_can_be_looked_up [section_cs262; section_engl300]) as H.
  destruct H as [H _]; [vm_compute; reflexivity|].
  apply (H "Testing" [course_row_cs262] course_row_cs262).
  - vm_compute. reflexivity.
  - apply list_elem_of_here.
Defined.

(** ** The fallback of the agent *)

(** X21.  The clarifying question is asked exactly when the resolver found
    no tool: whether or not the server has the combined filter, the fallback
    never turns a request the resolver made into the question. *)
Theorem fallback_never_drops_a_request has_combined utterance :
  main_intent has_combined (detect_intent utterance) = Clarify ↔
  detect_intent utterance = NoTool.
Proof.
  destruct (detect_intent utterance) as [|sid|dep lvl tod limit|q] eqn:E;
    cbn [main_intent]; split; try done.
  apply filter_intent_args in E as (_ & G & _).
  destruct has_combined; cbn [negb given]; [done|].
  by destruct (given dep), (given lvl), (given tod).
Qed.

Lemma filtered_hits_guards query department level time_of_day limit data out s :
  forallb well_formed data = true →
  find_sections_filtered_hits query department level time_of_day limit data = Ok out →
  s ∈ out.*1 →
  s ∈ data ∧
  dept_ok (if given department then Some (upper (_n department)) else None) s = true ∧
  level_ok (filter_level_cue level) s = true ∧
  time_ok (if given time_of_day then Some (lower (_n time_of_day)) else None) s = true.
Proof.
  intros Hwf Hout Hs.
  destruct (filtered_hits_sound _ _ _ _ _ _ _ _ Hout Hs)
    as (Hd & title & desc & row & _ & _ & Hp & _).
  split; [done|].
  rewrite (passes_guards _ _ _ _ s title desc (well_formed_all data s Hwf Hd)) in Hp.
  injection Hp as Hp.
  apply andb_true_iff in Hp as [Hp G4]. apply andb_true_iff in Hp as [Hp G3].
  by apply andb_true_iff in Hp as [_ G2].
Qed.

Lemma explicit_level_cues l :
  l ∈ explicit_levels → filter_level_cue (Some l) = Some (level_cue l).
Proof.
  unfold explicit_levels. intros H.
  repeat (apply elem_of_cons in H as [->|H]; [by vm_compute|]).
  by apply elem_of_nil in H.
Qed.

Lemma bucket_name_not_blank t : t ∈ bucket_names → strip t ≠ [] ∧ given (Some t) = true.
Proof.
  unfold bucket_names. intros H.
  repeat (apply elem_of_cons in H as [->|H]; [by vm_compute|]).
  by apply elem_of_nil in H.
Qed.

(** X22.  A server without the combined filter loses no match.  When the
    resolver asks for the combined filter, the agent falls back on the
    department filter if a department was detected, else on the level
    filter if a level was, else on the time-of-day filter; and on a
    well-formed dataset the filter it calls returns every section the
    combined filter would have returned for the intent. *)
Theorem fallback_loses_no_match utterance dep lvl tod limit data :
  detect_intent utterance = FindSectionsFiltered dep lvl tod limit →
  forallb well_formed data = true →
  ∃ out,
    find_sections_filtered_hits None dep lvl tod limit data = Ok out ∧
    (∀ d, dep = Some d →
       main_intent false (detect_intent utterance) = CallFindSectionsByDepartment d ∧
       ∃ o, find_sections_by_department_hits d data = Ok o ∧ out.*1 ⊆ o.*1) ∧
    (∀ l, dep = None → lvl = Some l →
       main_intent false (detect_intent utterance) = CallFindSectionsByLevel l ∧
       ∃ o, find_sections_by_level_hits l data = Ok o ∧ out.*1 ⊆ o.*1) ∧
    (∀ t, dep = None → lvl = None → tod = Some t →
       main_intent false (detect_intent utterance) = CallFindSectionsByTime t ∧
       ∃ o, find_sections_by_time_hits t data = Ok o ∧ out.*1 ⊆ o.*1).
Proof.
  intros E Hwf.
  destruct (filtered_loop_returns None
              (if given dep then Some (upper (_n dep)) else None)
              (filter_level_cue lvl)
              (if given tod then Some (lower (_n tod)) else None)
              limit data [] Hwf) as [out Hout].
  exists out. split; [exact Hout|].
  pose proof (filtered_hits_guards None dep lvl tod limit data out) as Hg.
  specialize (λ s, Hg s Hwf Hout).
  assert (Hw : ∀ s, s ∈ data → well_formed s = true).
  { intros s Hs. by apply (well_formed_all data). }
  rewrite E. apply filter_intent_args in E as (_ & _ & Hdep & Hlvl & Htod).
  cbn [main_intent negb given].
  split; [|split].
  - intros d ->. specialize (Hdep d eq_refl).
    assert (Gd : given (Some d) = true).
    { destruct d; [|done]. exfalso. revert Hdep. apply (bool_decide_unpack _).
      vm_compute. exact I. }
    rewrite Gd in *. cbn [default from_option id]. split; [done|].
    unfold find_sections_by_department_hits. rewrite _norm_VStr.
    cbn [mbind result_bind].
    set (test := λ s : record, subj ← sec_dept s;
                   Ok (dept_matches (upper subj) (upper (strip d)))).
    destruct (collect_returns test section_row_of data) as [o Ho].
    { intros s Hs. split; [|by apply section_row_of_ok, Hw]. unfold test.
      destruct (sec_dept_ok s (Hw s Hs)) as (x & ->). by eexists. }
    exists o. split; [done|]. intros s Hs.
    destruct (Hg s Hs) as (Hd & G2 & _).
    apply (collect_complete test section_row_of data o s Ho Hd). unfold test.
    destruct (sec_dept_ok s (Hw s Hd)) as (subj & Es). rewrite Es.
    cbn [mbind result_bind]. f_equal.
    rewrite <- (dept_ok_arg d s subj Es), Gd. exact G2.
  - intros l -> ->. pose proof (Hlvl l eq_refl) as Hl.
    pose proof (explicit_level_cues l Hl) as Hcue.
    assert (Gl : given (Some l) = true).
    { destruct l; [|done]. exfalso. revert Hl. apply (bool_decide_unpack _).
      vm_compute. exact I. }
    rewrite Gl. cbn [default from_option id]. split; [done|].
    unfold find_sections_by_level_hits.
    set (test := λ s : record, x ← sec_level s; Ok (bool_decide (x = level_cue l))).
    destruct (collect_returns test brief_row_of data) as [o Ho].
    { intros s Hs. split; [|by apply brief_row_of_ok, Hw]. unfold test.
      destruct (sec_level_ok s) as (x & ->). by eexists. }
    exists o. split; [done|]. intros s Hs.
    destruct (Hg s Hs) as (Hd & _ & G3 & _).
    apply (collect_complete test brief_row_of data o s Ho Hd). unfold test.
    destruct (sec_level_ok s) as (x & Es). rewrite Es.
    cbn [mbind result_bind]. f_equal.
    by rewrite <- (level_ok_arg l s x Hcue Es).
  - intros t -> -> ->.
    destruct (bucket_name_not_blank t (Htod t eq_refl)) as [Hne Gt].
    rewrite Gt in *. cbn [default from_option id]. split; [done|].
    unfold find_sections_by_time_hits. rewrite _norm_VStr. cbn [mbind result_bind].
    set (test := λ s : record, w ← sec_time_str s;
                   Ok (_time_in_bin w (lower (strip t)))).
    destruct (collect_returns test brief_row_of data) as [o Ho].
    { intros s Hs. split; [|by apply brief_row_of_ok, Hw]. unfold test.
      destruct (sec_time_str_ok s (Hw s Hs)) as (x & ->). by eexists. }
    exists o. split; [done|]. intros s Hs.
    destruct (Hg s Hs) as (Hd & _ & _ & G4).
    apply (collect_complete test brief_row_of data o s Ho Hd). unfold test.
    destruct (sec_time_str_ok s (Hw s Hd)) as (w & Es). rewrite Es.
    cbn [mbind result_bind]. f_equal.
    rewrite <- (time_ok_arg t s w Hne Es), Gt. exact G4.
Qed.

Lemma fallback_loses_no_match_witness :
  ∃ out,
    find_sections_filtered_hits None None (Some ("200" : str))
      (Some ("morning" : str)) 20 [section_cs262; section_engl300] = Ok out ∧
    (∀ d, @None str = Some d →
       main_intent false (detect_intent "a 2xx course in the morning")
       = CallFindSectionsByDepartment d ∧
       ∃ o, find_sections_by_department_hits d [section_cs262; section_engl300]
            = Ok o ∧ out.*1 ⊆ o.*1) ∧
    (∀ l, @None str = None → Some ("200" : str) = Some l →
       main_intent false (detect_intent "a 2xx course in the morning")
       = CallFindSectionsByLevel l ∧
       ∃ o, find_sections_by_level_hits l [section_cs262; section_engl300] = Ok o ∧
            out.*1 ⊆ o.*1) ∧
    (∀ t, @None str = None → Some ("200" : str) = @None str →
       Some ("morning" : str) = Some t →
       main_intent false (detect_intent "a 2xx course in the morning")
       = CallFindSectionsByTime t ∧
       ∃ o, find_sections_by_time_hits t [section_cs262; section_engl300] = Ok o ∧
            out.*1 ⊆ o.*1).
Proof.
  apply (fallback_loses_no_match "a 2xx course in the morning").
  - vm_compute. reflexivity.
  - vm_compute. reflexivity.
Defined.

(** ** Time texts without a clock time *)

Lemma no_colon_no_bucket w label :
  existsb is_colon w = false → _time_in_bin w label = false.
Proof.
  intros H. rewrite _time_in_bin_start. unfold clock_start.
  rewrite (search_needs false is_colon re_clock w); [done|by vm_compute|].
  induction w as [|c w IH]; [done|]. simpl in *.
  apply orb_false_iff in H as [-> H]. by apply IH.
Qed.

(** X23.  The time-of-day filter never returns a section whose time text
    holds no clock time: every section it returns has a time text with a
    colon in it, so sections with only a date range, or with no time at
    all, are in no bucket. *)
Theorem time_filter_needs_a_clock_time time_of_day data out s :
  find_sections_by_time_hits time_of_day data = Ok out → s ∈ out.*1 →
  has_colon_in_time s.
Proof.
  unfold find_sections_by_time_hits. rewrite _norm_VStr. cbn [mbind result_bind].
  intros Hout ([s' r] & -> & Hin)%list_elem_of_fmap. cbn [fst].
  apply (collect_sound _ _ _ _ _ _ Hout) in Hin as (_ & Ht & _).
  unfold has_colon_in_time.
  destruct (sec_time_str s') as [w|]; cbn [mbind result_bind] in Ht; [|done].
  exists w. split; [done|]. injection Ht as Ht.
  destruct (existsb is_colon w) eqn:E; [done|].
  by rewrite (no_colon_no_bucket w _ E) in Ht.
Qed.

Lemma time_filter_needs_a_clock_time_witness : has_colon_in_time section_cs262.
Proof.
  apply (time_filter_needs_a_clock_time "morning" [section_cs262; section_engl300]
           [(section_cs262, brief_row_cs262)]).
  - vm_compute. reflexivity.
  - apply list_elem_of_here.
Defined.
